(** * SMS delivery queue: a shallow embedding of the Python sources

    The development follows the repository module by module:
    - [Py]         : the few Python built-ins the code relies on
                     (str methods, exceptions);
    - [MD5]        : hashlib.md5 (RFC 1321), used by the request signature;
    - [Red]        : the requests and responses exchanged over HTTP;
    - [TraffiLink] : traffilink_service.py (signature, transport wrapper);
    - [DB]         : database.py (the sqlite-backed queue store);
    - [RL]         : rate_limiter.py (adaptive token bucket);
    - [Sender]     : sender.py (message templating and the send routine);
    - [App]        : app.py (number normalisation, enrolment loop, webhook);
    - [Monitor]    : monitor.py (health report, dashboard).
    The statements about them come after the definitions.

    Modelling conventions.
    - A Python [str] is a Rocq [string]; each [ascii] is one code point in
      the range 0..255.  In that range the Unicode decimal digits are
      exactly '0'..'9', which is what the regular expression class \D
      complements.  [str.encode()] is UTF-8 and is written out.  (Accented
      letters inside the literal messages below stand as the bytes of this
      file; only their being non-empty matters.)
    - Clock readings ([time.time()], [datetime.now().timestamp()]) are
      Python floats; they are modelled as exact rationals [Q] in seconds.
    - A sqlite table is the list of its rows in rowid order.
    - A call that may raise returns a [resultado]; a database call also
      returns the store it leaves, after commit or rollback. *)

From Stdlib Require Import List ZArith QArith Qminmax Bool String Ascii Lia.
From Stdlib Require Import Permutation Sorted DecimalString.
Import ListNotations.

Local Open Scope string_scope.
Local Open Scope Z_scope.

(* ================================================================== *)
(** * Python built-ins *)

Module Py.

(** Exceptions that the modelled code can raise or catch. *)
Inductive excepcion : Type :=
| IntegrityError                (* sqlite3.IntegrityError *)
| IndexError (msg : string)     (* sqlite3.Row.__getitem__ / list index *)
| TypeError (msg : string)
| ValueError (msg : string)
| ZeroDivisionError
| Timeout                       (* requests.Timeout *)
| RequestException (msg : string)
| JSONDecodeError
| OtroError (msg : string).

(** [str(e)] for an exception [e]. *)
Definition str_excepcion (e : excepcion) : string :=
  match e with
  | IntegrityError => "UNIQUE constraint failed"
  | IndexError m => m
  | TypeError m => m
  | ValueError m => m
  | ZeroDivisionError => "float division by zero"
  | Timeout => "timeout"
  | RequestException m => m
  | JSONDecodeError => "Expecting value"
  | OtroError m => m
  end.

(** Outcome of a call that either returns or raises. *)
Inductive resultado (A : Type) : Type :=
| Ok (a : A)
| Lanza (e : excepcion).
Arguments Ok {A} a.
Arguments Lanza {A} e.

Definition es_digito (c : ascii) : bool :=
  let n := Z.of_nat (nat_of_ascii c) in (48 <=? n) && (n <=? 57).

(** [str.isspace] on the code points 0..255. *)
Definition es_espacio (c : ascii) : bool :=
  let n := Z.of_nat (nat_of_ascii c) in
  ((9 <=? n) && (n <=? 13)) || ((28 <=? n) && (n <=? 32))
  || (n =? 133) || (n =? 160).

Fixpoint filtrar (p : ascii -> bool) (s : string) : string :=
  match s with
  | EmptyString => EmptyString
  | String c r => if p c then String c (filtrar p r) else filtrar p r
  end.

Fixpoint lstrip (s : string) : string :=
  match s with
  | EmptyString => EmptyString
  | String c r => if es_espacio c then lstrip r else s
  end.

Fixpoint invertir_en (s acc : string) : string :=
  match s with
  | EmptyString => acc
  | String c r => invertir_en r (String c acc)
  end.

Definition invertir (s : string) : string := invertir_en s EmptyString.

(** [all(p(c) for c in s)] *)
Fixpoint todos (p : ascii -> bool) (s : string) : bool :=
  match s with
  | EmptyString => true
  | String c r => p c && todos p r
  end.

(** [s.strip()] *)
Definition strip (s : string) : string :=
  invertir (lstrip (invertir (lstrip s))).

(** [s.startswith(p)] *)
Definition startswith (s p : string) : bool := String.prefix p s.

(** [len(s)] *)
Definition len (s : string) : Z := Z.of_nat (String.length s).

(** [s[n:]] for a non-negative literal [n]. *)
Fixpoint desde (n : nat) (s : string) : string :=
  match n, s with
  | O, _ => s
  | S k, EmptyString => EmptyString
  | S k, String _ r => desde k r
  end.

(** [p in s] for strings. *)
Fixpoint contiene (s p : string) : bool :=
  String.prefix p s
  || match s with
     | EmptyString => false
     | String _ r => contiene r p
     end.

(** [s.replace(viejo, nuevo)] for a non-empty [viejo]: leftmost,
    non-overlapping occurrences.  [fuel] bounds the scan and is the
    length of [s] at the call. *)
Fixpoint replace_aux (fuel : nat) (s viejo nuevo : string) : string :=
  match fuel with
  | O => s
  | S f =>
      match s with
      | EmptyString => EmptyString
      | String c r =>
          if String.prefix viejo s
          then nuevo ++ replace_aux f (desde (String.length viejo) s) viejo nuevo
          else String c (replace_aux f r viejo nuevo)
      end
  end.

Definition replace (s viejo nuevo : string) : string :=
  replace_aux (String.length s) s viejo nuevo.

End Py.
Import Py.

(* ================================================================== *)
(** * hashlib.md5 (RFC 1321) *)

Module MD5.

Definition mascara : Z := 0xffffffff.
Definition w32 (x : Z) : Z := Z.land x mascara.
Definition neg32 (x : Z) : Z := Z.lxor (w32 x) mascara.
Definition sum32 (x y : Z) : Z := w32 (x + y).
Definition rotl (x c : Z) : Z :=
  w32 (Z.lor (Z.shiftl x c) (Z.shiftr (w32 x) (32 - c))).

Definition tabla_K : list Z :=
  [ 0xd76aa478; 0xe8c7b756; 0x242070db; 0xc1bdceee;
    0xf57c0faf; 0x4787c62a; 0xa8304613; 0xfd469501;
    0x698098d8; 0x8b44f7af; 0xffff5bb1; 0x895cd7be;
    0x6b901122; 0xfd987193; 0xa679438e; 0x49b40821;
    0xf61e2562; 0xc040b340; 0x265e5a51; 0xe9b6c7aa;
    0xd62f105d; 0x02441453; 0xd8a1e681; 0xe7d3fbc8;
    0x21e1cde6; 0xc33707d6; 0xf4d50d87; 0x455a14ed;
    0xa9e3e905; 0xfcefa3f8; 0x676f02d9; 0x8d2a4c8a;
    0xfffa3942; 0x8771f681; 0x6d9d6122; 0xfde5380c;
    0xa4beea44; 0x4bdecfa9; 0xf6bb4b60; 0xbebfbc70;
    0x289b7ec6; 0xeaa127fa; 0xd4ef3085; 0x04881d05;
    0xd9d4d039; 0xe6db99e5; 0x1fa27cf8; 0xc4ac5665;
    0xf4292244; 0x432aff97; 0xab9423a7; 0xfc93a039;
    0x655b59c3; 0x8f0ccc92; 0xffeff47d; 0x85845dd1;
    0x6fa87e4f; 0xfe2ce6e0; 0xa3014314; 0x4e0811a1;
    0xf7537e82; 0xbd3af235; 0x2ad7d2bb; 0xeb86d391 ].

Definition tabla_s : list Z :=
  [ 7; 12; 17; 22; 7; 12; 17; 22; 7; 12; 17; 22; 7; 12; 17; 22;
    5;  9; 14; 20; 5;  9; 14; 20; 5;  9; 14; 20; 5;  9; 14; 20;
    4; 11; 16; 23; 4; 11; 16; 23; 4; 11; 16; 23; 4; 11; 16; 23;
    6; 10; 15; 21; 6; 10; 15; 21; 6; 10; 15; 21; 6; 10; 15; 21 ].

Record estado_md5 : Type := mk_estado
  { reg_a : Z; reg_b : Z; reg_c : Z; reg_d : Z }.

Definition inicial : estado_md5 :=
  mk_estado 0x67452301 0xefcdab89 0x98badcfe 0x10325476.

(** Little-endian word from four bytes, and back. *)
Definition palabra (b0 b1 b2 b3 : Z) : Z :=
  b0 + 256 * b1 + 65536 * b2 + 16777216 * b3.

Fixpoint palabras (bs : list Z) : list Z :=
  match bs with
  | b0 :: b1 :: b2 :: b3 :: r => palabra b0 b1 b2 b3 :: palabras r
  | _ => []
  end.

Definition bytes_le (n : nat) (x : Z) : list Z :=
  map (fun i => Z.land (Z.shiftr x (8 * Z.of_nat i)) 255) (seq 0 n).

(** One of the 64 operations of a block. *)
Definition ronda (m : list Z) (st : estado_md5) (i : nat) : estado_md5 :=
  let '(mk_estado a b c d) := st in
  let iz := Z.of_nat i in
  let '(f, g) :=
    if iz <? 16 then (Z.lor (Z.land b c) (Z.land (neg32 b) d), iz)
    else if iz <? 32 then
      (Z.lor (Z.land d b) (Z.land (neg32 d) c), (5 * iz + 1) mod 16)
    else if iz <? 48 then (Z.lxor b (Z.lxor c d), (3 * iz + 5) mod 16)
    else (Z.lxor c (Z.lor b (neg32 d)), (7 * iz) mod 16) in
  let f' := sum32 (sum32 (sum32 f a) (nth i tabla_K 0))
                  (nth (Z.to_nat g) m 0) in
  mk_estado d (sum32 b (rotl f' (nth i tabla_s 0))) b c.

(** Absorb one 64-byte block. *)
Definition comprimir (st : estado_md5) (bloque : list Z) : estado_md5 :=
  let r := fold_left (ronda (palabras bloque)) (seq 0 64) st in
  mk_estado (sum32 (reg_a st) (reg_a r)) (sum32 (reg_b st) (reg_b r))
            (sum32 (reg_c st) (reg_c r)) (sum32 (reg_d st) (reg_d r)).

(** Streaming update: [buf] holds the pending bytes, newest first. *)
Definition absorber (acc : estado_md5 * list Z) (b : Z)
  : estado_md5 * list Z :=
  let '(st, buf) := acc in
  let buf' := b :: buf in
  if Nat.eqb (List.length buf') 64
  then (comprimir st (rev buf'), [])
  else (st, buf').

Definition relleno (longitud : nat) : list Z :=
  let resto := Nat.modulo (longitud + 1) 64 in
  let ceros := if Nat.leb resto 56 then (56 - resto)%nat
               else (120 - resto)%nat in
  128 :: repeat 0 ceros
      ++ bytes_le 8 ((8 * Z.of_nat longitud) mod 2 ^ 64).

Definition digest (datos : list Z) : list Z :=
  let '(st, _) :=
    fold_left absorber (datos ++ relleno (List.length datos))
              (inicial, []) in
  bytes_le 4 (reg_a st) ++ bytes_le 4 (reg_b st)
  ++ bytes_le 4 (reg_c st) ++ bytes_le 4 (reg_d st).

Definition cifra_hex (n : Z) : ascii :=
  match String.get (Z.to_nat n) "0123456789abcdef" with
  | Some c => c
  | None => "0"%char
  end.

Definition es_cifra_hex (c : ascii) : bool :=
  Py.contiene "0123456789abcdef" (String c EmptyString).

Fixpoint hex (bs : list Z) : string :=
  match bs with
  | [] => EmptyString
  | b :: r =>
      String (cifra_hex (Z.land (Z.shiftr b 4) 15))
             (String (cifra_hex (Z.land b 15)) (hex r))
  end.

(** [s.encode()]: UTF-8 of a string of code points below 256. *)
Fixpoint encode (s : string) : list Z :=
  match s with
  | EmptyString => []
  | String c r =>
      let n := Z.of_nat (nat_of_ascii c) in
      if n <? 128 then n :: encode r
      else (192 + Z.shiftr n 6) :: (128 + Z.land n 63) :: encode r
  end.

(** [hashlib.md5(s.encode()).hexdigest()] *)
Definition hexdigest (s : string) : string := hex (digest (encode s)).

End MD5.

(* ================================================================== *)
(** * The HTTP collaborator (requests) *)

Module Red.

(** A POST request as the code builds it. *)
Inductive Peticion : Type :=
| PostOperador (url account sign datetime senderid numbers content : string)
               (timeout : Z)
| PostTraffiLink (url account sendid mobile content sign : string)
                 (timeout : Z).

(** What a completed exchange hands back.  [json] is what
    [response.json()] gives: the parsed object (string fields only)
    or, for a body that is not JSON, the exception the library raises:
    [JSONDecodeError], which later versions of the library raise as a
    [RequestException] as well.  [como_texto] is the text [str(...)]
    gives for the value the sender stores. *)
Record Respuesta : Type := mk_respuesta
  { json : resultado (list (string * string));
    como_texto : string }.

(** [d.get(k)] on a parsed object. *)
Fixpoint get (d : list (string * string)) (k : string) : option string :=
  match d with
  | [] => None
  | (c, v) :: r => if (c =? k)%string then Some v else get r k
  end.

End Red.

(* ================================================================== *)
(** * traffilink_service.py *)

Module TraffiLink.

(** The attributes set by [TraffiLinkService.__init__]. *)
Record TraffiLinkService : Type := mk_servicio
  { account : string;
    password : string;
    url_base : string;
    sender_id : string;
    timeout : Z;
    enabled : bool }.

(** The instance built from the default environment. *)
Definition servicio_por_defecto : TraffiLinkService :=
  mk_servicio "0152C274" "G2o0jRnm" "http://47.236.91.242:20003"
              "Goleador" 10 true.

(** [TraffiLinkService.generar_sign]: MD5(params + MD5(password)).
    The [try ... except: raise] wrapper re-raises unchanged, and neither
    [encode] nor [md5] can fail on the strings of this model. *)
Definition generar_sign (self : TraffiLinkService) (params_str : string)
  : string :=
  let password_hash := MD5.hexdigest (password self) in
  let sign_str := params_str ++ password_hash in
  MD5.hexdigest sign_str.

(** The keys of the dict returned by [enviar_sms] that its caller
    reads. *)
Record ResultadoEnvio : Type := mk_resultado
  { exito : bool;
    traffilink_id : option string;
    error : option string }.

Definition fallo (e : string) : ResultadoEnvio :=
  mk_resultado false None (Some e).

Section Transporte.

(** The network: outcome of a request and the seconds it took. *)
Variable red_responde : Red.Peticion -> resultado Red.Respuesta * Q.

(** [TraffiLinkService.enviar_sms]: returns the result dict, the
    requests issued and the time spent on them.  Every exception, of
    the request or of [respuesta.json()], is turned into a result dict
    by the first [except] clause that matches it. *)
Definition enviar_sms (self : TraffiLinkService)
  (numero_destino contenido_mensaje queue_id : string)
  : ResultadoEnvio * list Red.Peticion * Q :=
  if (numero_destino =? "")%string
  then (fallo "Número destino requerido", [], 0%Q)
  else if (contenido_mensaje =? "")%string
  then (fallo "Mensaje requerido", [], 0%Q)
  else
    let numero_formateado :=
      if negb (startswith numero_destino "57")
      then "57" ++ numero_destino else numero_destino in
    let params_para_firma :=
      "account=" ++ account self ++ "&sendid=" ++ queue_id
      ++ "&mobile=" ++ numero_formateado
      ++ "&content=" ++ contenido_mensaje in
    let sign := generar_sign self params_para_firma in
    let url := url_base self ++ "/sendsmsV2" in
    let p := Red.PostTraffiLink url (account self) queue_id
               numero_formateado contenido_mensaje sign (timeout self) in
    let '(r, dt) := red_responde p in
    let manejar (e : excepcion) :=
      match e with
      | Timeout => fallo "Timeout de conexión"
      | RequestException m => fallo ("Error de conexión: " ++ m)
      | JSONDecodeError => fallo "Respuesta inválida del servidor"
      | e => fallo (str_excepcion e)
      end in
    let res :=
      match r with
      | Ok resp =>
          match Red.json resp with
          | Ok resultado =>
              match Red.get resultado "status" with
              | Some "1" =>
                  mk_resultado true (Red.get resultado "id") None
              | _ =>
                  fallo (match Red.get resultado "message" with
                         | Some m => m
                         | None => "Error desconocido"
                         end)
              end
          | Lanza e => manejar e
          end
      | Lanza e => manejar e
      end in
    (res, [p], dt).

End Transporte.

(** [TraffiLinkService.validar_numero_colombiano]: the number with the
    57 prefix, or [None]. *)
Definition validar_numero_colombiano (numero : string) : option string :=
  let numero := strip numero in
  let numero := filtrar es_digito numero in
  if (len numero =? 10) && startswith numero "3" then Some ("57" ++ numero)
  else if (len numero =? 12) && startswith numero "57" then Some numero
  else None.

(** The scalar values a webhook payload can carry. *)
Inductive valor_json : Type :=
| JNulo
| JTexto (s : string)
| JEntero (n : Z)
| JBool (b : bool).

(** [datos.get(k)]: [JNulo] stands for Python's [None]. *)
Fixpoint obtener (datos : list (string * valor_json)) (k : string)
  : valor_json :=
  match datos with
  | [] => JNulo
  | (c, v) :: r => if (c =? k)%string then v else obtener r k
  end.

(** Truth value of a payload value. *)
Definition verdadero (v : valor_json) : bool :=
  match v with
  | JNulo => false
  | JTexto s => negb (s =? "")%string
  | JEntero n => negb (n =? 0)
  | JBool b => b
  end.

(** [str(v)] *)
Definition str_json (v : valor_json) : string :=
  match v with
  | JNulo => "None"
  | JTexto s => s
  | JEntero n => NilZero.string_of_int (Z.to_int n)
  | JBool true => "True"
  | JBool false => "False"
  end.

(** [estado_map.get(codigo, 'unknown')] *)
Definition estado_map (codigo : string) : string :=
  if (codigo =? "1")%string then "delivered"
  else if (codigo =? "2")%string then "failed"
  else if (codigo =? "3")%string then "pending"
  else if (codigo =? "4")%string then "invalid"
  else "unknown".

(** The dict returned by [procesar_webhook_reporte], without its
    message and timestamp. *)
Record ReporteWebhook : Type := mk_reporte
  { rw_exito : bool;
    rw_estado : option string;
    rw_estado_codigo : valor_json;
    rw_traffilink_id : valor_json;
    rw_error : option string }.

(** [TraffiLinkService.procesar_webhook_reporte] on a payload object. *)
Definition procesar_webhook_reporte (datos : list (string * valor_json))
  : ReporteWebhook :=
  match datos with
  | [] => mk_reporte false None JNulo JNulo (Some "Datos vacíos")
  | _ =>
      let traffilink_id := obtener datos "id" in
      let estado_codigo := obtener datos "deliverystatus" in
      if negb (verdadero traffilink_id)
         || match estado_codigo with JNulo => true | _ => false end
      then mk_reporte false None JNulo JNulo (Some "Datos incompletos")
      else
        let estado_final := estado_map (str_json estado_codigo) in
        mk_reporte true (Some estado_final) estado_codigo traffilink_id None
  end.

End TraffiLink.

(* ================================================================== *)
(** * database.py *)

Module DB.

Definition bind {A B : Type} (m : resultado A) (k : A -> resultado B)
  : resultado B :=
  match m with
  | Ok a => k a
  | Lanza e => Lanza e
  end.

Notation "x <- m ;; k" := (bind m (fun x => k))
  (at level 61, m at next level, right associativity).
Notation "' p <- m ;; k" := (bind m (fun x => let 'p := x in k))
  (at level 61, p pattern, m at next level, right associativity).

(** ** Tables *)

(** One element of the JSON list kept in [operador_history]. *)
Record entrada_historial : Type := mk_entrada
  { h_operador : string;
    h_intento : Z;
    h_timestamp : Q;
    h_estado : string;
    h_error : option string }.

(** A row of [sms_queue]; nullable columns are options.  The JSON
    texts [operador_history] and [metadata] are kept decoded, and
    [webhook_timestamp] keeps the clock reading behind its ISO text. *)
Record Fila : Type := mk_fila
  { id : Z;
    numero : string;
    mensaje : string;
    campana_id : option string;
    estado : string;
    intentos : Z;
    max_intentos : Z;
    operador : string;
    operador_history : option (list entrada_historial);
    proximo_reintento : option Q;
    error_ultimo : option string;
    respuesta_ultima : option string;
    webhook_confirmado : Z;
    webhook_timestamp : option Q;
    creado : Q;
    primer_intento : option Q;
    ultimo_intento : option Q;
    entregado : option Q;
    metadata : option (list (string * string)) }.

(** A row of [sms_log] (the [mensaje] column is never written). *)
Record FilaLog : Type := mk_log
  { l_queue_id : Z;
    l_numero : string;
    l_operador : string;
    l_estado : string;
    l_intento_numero : Z;
    l_timestamp : Q;
    l_respuesta_api : option string;
    l_error : option string;
    l_tiempo_respuesta_ms : option Z }.

(** A row of [operator_stats], with the columns this module writes
    and the column [tasa_error_actual], which the monitor reads. *)
Record FilaStats : Type := mk_stats
  { s_operador : string;
    s_total_enviados : Z;
    s_ultimo_error : option string;
    s_ultimo_error_timestamp : option Q;
    s_ultimo_exito_timestamp : option Q;
    s_tasa_error_actual : option Q;
    s_actualizado : Q }.

(** A row of [webhooks], with the columns this module writes. *)
Record FilaWebhook : Type := mk_webhook
  { w_numero : string;
    w_estado : string;
    w_timestamp : Q;
    w_recibido : Q }.

(** The database file.  [secuencia] is the AUTOINCREMENT counter of
    [sms_queue]: the largest id handed out so far. *)
Record Store : Type := mk_store
  { sms_queue : list Fila;
    secuencia : Z;
    sms_log : list FilaLog;
    operator_stats : list FilaStats;
    webhooks : list FilaWebhook }.

(** The store right after [init_db] on a fresh file. *)
Definition vacio : Store := mk_store [] 0 [] [] [].

(** ** sqlite3.Row *)

Inductive valor : Type :=
| VNull
| VEntero (z : Z)
| VReal (q : Q)
| VTexto (s : string)
| VHistorial (h : list entrada_historial)
| VMetadata (md : list (string * string)).

(** A fetched row: the selected columns, in order, with their values. *)
Definition Row : Type := list (string * valor).

Definition v_texto (o : option string) : valor :=
  match o with Some s => VTexto s | None => VNull end.

Definition v_real (o : option Q) : valor :=
  match o with Some q => VReal q | None => VNull end.

(** Value of a named column of [sms_queue]. *)
Definition columna (c : string) (f : Fila) : option valor :=
  if (c =? "id")%string then Some (VEntero (id f))
  else if (c =? "numero")%string then Some (VTexto (numero f))
  else if (c =? "mensaje")%string then Some (VTexto (mensaje f))
  else if (c =? "campana_id")%string then Some (v_texto (campana_id f))
  else if (c =? "estado")%string then Some (VTexto (estado f))
  else if (c =? "intentos")%string then Some (VEntero (intentos f))
  else if (c =? "max_intentos")%string then Some (VEntero (max_intentos f))
  else if (c =? "operador")%string then Some (VTexto (operador f))
  else if (c =? "operador_history")%string then
    Some (match operador_history f with
          | Some h => VHistorial h
          | None => VNull
          end)
  else if (c =? "proximo_reintento")%string then Some (v_real (proximo_reintento f))
  else if (c =? "error_ultimo")%string then Some (v_texto (error_ultimo f))
  else if (c =? "respuesta_ultima")%string then Some (v_texto (respuesta_ultima f))
  else if (c =? "webhook_confirmado")%string then
    Some (VEntero (webhook_confirmado f))
  else if (c =? "webhook_timestamp")%string then
    Some (v_real (webhook_timestamp f))
  else if (c =? "creado")%string then Some (VReal (creado f))
  else if (c =? "primer_intento")%string then Some (v_real (primer_intento f))
  else if (c =? "ultimo_intento")%string then Some (v_real (ultimo_intento f))
  else if (c =? "entregado")%string then Some (v_real (entregado f))
  else if (c =? "metadata")%string then
    Some (match metadata f with
          | Some md => VMetadata md
          | None => VNull
          end)
  else None.

(** [SELECT c1, ..., cn FROM sms_queue] applied to one row. *)
Definition seleccionar (cols : list string) (f : Fila) : Row :=
  flat_map (fun c => match columna c f with
                     | Some v => [(c, v)]
                     | None => []
                     end) cols.

(** [row[k]]: a key that is not a selected column raises IndexError. *)
Fixpoint row_get (r : Row) (k : string) : resultado valor :=
  match r with
  | [] => Lanza (IndexError "No item with that key")
  | (c, v) :: r' => if (c =? k)%string then Ok v else row_get r' k
  end.

(** Python operators on fetched values. *)
Definition mas_uno (v : valor) : resultado Z :=
  match v with
  | VEntero z => Ok (z + 1)
  | _ => Lanza (TypeError "unsupported operand type(s) for +")
  end.

Definition menor_que (a : Z) (v : valor) : resultado bool :=
  match v with
  | VEntero z => Ok (a <? z)
  | _ => Lanza (TypeError "'<' not supported")
  end.

(** [lista[i]] with Python's negative indices. *)
Definition indice {A : Type} (l : list A) (v : valor) : resultado A :=
  match v with
  | VEntero i =>
      let n := Z.of_nat (List.length l) in
      let j := if i <? 0 then i + n else i in
      if (0 <=? j) && (j <? n)
      then match nth_error l (Z.to_nat j) with
           | Some a => Ok a
           | None => Lanza (IndexError "list index out of range")
           end
      else Lanza (IndexError "list index out of range")
  | _ => Lanza (TypeError "list indices must be integers")
  end.

(** [json.loads(v) if v else []] *)
Definition cargar_historial (v : valor)
  : resultado (list entrada_historial) :=
  match v with
  | VHistorial h => Ok h
  | VNull => Ok []
  | _ => Lanza (TypeError "the JSON object must be str")
  end.

(** ** Connections *)

(** [with self.get_connection() as conn]: commit when the body returns,
    roll back to the state at entry and re-raise when it raises.
    ([db_lock] serialises callers and has no sequential effect.) *)
Definition get_connection {A : Type}
  (cuerpo : Store -> resultado (A * Store)) (s : Store)
  : resultado A * Store :=
  match cuerpo s with
  | Ok (a, s') => (Ok a, s')
  | Lanza e => (Lanza e, s)
  end.

Definition con_cola (s : Store) (q : list Fila) : Store :=
  mk_store q (secuencia s) (sms_log s) (operator_stats s) (webhooks s).

(** ** agregar_a_cola *)

(** UNIQUE(numero, mensaje, campana_id): two rows collide when all
    three columns are equal; as sqlite compares NULLs as distinct, a
    row whose [campana_id] is NULL collides with no row. *)
Definition choca (n m : string) (c : option string) (f : Fila) : bool :=
  (numero f =? n)%string && (mensaje f =? m)%string
  && match campana_id f, c with
     | Some a, Some b => (a =? b)%string
     | _, _ => false
     end.

(** The row built by the INSERT: listed columns from the arguments,
    the others from the column defaults of the schema. *)
Definition fila_nueva (i : Z) (n m : string) (c : option string)
  (now : Q) (md : option (list (string * string))) : Fila :=
  mk_fila i n m c "pendiente" 0 5 "principal" (Some []) None None None
          0 None now None None None md.

(** The INSERT statement; [cursor.lastrowid] is returned with the
    new store. *)
Definition insertar (n m : string) (c : option string) (now : Q)
  (md : option (list (string * string))) (s : Store)
  : resultado (Z * Store) :=
  if existsb (choca n m c) (sms_queue s)
  then Lanza IntegrityError
  else
    let i := secuencia s + 1 in
    Ok (i, mk_store (sms_queue s ++ [fila_nueva i n m c now md]) i
                    (sms_log s) (operator_stats s) (webhooks s)).

(** [json.dumps(metadata) if metadata else None] *)
Definition volcar_metadata (md : option (list (string * string)))
  : option (list (string * string)) :=
  match md with
  | Some (x :: l) => Some (x :: l)
  | _ => None
  end.

Definition agregar_a_cola (numero mensaje : string)
  (campana_id : option string) (metadata : option (list (string * string)))
  (now : Q) : Store -> resultado (option Z) * Store :=
  get_connection (fun s =>
    match insertar numero mensaje campana_id now
                   (volcar_metadata metadata) s with
    | Ok (queue_id, s') => Ok (Some queue_id, s')
    | Lanza IntegrityError => Ok (None, s)
    | Lanza e => Lanza e
    end).

(** ** obtener_pendientes *)

Definition vencido (p : option Q) (now : Q) : bool :=
  match p with
  | Some t => Qle_bool t now
  | None => false
  end.

(** The WHERE clause. *)
Definition elegible (now : Q) (f : Fila) : bool :=
  ((estado f =? "pendiente")%string
   || ((estado f =? "reintentando")%string
       && vencido (proximo_reintento f) now))
  && (intentos f <? max_intentos f).

(** ORDER BY intentos ASC, creado ASC. *)
Definition antes (f g : Fila) : bool :=
  (intentos f <? intentos g)
  || ((intentos f =? intentos g) && Qle_bool (creado f) (creado g)).

Fixpoint colocar (f : Fila) (l : list Fila) : list Fila :=
  match l with
  | [] => [f]
  | g :: r => if antes f g then f :: g :: r else g :: colocar f r
  end.

(** Rows that compare equal keep their rowid order here; SQL leaves
    the order of such rows open. *)
Fixpoint ordenar (l : list Fila) : list Fila :=
  match l with
  | [] => []
  | f :: r => colocar f (ordenar r)
  end.

(** LIMIT n: a negative bound means no bound. *)
Definition limitar {A : Type} (limit : Z) (l : list A) : list A :=
  if limit <? 0 then l else firstn (Z.to_nat limit) l.

Definition obtener_pendientes (limit : Z) (now : Q)
  : Store -> resultado (list Fila) * Store :=
  get_connection (fun s =>
    Ok (limitar limit (ordenar (filter (elegible now) (sms_queue s))), s)).

(** ** actualizar_intento *)

Definition delays : list Z := [1; 5; 30; 300; 1800].

Fixpoint buscar (queue_id : Z) (q : list Fila) : option Fila :=
  match q with
  | [] => None
  | f :: r => if id f =? queue_id then Some f else buscar queue_id r
  end.

(** "Determinar próximo estado": the new state and retry time. *)
Definition proximo_estado (row : Row) (estado : string) (now : Q)
  : resultado (string * option Q) :=
  if (estado =? "enviado")%string then Ok ("enviado", None)
  else if (estado =? "entregado")%string then Ok ("entregado", None)
  else
    i <- row_get row "intentos" ;;
    i1 <- mas_uno i ;;
    m <- row_get row "max_intentos" ;;
    quedan <- menor_que i1 m ;;
    let nuevo_estado := if quedan then "reintentando" else "fallido" in
    if (nuevo_estado =? "reintentando")%string
    then
      i' <- row_get row "intentos" ;;
      d <- indice delays i' ;;
      Ok (nuevo_estado, Some (now + inject_Z d)%Q)
    else Ok (nuevo_estado, None).

(** The UPDATE of the job row. *)
Definition fila_actualizada (f : Fila) (nuevo_estado operador : string)
  (history : list entrada_historial) (respuesta_api error : option string)
  (now : Q) (proximo : option Q) : Fila :=
  mk_fila (id f) (numero f) (mensaje f) (campana_id f)
          nuevo_estado (intentos f + 1) (max_intentos f) operador
          (Some history) proximo error respuesta_api
          (webhook_confirmado f) (webhook_timestamp f) (creado f)
          (match primer_intento f with Some t => Some t | None => Some now end)
          (Some now) (entregado f) (metadata f).

Definition actualizar_fila (queue_id : Z) (g : Fila -> Fila)
  (q : list Fila) : list Fila :=
  map (fun f => if id f =? queue_id then g f else f) q.

(** INSERT INTO sms_log ... SELECT ... FROM sms_queue WHERE id = ?,
    evaluated on the table as the UPDATE left it. *)
Definition filas_log (queue_id : Z) (operador estado : string) (now : Q)
  (respuesta_api error : option string) (tiempo_ms : option Z)
  (q : list Fila) : list FilaLog :=
  map (fun f => mk_log (id f) (numero f) operador estado (intentos f + 1)
                       now respuesta_api error tiempo_ms)
      (filter (fun f => id f =? queue_id) q).

(** INSERT INTO operator_stats ... ON CONFLICT(operador) DO UPDATE. *)
Definition es_exito (estado : string) : bool :=
  (estado =? "enviado")%string || (estado =? "entregado")%string.

Definition stats_actualizada (estado : string) (error : option string)
  (now : Q) (r : FilaStats) : FilaStats :=
  mk_stats (s_operador r) (s_total_enviados r + 1)
           (if (estado =? "error")%string then error
            else s_ultimo_error r)
           (if (estado =? "error")%string then Some now
            else s_ultimo_error_timestamp r)
           (if es_exito estado then Some now
            else s_ultimo_exito_timestamp r)
           (s_tasa_error_actual r)
           now.

Definition upsert_stats (operador estado : string) (error : option string)
  (now : Q) (t : list FilaStats) : list FilaStats :=
  if existsb (fun r => (s_operador r =? operador)%string) t
  then map (fun r => if (s_operador r =? operador)%string
                     then stats_actualizada estado error now r else r) t
  else t ++ [mk_stats operador 0 None None None (Some 0%Q) now].

Definition actualizar_intento (queue_id : Z) (operador estado : string)
  (respuesta_api error : option string) (tiempo_ms : option Z) (now : Q)
  : Store -> resultado bool * Store :=
  get_connection (fun s =>
    match buscar queue_id (sms_queue s) with
    | None => Ok (false, s)
    | Some f =>
        let row := seleccionar ["operador_history"; "intentos"] f in
        hv <- row_get row "operador_history" ;;
        history <- cargar_historial hv ;;
        iv <- row_get row "intentos" ;;
        intento <- mas_uno iv ;;
        let history :=
          (history ++ [mk_entrada operador intento now estado error])%list in
        '(nuevo_estado, proximo_reintento) <-
          proximo_estado row estado now ;;
        let q := actualizar_fila queue_id
                   (fun f => fila_actualizada f nuevo_estado operador
                               history respuesta_api error now
                               proximo_reintento)
                   (sms_queue s) in
        Ok (true,
            mk_store q (secuencia s)
              (sms_log s ++ filas_log queue_id operador estado now
                                      respuesta_api error tiempo_ms q)
              (upsert_stats operador estado error now (operator_stats s))
              (webhooks s))
    end).

(** ** confirmar_entrega *)

(** The WHERE clause of the UPDATE. *)
Definition por_confirmar (n : string) (f : Fila) : bool :=
  (numero f =? n)%string && negb (estado f =? "entregado")%string.

Definition fila_entregada (f : Fila) (now : Q) : Fila :=
  mk_fila (id f) (numero f) (mensaje f) (campana_id f)
          "entregado" (intentos f) (max_intentos f) (operador f)
          (operador_history f) (proximo_reintento f) (error_ultimo f)
          (respuesta_ultima f) 1 (Some now) (creado f)
          (primer_intento f) (ultimo_intento f) (Some now) (metadata f).

(** UPDATE ... WHERE ... LIMIT 1, as sqlite builds with the
    update-limit option run it: the first matching row in scan (rowid)
    order is rewritten; the count of rewritten rows is
    [cursor.rowcount]. *)
Fixpoint actualizar_primera (p : Fila -> bool) (g : Fila -> Fila)
  (q : list Fila) : list Fila * Z :=
  match q with
  | [] => ([], 0)
  | f :: r =>
      if p f then (g f :: r, 1)
      else let '(r', n) := actualizar_primera p g r in (f :: r', n)
  end.

Definition confirmar_entrega (numero : string)
  (codigo_error : option string) (now : Q)
  : Store -> resultado bool * Store :=
  get_connection (fun s =>
    let '(q, rowcount) :=
      actualizar_primera (por_confirmar numero)
                         (fun f => fila_entregada f now) (sms_queue s) in
    if rowcount >? 0
    then Ok (true,
             mk_store q (secuencia s) (sms_log s) (operator_stats s)
                      (webhooks s ++ [mk_webhook numero "entregado" now now]))
    else Ok (false, con_cola s q)).

(** ** obtener_stats_operador, obtener_todas_stats *)

Definition obtener_stats_operador (operador : string)
  : Store -> resultado (option FilaStats) * Store :=
  get_connection (fun s =>
    Ok (find (fun r => (s_operador r =? operador)%string)
             (operator_stats s), s)).

Fixpoint colocar_stats (r : FilaStats) (l : list FilaStats)
  : list FilaStats :=
  match l with
  | [] => [r]
  | x :: t =>
      if String.leb (s_operador r) (s_operador x) then r :: x :: t
      else x :: colocar_stats r t
  end.

(** ORDER BY operador *)
Fixpoint ordenar_stats (l : list FilaStats) : list FilaStats :=
  match l with
  | [] => []
  | r :: t => colocar_stats r (ordenar_stats t)
  end.

Definition obtener_todas_stats
  : Store -> resultado (list FilaStats) * Store :=
  get_connection (fun s => Ok (ordenar_stats (operator_stats s), s)).

(** ** obtener_estado_general *)

(** SUM(CASE WHEN p THEN 1 ELSE 0 END): NULL over an empty table. *)
Definition suma_si (p : Fila -> bool) (q : list Fila) : option Z :=
  match q with
  | [] => None
  | _ => Some (Z.of_nat (List.length (filter p q)))
  end.

Record EstadoGeneral : Type := mk_estado_general
  { eg_entregados : option Z;
    eg_enviados : option Z;
    eg_fallidos : option Z;
    eg_pendientes : option Z;
    eg_total : Z }.

Definition obtener_estado_general
  : Store -> resultado EstadoGeneral * Store :=
  get_connection (fun s =>
    let q := sms_queue s in
    Ok (mk_estado_general
          (suma_si (fun f => (estado f =? "entregado")%string) q)
          (suma_si (fun f => (estado f =? "enviado")%string) q)
          (suma_si (fun f => (estado f =? "fallido")%string) q)
          (suma_si (fun f => (estado f =? "pendiente")%string
                             || (estado f =? "reintentando")%string) q)
          (Z.of_nat (List.length q)), s)).

End DB.

(* ================================================================== *)
(** * rate_limiter.py *)

Module RL.

Definition Qlt_bool (a b : Q) : bool := negb (Qle_bool b a).

(** [collections.deque(maxlen=n)]: appending to a full deque drops the
    oldest element. *)
Definition deque_append {A : Type} (maxlen : Z) (d : list A) (x : A)
  : list A :=
  let l := (d ++ [x])%list in
  skipn (List.length l - Z.to_nat maxlen) l.

(** Attributes of a [RateLimiter]; [maxlen_timestamps] is the bound
    given to the [timestamps] deque at construction. *)
Record RateLimiter : Type := mk_rl
  { max_por_minuto : Z;
    adaptativo : bool;
    tokens : Q;
    last_refill : Q;
    timestamps : list Q;
    maxlen_timestamps : Z;
    errores_recientes : list Q;
    tasa_error_actual : Q }.

(** [RateLimiter(max_por_minuto, adaptativo)] built at clock reading
    [t]; a negative [maxlen] is refused by [deque]. *)
Definition nuevo (max_por_minuto : Z) (adaptativo : bool) (t : Q)
  : resultado RateLimiter :=
  if max_por_minuto <? 0
  then Lanza (ValueError "maxlen must be non-negative")
  else Ok (mk_rl max_por_minuto adaptativo (inject_Z max_por_minuto) t
                 [] max_por_minuto [] 0%Q).

Definition _refill (ahora : Q) (rl : RateLimiter) : RateLimiter :=
  let tiempo_pasado := (ahora - last_refill rl)%Q in
  let tokens_a_agregar :=
    (tiempo_pasado * (inject_Z (max_por_minuto rl) / 60))%Q in
  mk_rl (max_por_minuto rl) (adaptativo rl)
        (Qmin (inject_Z (max_por_minuto rl))
              (tokens rl + tokens_a_agregar)%Q)
        ahora (timestamps rl) (maxlen_timestamps rl)
        (errores_recientes rl) (tasa_error_actual rl).

(** [self.tokens -= 1; self.timestamps.append(time.time())] *)
Definition consumir (t : Q) (rl : RateLimiter) : RateLimiter :=
  mk_rl (max_por_minuto rl) (adaptativo rl) (tokens rl - 1)%Q
        (last_refill rl)
        (deque_append (maxlen_timestamps rl) (timestamps rl) t)
        (maxlen_timestamps rl) (errores_recientes rl)
        (tasa_error_actual rl).

(** [esperar], started at clock reading [reloj]: the limiter and the
    clock afterwards.  [time.sleep] is the only passage of time. *)
Definition esperar (reloj : Q) (rl : RateLimiter)
  : resultado (RateLimiter * Q) :=
  let rl1 := _refill reloj rl in
  if Qlt_bool (tokens rl1) 1
  then
    if max_por_minuto rl1 =? 0 then Lanza ZeroDivisionError
    else
      let tiempo_espera :=
        ((1 - tokens rl1) * (60 / inject_Z (max_por_minuto rl1)))%Q in
      if Qlt_bool tiempo_espera 0
      then Lanza (ValueError "sleep length must be non-negative")
      else
        let reloj' := (reloj + tiempo_espera)%Q in
        Ok (consumir reloj' (_refill reloj' rl1), reloj')
  else Ok (consumir reloj rl1, reloj).

(** [int(n * 0.8)] for an integer [n]: truncation of 4n/5.  (The
    double nearest to 0.8 exceeds it by less than half a unit in the
    last place, so the rounded product truncates to the same integer.) *)
Definition int_08 (n : Z) : Z := Z.quot (4 * n) 5.

(** [sum(1 for t in d if ahora - t < 60)] *)
Definition recientes (ahora : Q) (d : list Q) : Z :=
  Z.of_nat (List.length
              (filter (fun t => Qlt_bool (ahora - t)%Q 60) d)).

(** [registrar_error]; [t] and [ahora] are its two clock readings. *)
Definition registrar_error (t ahora : Q) (rl : RateLimiter)
  : RateLimiter :=
  let errores := deque_append 10 (errores_recientes rl) t in
  let errores_60 := recientes ahora errores in
  let total_intentos := Z.of_nat (List.length (timestamps rl)) in
  if total_intentos >? 0
  then
    let tasa := (inject_Z errores_60
                 / inject_Z (Z.min total_intentos 100))%Q in
    let nueva_velocidad :=
      if adaptativo rl && Qlt_bool (2 # 10) tasa
      then Z.max 10 (int_08 (max_por_minuto rl))
      else max_por_minuto rl in
    mk_rl nueva_velocidad (adaptativo rl) (tokens rl) (last_refill rl)
          (timestamps rl) (maxlen_timestamps rl) errores tasa
  else
    mk_rl (max_por_minuto rl) (adaptativo rl) (tokens rl) (last_refill rl)
          (timestamps rl) (maxlen_timestamps rl) errores
          (tasa_error_actual rl).

Definition registrar_exito (rl : RateLimiter) : RateLimiter :=
  if Qlt_bool (tasa_error_actual rl) (5 # 100) && adaptativo rl
  then
    let nueva_velocidad := Z.min 200 (max_por_minuto rl + 5) in
    if nueva_velocidad >? max_por_minuto rl
    then mk_rl nueva_velocidad (adaptativo rl) (tokens rl)
               (last_refill rl) (timestamps rl) (maxlen_timestamps rl)
               (errores_recientes rl) (tasa_error_actual rl)
    else rl
  else rl.

Definition obtener_velocidad_actual (rl : RateLimiter) : Z :=
  max_por_minuto rl.

(** ** RateLimiterGlobal *)

Record RateLimiterGlobal : Type := mk_rlg
  { max_sms_por_segundo : Z;
    g_tokens : Q;
    g_last_refill : Q }.

(** [RateLimiterGlobal(max_sms_por_segundo)] built at clock reading [t]. *)
Definition nuevo_global (max_sms_por_segundo : Z) (t : Q)
  : RateLimiterGlobal :=
  mk_rlg max_sms_por_segundo (inject_Z max_sms_por_segundo) t.

(** [RateLimiterGlobal.esperar], started at clock reading [reloj]: the
    limiter and the clock afterwards. *)
Definition esperar_global (reloj : Q) (g : RateLimiterGlobal)
  : resultado (RateLimiterGlobal * Q) :=
  let ahora := reloj in
  let tiempo_pasado := (ahora - g_last_refill g)%Q in
  let tokens_a_agregar :=
    (tiempo_pasado * inject_Z (max_sms_por_segundo g))%Q in
  let tokens := Qmin (inject_Z (max_sms_por_segundo g))
                     (g_tokens g + tokens_a_agregar)%Q in
  if Qlt_bool tokens 1
  then
    if max_sms_por_segundo g =? 0 then Lanza ZeroDivisionError
    else
      let tiempo_espera :=
        ((1 - tokens) / inject_Z (max_sms_por_segundo g))%Q in
      if Qlt_bool tiempo_espera 0
      then Lanza (ValueError "sleep length must be non-negative")
      else Ok (mk_rlg (max_sms_por_segundo g) (0 - 1)%Q ahora,
               (reloj + tiempo_espera)%Q)
  else Ok (mk_rlg (max_sms_por_segundo g) (tokens - 1)%Q ahora, reloj).

End RL.

(* ================================================================== *)
(** * sender.py *)

Module Sender.

(** [str(n)] for an int. *)
Definition str_int (n : Z) : string := NilZero.string_of_int (Z.to_int n).

Definition salto : string := String (ascii_of_nat 10) EmptyString.

(** The loop over [row_data.items()]. *)
Fixpoint sustituir (m : string) (row_data : list (string * string))
  : string :=
  match row_data with
  | [] => m
  | (columna, valor) :: r =>
      let placeholder := "{" ++ columna ++ "}" in
      sustituir (if contiene m placeholder
                 then replace m placeholder valor else m) r
  end.

(** [SMSSender.preparar_mensaje] *)
Definition preparar_mensaje (mensaje numero : string)
  (row_data : option (list (string * string)))
  (link_dinamico : option string) : string :=
  let mensaje_final :=
    match row_data with
    | Some (x :: l) => sustituir mensaje (x :: l)
    | _ => mensaje
    end in
  match link_dinamico with
  | Some (String c l) =>
      if contiene mensaje_final "{link}"
      then replace mensaje_final "{link}" (salto ++ String c l ++ salto)
      else mensaje_final
  | _ => mensaje_final
  end.

(** An operator profile as the sender reads it.  The router module
    (operators.py) is not among the sources; its lookup and the
    profile's signature method are parameters below. *)
Record Operador : Type := mk_operador
  { op_operador : string;
    op_url_api : string;
    op_cuenta : string;
    op_sender_id : string;
    op_max_por_minuto : Z;
    op_timeout_segundos : Z }.

(** The dict returned by [enviar_sms_ahora]. *)
Record Envio : Type := mk_envio
  { success : bool;
    e_numero : string;
    e_operador : string;
    e_error : option string;
    e_respuesta : option string;
    e_tiempo_ms : option Z }.

Definition envio_fallido (numero operador error : string) : Envio :=
  mk_envio false numero operador (Some error) None None.

(** Everything the send routine reads or writes: the database, the
    module-level [rate_limiters] dict, the clock and the requests that
    have gone out on the network so far. *)
Record Mundo : Type := mk_mundo
  { db : DB.Store;
    rate_limiters : list (string * RL.RateLimiter);
    reloj : Q;
    red : list Red.Peticion }.

(** Computations over the world that may raise. *)
Definition M (A : Type) : Type := Mundo -> resultado A * Mundo.

Definition ret {A : Type} (a : A) : M A := fun w => (Ok a, w).

Definition lanzar {A : Type} (e : excepcion) : M A :=
  fun w => (Lanza e, w).

Definition ligar {A B : Type} (m : M A) (k : A -> M B) : M B :=
  fun w =>
    match m w with
    | (Ok a, w') => k a w'
    | (Lanza e, w') => (Lanza e, w')
    end.

Notation "x <-- m ;; k" := (ligar m (fun x => k))
  (at level 61, m at next level, right associativity).

(** [try: m  except Exception as e: manejador e] *)
Definition intentar {A : Type} (m : M A) (manejador : excepcion -> M A)
  : M A :=
  fun w =>
    match m w with
    | (Lanza e, w') => manejador e w'
    | r => r
    end.

(** A database call, stamped with the current clock reading. *)
Definition en_db {A : Type}
  (op : Q -> DB.Store -> resultado A * DB.Store) : M A :=
  fun w =>
    let '(r, s) := op (reloj w) (db w) in
    (r, mk_mundo s (rate_limiters w) (reloj w) (red w)).

Definition leer_reloj : M Q := fun w => (Ok (reloj w), w).

Fixpoint buscar_limiter (k : string) (d : list (string * RL.RateLimiter))
  : option RL.RateLimiter :=
  match d with
  | [] => None
  | (c, v) :: r => if (c =? k)%string then Some v else buscar_limiter k r
  end.

Fixpoint poner_limiter (k : string) (v : RL.RateLimiter)
  (d : list (string * RL.RateLimiter)) : list (string * RL.RateLimiter) :=
  match d with
  | [] => [(k, v)]
  | (c, x) :: r =>
      if (c =? k)%string then (c, v) :: r
      else (c, x) :: poner_limiter k v r
  end.

(** [if nombre not in rate_limiters:
       rate_limiters[nombre] = RateLimiter(max_por_minuto)] *)
Definition asegurar_limiter (nombre : string) (max_por_minuto : Z)
  : M unit :=
  fun w =>
    match buscar_limiter nombre (rate_limiters w) with
    | Some _ => (Ok tt, w)
    | None =>
        match RL.nuevo max_por_minuto true (reloj w) with
        | Ok rl =>
            (Ok tt, mk_mundo (db w)
                             (poner_limiter nombre rl (rate_limiters w))
                             (reloj w) (red w))
        | Lanza e => (Lanza e, w)
        end
    end.

(** [rate_limiters[nombre].esperar()]; when it raises, the limiter
    keeps what the first [_refill] wrote. *)
Definition esperar_limiter (nombre : string) : M unit :=
  fun w =>
    match buscar_limiter nombre (rate_limiters w) with
    | None => (Lanza (OtroError "KeyError"), w)
    | Some rl =>
        match RL.esperar (reloj w) rl with
        | Ok (rl', t) =>
            (Ok tt, mk_mundo (db w)
                             (poner_limiter nombre rl' (rate_limiters w))
                             t (red w))
        | Lanza e =>
            (Lanza e,
             mk_mundo (db w)
                      (poner_limiter nombre (RL._refill (reloj w) rl)
                                     (rate_limiters w))
                      (reloj w) (red w))
        end
    end.

(** [int((time.time() - inicio) * 1000)] *)
Definition milisegundos (inicio fin : Q) : Z :=
  let x := ((fin - inicio) * 1000)%Q in
  Z.quot (Qnum x) (Z.pos (Qden x)).

Section Colaboradores.

(** [router.obtener_operador] and [operador.generar_sign()], from the
    router module; the latter returns the pair (sign, timestamp). *)
Variable obtener_operador : string -> option Operador.
Variable firma_operador : Operador -> Q -> string * string.

(** The global [traffilink_service] instance and the network. *)
Variable traffilink_service : TraffiLink.TraffiLinkService.
Variable red_responde : Red.Peticion -> resultado Red.Respuesta * Q.

(** [requests.post(...)]: the request goes out, time passes, and the
    call returns a response or raises. *)
Definition post (p : Red.Peticion) : M Red.Respuesta :=
  fun w =>
    let '(r, dt) := red_responde p in
    (r, mk_mundo (db w) (rate_limiters w) (reloj w + dt)%Q
                 (red w ++ [p])).

(** [traffilink_service.enviar_sms(...)] *)
Definition enviar_traffilink (numero mensaje queue_id : string)
  : M TraffiLink.ResultadoEnvio :=
  fun w =>
    let '(res, ps, dt) :=
      TraffiLink.enviar_sms red_responde traffilink_service
                            numero mensaje queue_id in
    (Ok res, mk_mundo (db w) (rate_limiters w) (reloj w + dt)%Q
                      (red w ++ ps)).

Definition registrar (queue_id : Z) (operador estado : string)
  (respuesta_api error : option string) (tiempo_ms : option Z) : M bool :=
  en_db (DB.actualizar_intento queue_id operador estado respuesta_api
                               error tiempo_ms).

Definition texto_o_none (o : option string) : string :=
  match o with Some t => t | None => "None" end.

(** The TraffiLink branch of [enviar_sms_ahora]. *)
Definition enviar_por_traffilink (queue_id : Z) (numero mensaje : string)
  (row_data : option (list (string * string)))
  (link_dinamico : option string) : M Envio :=
  intentar
    (let mensaje_procesado :=
       preparar_mensaje mensaje numero row_data link_dinamico in
     if (mensaje_procesado =? "")%string
     then
       _ <-- registrar queue_id "traffilink" "error" None
               (Some "Mensaje vacío después de procesar variables")
               None ;;
       ret (envio_fallido numero "traffilink" "Mensaje vacío")
     else
       _ <-- asegurar_limiter "traffilink"
               (match obtener_operador "traffilink" with
                | Some c => op_max_por_minuto c
                | None => 100
                end) ;;
       _ <-- esperar_limiter "traffilink" ;;
       inicio <-- leer_reloj ;;
       r <-- enviar_traffilink numero mensaje_procesado
               (str_int queue_id) ;;
       fin <-- leer_reloj ;;
       let tiempo_ms := milisegundos inicio fin in
       if TraffiLink.exito r
       then
         let traffilink_id := TraffiLink.traffilink_id r in
         _ <-- registrar queue_id "traffilink" "enviado"
                 (Some ("TraffiLink ID: " ++ texto_o_none traffilink_id))
                 None (Some tiempo_ms) ;;
         ret (mk_envio true numero "traffilink" None
                       (Some "enviado") (Some tiempo_ms))
       else
         let error_msg :=
           match TraffiLink.error r with
           | Some e => e
           | None => "Error desconocido"
           end in
         _ <-- registrar queue_id "traffilink" "error" None
                 (Some error_msg) None ;;
         ret (envio_fallido numero "traffilink" error_msg))
    (fun e =>
       _ <-- registrar queue_id "traffilink" "error" None
               (Some (str_excepcion e)) None ;;
       ret (envio_fallido numero "traffilink" (str_excepcion e))).

(** The [except] clauses around the POST of a standard operator. *)
Definition manejar_error_post (queue_id : Z)
  (numero operador_nombre : string) (e : excepcion) : M Envio :=
  match e with
  | Timeout =>
      _ <-- registrar queue_id operador_nombre "error" None
              (Some "Timeout de conexión") None ;;
      ret (envio_fallido numero operador_nombre "Timeout")
  | _ =>
      _ <-- registrar queue_id operador_nombre "error" None
              (Some (str_excepcion e)) None ;;
      ret (envio_fallido numero operador_nombre (str_excepcion e))
  end.

(** [SMSSender.enviar_sms_ahora] *)
Definition enviar_sms_ahora (queue_id : Z)
  (numero mensaje operador_nombre : string)
  (row_data : option (list (string * string)))
  (link_dinamico : option string) : M Envio :=
  if (operador_nombre =? "traffilink")%string
  then enviar_por_traffilink queue_id numero mensaje row_data
                             link_dinamico
  else
    match obtener_operador operador_nombre with
    | None =>
        ret (envio_fallido numero operador_nombre "Operador no existe")
    | Some operador =>
        let mensaje_procesado :=
          preparar_mensaje mensaje numero row_data link_dinamico in
        if len mensaje_procesado =? 0
        then
          _ <-- registrar queue_id operador_nombre "error" None
                  (Some "Mensaje vacío después de procesar variables")
                  None ;;
          ret (envio_fallido numero operador_nombre "Mensaje vacío")
        else
          _ <-- asegurar_limiter operador_nombre
                  (op_max_por_minuto operador) ;;
          _ <-- esperar_limiter operador_nombre ;;
          t_firma <-- leer_reloj ;;
          let '(sign, timestamp) := firma_operador operador t_firma in
          let numero_formateado :=
            if negb (startswith numero "57")
            then "57" ++ numero else numero in
          inicio <-- leer_reloj ;;
          intentar
            (response <-- post (Red.PostOperador
                                  (op_url_api operador)
                                  (op_cuenta operador) sign timestamp
                                  (op_sender_id operador)
                                  numero_formateado mensaje_procesado
                                  (op_timeout_segundos operador)) ;;
             fin <-- leer_reloj ;;
             let tiempo_ms := milisegundos inicio fin in
             let respuesta := Red.como_texto response in
             _ <-- registrar queue_id operador_nombre "enviado"
                     (Some respuesta) None (Some tiempo_ms) ;;
             ret (mk_envio true numero operador_nombre None
                           (Some respuesta) (Some tiempo_ms)))
            (manejar_error_post queue_id numero operador_nombre)
    end.

(** [router.obtener_operador_siguiente(intento, anterior)], from the
    router module. *)
Variable obtener_operador_siguiente :
  Z -> option string -> resultado Operador.

Definition siguiente (intento : Z) (anterior : option string) : M Operador :=
  fun w => (obtener_operador_siguiente intento anterior, w).

(** [for x in l: cuerpo(x)] *)
Fixpoint por_cada {A : Type} (cuerpo : A -> M unit) (l : list A) : M unit :=
  match l with
  | [] => ret tt
  | x :: r => _ <-- cuerpo x ;; por_cada cuerpo r
  end.

(** [SMSSender.procesar_cola] *)
Definition procesar_cola : M unit :=
  pendientes <-- en_db (DB.obtener_pendientes 50) ;;
  match pendientes with
  | [] => ret tt
  | _ =>
      por_cada
        (fun item =>
           operador <-- siguiente (DB.intentos item)
                          (Some (DB.operador item)) ;;
           _ <-- enviar_sms_ahora (DB.id item) (DB.numero item)
                   (DB.mensaje item) (op_operador operador) None None ;;
           ret tt)
        pendientes
  end.

(** [SMSSender.reintentar_fallidos] *)
Definition reintentar_fallidos : M unit :=
  pendientes <-- en_db (DB.obtener_pendientes 100) ;;
  por_cada
    (fun item =>
       if (DB.estado item =? "reintentando")%string
       then
         operador <-- siguiente (DB.intentos item) None ;;
         _ <-- enviar_sms_ahora (DB.id item) (DB.numero item)
                 (DB.mensaje item) (op_operador operador) None None ;;
         ret tt
       else ret tt)
    pendientes.

End Colaboradores.

End Sender.

(* ================================================================== *)
(** * app.py *)

Module App.

(** [validar_numero_colombiano]: [None] is the rejection. *)
Definition validar_numero_colombiano (numero : string) : option string :=
  let numero := strip numero in
  let numero := filtrar es_digito numero in
  if (len numero =? 10) && startswith numero "3" then Some numero
  else if (len numero =? 12) && startswith numero "57"
  then Some (desde 2 numero)
  else None.

(** One iteration of the enrolment loop of [enviar]: the queue id
    appended to [queue_ids], if any. *)
Definition encolar_fila (numero_crudo mensaje : string)
  (campana_id : option string) (metadata : option (list (string * string)))
  (now : Q) (s : DB.Store) : resultado (option Z) * DB.Store :=
  match validar_numero_colombiano numero_crudo with
  | Some (String c r) =>
      match DB.agregar_a_cola (String c r) mensaje campana_id metadata
                              now s with
      | (Ok (Some queue_id), s') =>
          (Ok (if queue_id =? 0 then None else Some queue_id), s')
      | r' => r'
      end
  | _ => (Ok None, s)
  end.

(** The JSON answers of [webhook_entregado]. *)
Inductive RespuestaWebhook : Type :=
| Error400
| Confirmacion (confirmado : bool)
| Error500 (mensaje : string).

(** [webhook_entregado] on a payload carrying [numero] and [codigo]. *)
Definition webhook_entregado (numero : string) (codigo : option string)
  (now : Q) (s : DB.Store) : RespuestaWebhook * DB.Store :=
  let numero := strip numero in
  if (numero =? "")%string then (Error400, s)
  else
    match DB.confirmar_entrega numero codigo now s with
    | (Ok confirmado, s') => (Confirmacion confirmado, s')
    | (Lanza e, s') => (Error500 (str_excepcion e), s')
    end.

End App.

(* ================================================================== *)
(** * monitor.py *)

Module Monitor.

Definition UMBRAL_TASA_ERROR_CRITICA : Q := 5 # 10.
Definition UMBRAL_TASA_ERROR_ALTA : Q := 2 # 10.
Definition UMBRAL_TIMEOUT_OPERADOR : Q := 300.
Definition UMBRAL_COLA_GRANDE : Z := 1000.

(** Which check raised an alert; it stands for the alert's text. *)
Inductive motivo : Type :=
| TasaGlobal
| ColaGrande
| TasaOperador
| SinExito.

(** An alert dict: its type, severity and operator key (absent for the
    backlog alert), and the check it comes from. *)
Record Alerta : Type := mk_alerta
  { a_tipo : string;
    a_severidad : string;
    a_operador : option string;
    a_motivo : motivo }.

(** [x or 0] for a nullable count. *)
Definition o_cero (x : option Z) : Z :=
  match x with
  | Some n => if n =? 0 then 0 else n
  | None => 0
  end.

(** [op_stat['tasa_error_actual'] or 0] *)
Definition tasa_error_actual (r : DB.FilaStats) : Q :=
  match DB.s_tasa_error_actual r with
  | Some x => if Qeq_bool x 0 then 0 else x
  | None => 0
  end.

(** Truth value of a nullable timestamp. *)
Definition hay_tiempo (t : option Q) : bool :=
  match t with
  | Some x => negb (Qeq_bool x 0)
  | None => false
  end.

(** The alert on an error rate, if any. *)
Definition alerta_tasa (tasa : Q) (operador : string) (m : motivo)
  : list Alerta :=
  if Qle_bool UMBRAL_TASA_ERROR_CRITICA tasa
  then [mk_alerta "CRITICA" "CRITICAL" (Some operador) m]
  else if Qle_bool UMBRAL_TASA_ERROR_ALTA tasa
  then [mk_alerta "ALERTA" "WARNING" (Some operador) m]
  else [].

(** The body of the loop over the operator statistics. *)
Definition alertas_operador (ahora : Q) (op_stat : DB.FilaStats)
  : list Alerta :=
  let operador := DB.s_operador op_stat in
  let tasa_error_op := tasa_error_actual op_stat in
  let ultimo_error := DB.s_ultimo_error_timestamp op_stat in
  (alerta_tasa tasa_error_op operador TasaOperador
   ++ if hay_tiempo ultimo_error
      then
        let tiempo_sin_exito :=
          (ahora - (if hay_tiempo (DB.s_ultimo_exito_timestamp op_stat)
                    then match DB.s_ultimo_exito_timestamp op_stat with
                         | Some t => t
                         | None => ahora
                         end
                    else ahora))%Q in
        if RL.Qlt_bool UMBRAL_TIMEOUT_OPERADOR tiempo_sin_exito
        then [mk_alerta "ALERTA" "WARNING" (Some operador) SinExito]
        else []
      else [])%list.

(** The dict returned by [verificar_salud_sistema], without its
    timestamp. *)
Record Salud : Type := mk_salud
  { estado_general : DB.EstadoGeneral;
    stats_operadores : list DB.FilaStats;
    alertas : list Alerta;
    hay_alertas : bool }.

(** [SistemaMonitor.verificar_salud_sistema] at clock reading [ahora]. *)
Definition verificar_salud_sistema (ahora : Q) (s : DB.Store)
  : resultado Salud * DB.Store :=
  match DB.obtener_estado_general s with
  | (Lanza e, s1) => (Lanza e, s1)
  | (Ok estado, s1) =>
      match DB.obtener_todas_stats s1 with
      | (Lanza e, s2) => (Lanza e, s2)
      | (Ok stats, s2) =>
          let total := DB.eg_total estado in
          let globales :=
            if total >? 0
            then
              let fallidos := o_cero (DB.eg_fallidos estado) in
              alerta_tasa (inject_Z fallidos / inject_Z total)%Q
                          "GLOBAL" TasaGlobal
            else [] in
          let pendientes := o_cero (DB.eg_pendientes estado) in
          let cola :=
            if pendientes >? UMBRAL_COLA_GRANDE
            then [mk_alerta "ALERTA" "WARNING" None ColaGrande]
            else [] in
          let alertas :=
            (globales ++ cola ++ flat_map (alertas_operador ahora) stats)%list
          in
          (Ok (mk_salud estado stats alertas
                        (negb (Nat.eqb (List.length alertas) 0))), s2)
      end
  end.

(** The dict returned by [obtener_dashboard_datos], without its
    timestamp; the five entries of ['metricas'] come first. *)
Record Tablero : Type := mk_tablero
  { t_total_sms : Z;
    t_entregados : Z;
    t_enviados : Z;
    t_fallidos : Z;
    t_pendientes : Z;
    t_operadores : list DB.FilaStats;
    t_alertas : list Alerta;
    salud_general : string }.

(** [SistemaMonitor.obtener_dashboard_datos] at clock reading [ahora]. *)
Definition obtener_dashboard_datos (ahora : Q) (s : DB.Store)
  : resultado Tablero * DB.Store :=
  match verificar_salud_sistema ahora s with
  | (Lanza e, s1) => (Lanza e, s1)
  | (Ok salud, s1) =>
      let estado := estado_general salud in
      (Ok (mk_tablero
             (o_cero (Some (DB.eg_total estado)))
             (o_cero (DB.eg_entregados estado))
             (o_cero (DB.eg_enviados estado))
             (o_cero (DB.eg_fallidos estado))
             (o_cero (DB.eg_pendientes estado))
             (stats_operadores salud)
             (alertas salud)
             (if negb (hay_alertas salud) then "BUENA" else "PROBLEMAS")),
       s1)
  end.

End Monitor.

(* ================================================================== *)
(** * Vocabulary of the statements *)

Import DB.

(** The WHERE clause, in words. *)
Definition Elegible (now : Q) (f : Fila) : Prop :=
  (estado f = "pendiente"
   \/ (estado f = "reintentando"
       /\ exists t, proximo_reintento f = Some t /\ (t <= now)%Q))
  /\ intentos f < max_intentos f.

(** The ORDER BY clause, in words. *)
Definition Orden (f g : Fila) : Prop :=
  intentos f < intentos g
  \/ (intentos f = intentos g /\ (creado f <= creado g)%Q).

(** The rows a LIMIT leaves out. *)
Definition descartar {A : Type} (limit : Z) (l : list A) : list A :=
  if limit <? 0 then [] else skipn (Z.to_nat limit) l.

(** Rows and store left by a queue-store call. *)
Definition filas_de (r : resultado (list Fila) * Store) : list Fila :=
  match fst r with
  | Ok l => l
  | Lanza _ => []
  end.

Definition ids (l : list Fila) : list Z := map id l.

(** Two claims hand out no job in common. *)
Definition disjuntos (a b : list Z) : Prop :=
  forall x, In x a -> ~ In x b.

(** The state of job [i], if the queue holds it. *)
Definition estado_de (i : Z) (s : Store) : option string :=
  option_map estado (buscar i (sms_queue s)).

(** Three jobs enrolled for one campaign, one second apart. *)
Definition cola_de_tres : Store :=
  Eval vm_compute in
  snd (agregar_a_cola "3201122334" "Hola {nombre}" (Some "c1") None 3
    (snd (agregar_a_cola "3109876543" "Hola {nombre}" (Some "c1") None 2
      (snd (agregar_a_cola "3001234567" "Hola {nombre}" (Some "c1") None 1
         vacio))))).

(** The operations of the queue store. *)
Inductive operacion : Type :=
| OpAlta (numero mensaje : string) (campana_id : option string)
         (metadata : option (list (string * string))) (now : Q)
| OpReclamo (limit : Z) (now : Q)
| OpIntento (queue_id : Z) (operador estado : string)
            (respuesta_api error : option string) (tiempo_ms : option Z)
            (now : Q)
| OpConfirmacion (numero : string) (codigo_error : option string) (now : Q).

(** The store an operation leaves. *)
Definition despues (op : operacion) (s : Store) : Store :=
  match op with
  | OpAlta n m c md t => snd (agregar_a_cola n m c md t s)
  | OpReclamo l t => snd (obtener_pendientes l t s)
  | OpIntento q o e r err ms t => snd (actualizar_intento q o e r err ms t s)
  | OpConfirmacion n c t => snd (confirmar_entrega n c t s)
  end.

(** [op] is not the recording of an attempt of job [i]. *)
Definition ajena (op : operacion) (i : Z) : Prop :=
  match op with
  | OpIntento q _ _ _ _ _ _ => q <> i
  | _ => True
  end.

(** How many jobs for a number are still to be confirmed. *)
Definition cuenta_por_confirmar (n : string) (s : Store) : nat :=
  List.length (filter (por_confirmar n) (sms_queue s)).

(** The first of the three jobs confirmed by webhook. *)
Definition cola_entregada : Store :=
  Eval vm_compute in
  snd (confirmar_entrega "3001234567" None 5 cola_de_tres).

(** Two reminders enrolled for the same number. *)
Definition cola_mismo_numero : Store :=
  Eval vm_compute in
  snd (agregar_a_cola "3001234567" "Segundo aviso" (Some "c1") None 2
    (snd (agregar_a_cola "3001234567" "Primer aviso" (Some "c1") None 1
       vacio))).

(** Every stored number went through the enrolment validation. *)
Definition numeros_validados (s : Store) : Prop :=
  forall f, In f (sms_queue s) ->
            exists crudo, App.validar_numero_colombiano crudo = Some (numero f).

(** A limiter for 100 messages per minute after five sends. *)
Fixpoint esperar_veces (k : nat) (reloj : Q) (rl : RL.RateLimiter)
  : RL.RateLimiter :=
  match k with
  | O => rl
  | S k' =>
      match RL.esperar reloj rl with
      | Ok (rl', t) => esperar_veces k' t rl'
      | Lanza _ => rl
      end
  end.

Definition limitador_nuevo : RL.RateLimiter :=
  RL.mk_rl 100 true 100 0 [] 100 [] 0.

Definition limitador_cinco : RL.RateLimiter :=
  Eval vm_compute in
  esperar_veces 5 0 limitador_nuevo.

(** Collaborators for a run of the sender: a router that knows the
    operator "principal", and a network on which every request times
    out after ten seconds. *)
Definition operador_principal : Sender.Operador :=
  Sender.mk_operador "principal" "http://sms.example/api" "cuenta"
                     "Goleador" 100 10.

Definition router_de_prueba (nombre : string) : option Sender.Operador :=
  if (nombre =? "principal")%string then Some operador_principal else None.

Definition firma_de_prueba (o : Sender.Operador) (t : Q) : string * string :=
  ("firma", "20250223103045").

Definition red_caida (p : Red.Peticion) : resultado Red.Respuesta * Q :=
  (Lanza Timeout, 10%Q).

(** One job whose template resolves to the empty text for its row. *)
Definition mundo_de_prueba : Sender.Mundo :=
  Eval vm_compute in
  Sender.mk_mundo
    (snd (agregar_a_cola "3001234567" "{nombre}" (Some "c1") None 1 vacio))
    [] 2 [].

Definition enviar_de_prueba (w : Sender.Mundo)
  : resultado Sender.Envio * Sender.Mundo :=
  Sender.enviar_sms_ahora router_de_prueba firma_de_prueba
    TraffiLink.servicio_por_defecto red_caida
    1 "3001234567" "{nombre}" "principal" (Some [("nombre", "")]) None w.

(** Ids in the queue are unique, positive, and at most the
    AUTOINCREMENT counter, which is not negative. *)
Definition bien_formada (s : Store) : Prop :=
  0 <= secuencia s
  /\ NoDup (ids (sms_queue s))
  /\ Forall (fun f => 0 < id f <= secuencia s) (sms_queue s).

(** What a job is enrolled with. *)
Definition identidad (f : Fila)
  : Z * string * string * option string * Q * Z :=
  (id f, numero f, mensaje f, campana_id f, creado f, max_intentos f).

(** The five lifecycle states. *)
Definition estados : list string :=
  ["pendiente"; "reintentando"; "enviado"; "entregado"; "fallido"].

Definition estados_conocidos (s : Store) : Prop :=
  Forall (fun f => In (estado f) estados) (sms_queue s).

(** A nullable count, NULL read as 0. *)
Definition contar (x : option Z) : Z :=
  match x with
  | Some n => n
  | None => 0
  end.

(** The aggregate state of a store. *)
Definition estado_general_de (s : Store) : EstadoGeneral :=
  match fst (obtener_estado_general s) with
  | Ok e => e
  | Lanza _ => mk_estado_general None None None None 0
  end.

(** The attempts on record in a job's history. *)
Definition historial_de (f : Fila) : list entrada_historial :=
  match operador_history f with
  | Some h => h
  | None => []
  end.

(** The limiter [esperar] leaves behind, also when it raises: both
    exceptions come after the first [_refill]. *)
Definition tras_esperar (reloj : Q) (rl : RL.RateLimiter)
  : RL.RateLimiter :=
  match RL.esperar reloj rl with
  | Ok (rl', _) => rl'
  | Lanza _ => RL._refill reloj rl
  end.

(** The calls a sender makes on a limiter, with their clock readings. *)
Inductive uso : Type :=
| UsoEsperar (reloj : Q)
| UsoError (t ahora : Q)
| UsoExito.

Definition usar (rl : RL.RateLimiter) (u : uso) : RL.RateLimiter :=
  match u with
  | UsoEsperar reloj => tras_esperar reloj rl
  | UsoError t ahora => RL.registrar_error t ahora rl
  | UsoExito => RL.registrar_exito rl
  end.

Definition historia (usos : list uso) (rl : RL.RateLimiter)
  : RL.RateLimiter :=
  fold_left usar usos rl.

(** A limiter for 100 messages per minute after fifty sends. *)
Definition limitador_cincuenta : RL.RateLimiter :=
  Eval vm_compute in
  esperar_veces 50 0 limitador_nuevo.

(** A text without an opening brace. *)
Definition sin_llave (m : string) : bool :=
  todos (fun c => negb (Ascii.eqb c "{"%char)) m.

(** A computation that adds at most [n] requests to those that have
    gone out, whatever it returns or raises. *)
Definition a_lo_sumo {A : Type} (n : nat) (m : Sender.M A) : Prop :=
  forall w, exists ps,
    Sender.red (snd (m w)) = (Sender.red w ++ ps)%list
    /\ (List.length ps <= n)%nat.

(** A router that hands out the operator "principal" at every attempt. *)
Definition siguiente_de_prueba (intento : Z) (anterior : option string)
  : resultado Sender.Operador :=
  Ok operador_principal.

(** A network on which every request is answered, after half a second,
    with an error page. *)
Definition red_arriba (p : Red.Peticion) : resultado Red.Respuesta * Q :=
  (Ok (Red.mk_respuesta
         (Lanza JSONDecodeError)
         "{'text': 'Internal Server Error', 'status_code': 500}"),
   1 # 2).

(** One pending job with a plain text. *)
Definition mundo_con_aviso : Sender.Mundo :=
  Eval vm_compute in
  Sender.mk_mundo
    (snd (agregar_a_cola "3001234567" "Hola" (Some "c1") None 1 vacio))
    [] 2 [].

(** A queue whose only job has used up its attempts. *)
Definition mundo_con_fallido : Sender.Mundo :=
  Eval vm_compute in
  Sender.mk_mundo
    (mk_store
       [mk_fila 1 "3001234567" "Hola" (Some "c1") "fallido" 5 5 "principal"
                (Some []) None (Some "Timeout de conexión") None 0 None 1
                (Some 2%Q) (Some 9%Q) None None]
       1 [] [] [])
    [] 10 [].

(** The store a sequence of operations leaves. *)
Definition tras (ops : list operacion) (s : Store) : Store :=
  fold_left (fun s op => despues op s) ops s.

(** How many jobs of the queue satisfy [p]. *)
Definition cuantos (p : Fila -> bool) (s : Store) : Z :=
  Z.of_nat (List.length (filter p (sms_queue s))).

(** The three alerts that do not belong to an operator. *)
Definition alerta_critica : Monitor.Alerta :=
  Monitor.mk_alerta "CRITICA" "CRITICAL" (Some "GLOBAL") Monitor.TasaGlobal.

Definition alerta_alta : Monitor.Alerta :=
  Monitor.mk_alerta "ALERTA" "WARNING" (Some "GLOBAL") Monitor.TasaGlobal.

Definition alerta_cola : Monitor.Alerta :=
  Monitor.mk_alerta "ALERTA" "WARNING" None Monitor.ColaGrande.

(** Statistics as another writer could leave them: an operator whose
    last success is old, and one that has only ever failed. *)
Definition almacen_con_estadisticas : Store :=
  mk_store [] 0 []
    [mk_stats "principal" 7 (Some "Timeout") (Some 900%Q) (Some 100%Q)
              (Some 0%Q) 900;
     mk_stats "respaldo" 3 (Some "Timeout") (Some 900%Q) None
              (Some 0%Q) 900]
    [].

(** The last [k] elements of a list, oldest first. *)
Definition ultimos {A : Type} (k : nat) (l : list A) : list A :=
  rev (firstn k (rev l)).

(** How many of the times [l] lie less than 60 seconds before [ahora]. *)
Fixpoint en_el_ultimo_minuto (ahora : Q) (l : list Q) : Z :=
  match l with
  | [] => 0
  | x :: r =>
      (if Qlt_le_dec (ahora - x) 60 then 1 else 0)
      + en_el_ultimo_minuto ahora r
  end.

(** A job state that no failed attempt has left behind. *)
Definition estado_sin_fallo (f : Fila) : Prop :=
  estado f = "pendiente" \/ estado f = "enviado" \/ estado f = "entregado".

(** An operator's row without an error on record and with the error
    rate at the default of its column. *)
Definition fila_sin_errores (r : FilaStats) : Prop :=
  s_ultimo_error_timestamp r = None /\ s_tasa_error_actual r = Some 0%Q.

(** The error rate stored for an operator, NULL read as 0. *)
Definition tasa_de (r : FilaStats) : Q :=
  match s_tasa_error_actual r with
  | Some x => x
  | None => 0
  end.

(** An operator with an error on record whose last success is more than
    300 seconds old; a time that is missing or zero does not count. *)
Definition inactivo (ahora : Q) (r : FilaStats) : Prop :=
  exists te t,
    s_ultimo_error_timestamp r = Some te /\ ~ (te == 0)%Q
    /\ s_ultimo_exito_timestamp r = Some t /\ ~ (t == 0)%Q
    /\ (300 < ahora - t)%Q.

(** An operator in good standing: a stored error rate below a fifth,
    and not inactive. *)
Definition operador_sano (ahora : Q) (r : FilaStats) : Prop :=
  (tasa_de r < 2 # 10)%Q /\ ~ inactivo ahora r.

(* ================================================================== *)
(** * hashlib.md5 against known digests *)

Example md5_vacio : MD5.hexdigest "" = "d41d8cd98f00b204e9800998ecf8427e".
Proof. vm_compute. reflexivity. Qed.

Example md5_abc : MD5.hexdigest "abc" = "900150983cd24fb0d6963f7d28e17f72".
Proof. vm_compute. reflexivity. Qed.

Example md5_64 :
  MD5.hexdigest
    "aaaaaaaaaaaaaaaaaaaaaaaaaaaaaaaaaaaaaaaaaaaaaaaaaaaaaaaaaaaaaaaa"
  = "014842d480b571495a4a0363793f7367".
Proof. vm_compute. reflexivity. Qed.

Example sign_test :
  TraffiLink.generar_sign TraffiLink.servicio_por_defecto
    "account=0152C274&sendid=TEST001&mobile=573001234567&content=Test"
  = "eaf8cc83a755777e81702c1e8a489679".
Proof. vm_compute. reflexivity. Qed.

(* ================================================================== *)
(** * The request signature *)

Section Firma.

Import TraffiLink.

Lemma bytes_le_length : forall n x, List.length (MD5.bytes_le n x) = n.
Proof.
  intros n x. unfold MD5.bytes_le. now rewrite length_map, length_seq.
Qed.

Lemma digest_length : forall datos, List.length (MD5.digest datos) = 16%nat.
Proof.
  intros datos. unfold MD5.digest.
  destruct (fold_left MD5.absorber _ _) as [st buf].
  now rewrite !length_app, !bytes_le_length.
Qed.

Lemma hex_length :
  forall bs, String.length (MD5.hex bs) = (2 * List.length bs)%nat.
Proof.
  induction bs as [|b r IH]; simpl; [reflexivity|]. rewrite IH. lia.
Qed.

Lemma hexdigest_length : forall s, String.length (MD5.hexdigest s) = 32%nat.
Proof.
  intros s. unfold MD5.hexdigest. now rewrite hex_length, digest_length.
Qed.

Lemma cifras_hex_tabla :
  forallb (fun i => MD5.es_cifra_hex (MD5.cifra_hex (Z.of_nat i))) (seq 0 16)
  = true.
Proof. reflexivity. Qed.

Lemma cifra_hex_ok :
  forall x, MD5.es_cifra_hex (MD5.cifra_hex (Z.land x 15)) = true.
Proof.
  intros x.
  assert (H : 0 <= Z.land x 15 < 16).
  { change 15 with (Z.ones 4). rewrite Z.land_ones by lia.
    apply Z.mod_pos_bound. reflexivity. }
  rewrite <- (Z2Nat.id (Z.land x 15)) by lia.
  apply (proj1 (forallb_forall _ _) cifras_hex_tabla).
  apply in_seq. lia.
Qed.

Lemma hex_cifras : forall bs, todos MD5.es_cifra_hex (MD5.hex bs) = true.
Proof.
  induction bs as [|b r IH]; [reflexivity|].
  cbn [MD5.hex todos]. now rewrite !cifra_hex_ok, IH.
Qed.

(** X1.  What the repository's own test asserts of a signature holds
    for every service and parameter string: it has 32 characters, all of
    them lower-case hexadecimal digits. *)
Lemma generar_sign_formato :
  forall self params,
    String.length (generar_sign self params) = 32%nat
    /\ todos MD5.es_cifra_hex (generar_sign self params) = true.
Proof.
  intros self params. unfold generar_sign. split.
  - apply hexdigest_length.
  - apply hex_cifras.
Qed.

(** C9.  Signature generation is deterministic: two services holding
    the same password sign identical parameter strings identically, and
    the signature is the MD5 hex digest of the parameter string
    followed by the MD5 hex digest of the password. *)
Theorem generar_sign_determinista :
  forall (s1 s2 : TraffiLinkService) (p1 p2 : string),
    password s1 = password s2 ->
    p1 = p2 ->
    generar_sign s1 p1 = generar_sign s2 p2
    /\ generar_sign s1 p1
       = MD5.hexdigest (p1 ++ MD5.hexdigest (password s1)).
Proof.
  intros s1 s2 p1 p2 Hpw Hp. subst p2. unfold generar_sign.
  rewrite Hpw. split; reflexivity.
Qed.

Lemma generar_sign_determinista_witness :
  generar_sign servicio_por_defecto "account=0152C274&id=7"
  = generar_sign (mk_servicio "otra" "G2o0jRnm" "http://localhost" "X" 3 false)
                 "account=0152C274&id=7"
  /\ generar_sign servicio_por_defecto "account=0152C274&id=7"
     = MD5.hexdigest ("account=0152C274&id=7"
                      ++ MD5.hexdigest (password servicio_por_defecto)).
Proof.
  apply (generar_sign_determinista servicio_por_defecto
           (mk_servicio "otra" "G2o0jRnm" "http://localhost" "X" 3 false)
           "account=0152C274&id=7" "account=0152C274&id=7");
    reflexivity.
Defined.

End Firma.

(* ================================================================== *)
(** * The queue store: selecting eligible jobs *)

Section Seleccion.

Lemma elegible_spec :
  forall now f, elegible now f = true <-> Elegible now f.
Proof.
  intros now f. unfold elegible, Elegible, vencido.
  rewrite andb_true_iff, orb_true_iff, andb_true_iff, Z.ltb_lt,
    !String.eqb_eq.
  split; intros [H1 H2]; split; try assumption.
  - destruct H1 as [H1|[H1 H3]]; [now left|right; split; [assumption|]].
    destruct (proximo_reintento f) as [t|]; [|discriminate].
    exists t. split; [reflexivity|]. now apply Qle_bool_iff.
  - destruct H1 as [H1|[H1 (t & H3 & H4)]]; [now left|right; split; [assumption|]].
    rewrite H3. now apply Qle_bool_iff.
Qed.

Lemma antes_spec : forall f g, antes f g = true <-> Orden f g.
Proof.
  intros f g. unfold antes, Orden.
  now rewrite orb_true_iff, andb_true_iff, Z.ltb_lt, Z.eqb_eq, Qle_bool_iff.
Qed.

Lemma Orden_total : forall f g, Orden f g \/ Orden g f.
Proof.
  intros f g. unfold Orden.
  destruct (Z.lt_trichotomy (intentos f) (intentos g)) as [H|[H|H]];
    [now left; left| |now right; left].
  destruct (Qlt_le_dec (creado f) (creado g)) as [L|L].
  - left; right; split; [assumption|now apply Qlt_le_weak].
  - right; right; split; [now symmetry|assumption].
Qed.

Lemma Orden_trans : forall f g h, Orden f g -> Orden g h -> Orden f h.
Proof.
  unfold Orden. intros f g h [A|[A1 A2]] [B|[B1 B2]].
  - left; lia.
  - left; lia.
  - left; lia.
  - right; split; [lia|]. now apply Qle_trans with (creado g).
Qed.

Lemma colocar_perm : forall f l, Permutation (colocar f l) (f :: l).
Proof.
  intros f l. induction l as [|g r IH]; simpl; [reflexivity|].
  destruct (antes f g); [reflexivity|].
  rewrite IH. apply perm_swap.
Qed.

Lemma ordenar_perm : forall l, Permutation (ordenar l) l.
Proof.
  induction l as [|f r IH]; simpl; [reflexivity|].
  rewrite colocar_perm. now constructor.
Qed.

Lemma colocar_ordenada :
  forall f l, StronglySorted Orden l -> StronglySorted Orden (colocar f l).
Proof.
  intros f l H. induction H as [|g r Hs IH Hall]; simpl.
  - repeat constructor.
  - destruct (antes f g) eqn:E.
    + apply antes_spec in E. constructor.
      * now constructor.
      * constructor; [assumption|].
        eapply Forall_impl; [|exact Hall].
        intros h Hh. now apply Orden_trans with g.
    + constructor; [assumption|].
      assert (Og : Orden g f).
      { destruct (Orden_total f g) as [O|O]; [|assumption].
        apply antes_spec in O. congruence. }
      rewrite (Forall_forall (Orden g)). intros h Hh.
      apply (Permutation_in _ (colocar_perm f r)) in Hh.
      destruct Hh as [<-|Hh]; [assumption|].
      now apply (proj1 (Forall_forall _ _) Hall).
Qed.

Lemma ordenar_ordenada : forall l, StronglySorted Orden (ordenar l).
Proof.
  induction l as [|f r IH]; simpl; [constructor|].
  now apply colocar_ordenada.
Qed.

(** A sorted list cut in two: each half is sorted and the first half
    precedes the second. *)
Lemma ordenada_partida :
  forall (a b : list Fila),
    StronglySorted Orden (a ++ b) ->
    StronglySorted Orden a
    /\ forall f g, In f a -> In g b -> Orden f g.
Proof.
  induction a as [|x a IH]; intros b H; simpl in *.
  - split; [constructor|intros f g []].
  - inversion H as [|? ? Hs Hall]; subst.
    destruct (IH b Hs) as [Sa Hab]. split.
    + constructor; [assumption|].
      apply Forall_forall. intros y Hy.
      apply (proj1 (Forall_forall _ _) Hall). apply in_or_app. now left.
    + intros f g [<-|Hf] Hg.
      * apply (proj1 (Forall_forall _ _) Hall). apply in_or_app. now right.
      * now apply Hab.
Qed.

Lemma limitar_descartar :
  forall (A : Type) limit (l : list A),
    (limitar limit l ++ descartar limit l)%list = l.
Proof.
  intros A limit l. unfold limitar, descartar.
  destruct (limit <? 0); [apply app_nil_r|apply firstn_skipn].
Qed.

Lemma limitar_length :
  forall (A : Type) limit (l : list A),
    0 <= limit ->
    Z.of_nat (List.length (limitar limit l))
    = Z.min limit (Z.of_nat (List.length l)).
Proof.
  intros A limit l H. unfold limitar.
  destruct (limit <? 0) eqn:E; [apply Z.ltb_lt in E; lia|].
  rewrite length_firstn. lia.
Qed.

(** [obtener_pendientes] only reads: it always returns, and the store
    it leaves is the store it found. *)
Lemma obtener_pendientes_lee :
  forall limit now s,
    obtener_pendientes limit now s
    = (Ok (limitar limit (ordenar (filter (elegible now) (sms_queue s)))), s).
Proof. reflexivity. Qed.

(** C3.  [obtener_pendientes] (ClaimEligible) returns exactly the rows
    that are pending, or retrying with a retry time that has come, and
    whose attempts are below their maximum; ordered by attempts, then by
    creation time; capped at [limit].  The rows left out by the cap come
    after every returned row.  A retrying row whose retry time is still
    in the future is never returned. *)
Theorem obtener_pendientes_correcto :
  forall (s : Store) (limit : Z) (now : Q),
    0 <= limit ->
    exists filas resto,
      obtener_pendientes limit now s = (Ok filas, s)
      /\ Permutation (filas ++ resto) (filter (elegible now) (sms_queue s))
      /\ (forall f, In f (filas ++ resto)
                    <-> In f (sms_queue s) /\ Elegible now f)
      /\ StronglySorted Orden filas
      /\ (forall f g, In f filas -> In g resto -> Orden f g)
      /\ Z.of_nat (List.length filas)
         = Z.min limit
             (Z.of_nat (List.length (filter (elegible now) (sms_queue s))))
      /\ (forall f t,
             estado f = "reintentando" ->
             proximo_reintento f = Some t ->
             (now < t)%Q ->
             ~ In f filas).
Proof.
  intros s limit now Hlim.
  set (sel := ordenar (filter (elegible now) (sms_queue s))).
  exists (limitar limit sel), (descartar limit sel).
  assert (Hperm : Permutation (limitar limit sel ++ descartar limit sel)
                              (filter (elegible now) (sms_queue s))).
  { rewrite limitar_descartar. apply ordenar_perm. }
  assert (Hmem : forall f, In f (limitar limit sel ++ descartar limit sel)
                           <-> In f (sms_queue s) /\ Elegible now f).
  { intros f. rewrite <- elegible_spec, <- filter_In.
    split; intros H.
    - now apply (Permutation_in _ Hperm).
    - now apply (Permutation_in _ (Permutation_sym Hperm)). }
  assert (Hsort : StronglySorted Orden
                    (limitar limit sel ++ descartar limit sel)).
  { rewrite limitar_descartar. apply ordenar_ordenada. }
  apply ordenada_partida in Hsort. destruct Hsort as [Hs1 Hs2].
  split; [reflexivity|].
  split; [exact Hperm|].
  split; [exact Hmem|].
  split; [exact Hs1|].
  split; [exact Hs2|].
  split.
  - rewrite limitar_length by assumption. unfold sel.
    now rewrite (Permutation_length (ordenar_perm _)).
  - intros f t He Hp Hlt Hin.
    assert (Hel : Elegible now f).
    { apply Hmem. apply in_or_app. now left. }
    destruct Hel as [[Hpend|[_ (t' & Ht' & Hle)]] _].
    + rewrite He in Hpend. discriminate.
    + rewrite Hp in Ht'. injection Ht' as <-.
      apply (Qlt_not_le _ _ Hlt). exact Hle.
Qed.

End Seleccion.

Lemma obtener_pendientes_correcto_witness :
  0 <= 2
  /\ exists filas,
       obtener_pendientes 2 10 cola_de_tres = (Ok filas, cola_de_tres)
       /\ StronglySorted Orden filas
       /\ Z.of_nat (List.length filas) = 2.
Proof.
  split; [lia|].
  destruct (obtener_pendientes_correcto cola_de_tres 2 10 ltac:(lia))
    as (filas & resto & H1 & _ & _ & H4 & _ & H6 & _).
  exists filas. split; [exact H1|]. split; [exact H4|].
  rewrite H6. reflexivity.
Defined.

(* ================================================================== *)
(** * The queue store: claiming twice *)

Section Reclamo.

(** C1, as stated, fails: two claims in a row on a queue of three
    pending jobs return the same three jobs. *)
Lemma reclamos_no_disjuntos :
  let primero := obtener_pendientes 50 10 cola_de_tres in
  let segundo := obtener_pendientes 50 10 (snd primero) in
  ids (filas_de primero) = [1; 2; 3]
  /\ ids (filas_de segundo) = [1; 2; 3]
  /\ ~ disjuntos (ids (filas_de primero)) (ids (filas_de segundo)).
Proof.
  cbv zeta. split; [reflexivity|]. split; [reflexivity|].
  intros H. apply (H 1); simpl; auto.
Qed.

(** C1, amended.  [obtener_pendientes] only reads the store: nothing is
    marked as in flight, the store is left as it was, and a further call
    with the same limit and clock reading returns the same rows. *)
Theorem obtener_pendientes_no_reserva :
  forall (s : Store) (limit : Z) (now : Q),
    let primero := obtener_pendientes limit now s in
    snd primero = s
    /\ obtener_pendientes limit now (snd primero) = primero.
Proof.
  intros s limit now. cbv zeta. rewrite obtener_pendientes_lee.
  split; reflexivity.
Qed.

(** A row stays eligible as the clock advances. *)
Lemma Elegible_mas_tarde :
  forall now now' f, (now <= now')%Q -> Elegible now f -> Elegible now' f.
Proof.
  intros now now' f Hle [[H|[H (t & Ht & Hd)]] Hi]; split; try assumption.
  - now left.
  - right. split; [assumption|]. exists t. split; [assumption|].
    now apply Qle_trans with now.
Qed.

(** Every row of a non-empty claim is handed out again by any later
    claim that is not cut by its limit, so the two are never disjoint. *)
Lemma reclamo_posterior_repite :
  forall s limit now now' f,
    (now <= now')%Q ->
    In f (filas_de (obtener_pendientes limit now s)) ->
    In f (filas_de (obtener_pendientes (-1) now'
                      (snd (obtener_pendientes limit now s)))).
Proof.
  intros s limit now now' f Hle Hin.
  rewrite obtener_pendientes_lee in *. unfold filas_de in *. simpl in *.
  assert (He : In f (filter (elegible now) (sms_queue s))).
  { apply (Permutation_in _ (ordenar_perm _)).
    rewrite <- (limitar_descartar _ limit (ordenar _)).
    apply in_or_app. now left. }
  apply filter_In in He. destruct He as [Hq He].
  unfold limitar. simpl.
  apply (Permutation_in _ (Permutation_sym (ordenar_perm _))).
  apply filter_In. split; [assumption|].
  apply elegible_spec. apply Elegible_mas_tarde with now; [assumption|].
  now apply elegible_spec.
Qed.

End Reclamo.

(* ================================================================== *)
(** * The queue store: recording an attempt *)

Section Intento.

Lemma fila_seleccionada :
  forall f,
    seleccionar ["operador_history"; "intentos"] f
    = [("operador_history",
        match operador_history f with
        | Some h => VHistorial h
        | None => VNull
        end);
       ("intentos", VEntero (intentos f))].
Proof. reflexivity. Qed.

(** The fetched row has no [max_intentos] item. *)
Lemma sin_max_intentos :
  forall f,
    row_get (seleccionar ["operador_history"; "intentos"] f) "max_intentos"
    = Lanza (IndexError "No item with that key").
Proof. reflexivity. Qed.

Lemma proximo_estado_falla :
  forall row estado now i ex,
    estado <> "enviado" ->
    estado <> "entregado" ->
    row_get row "intentos" = Ok (VEntero i) ->
    row_get row "max_intentos" = Lanza ex ->
    proximo_estado row estado now = Lanza ex.
Proof.
  intros row e now i ex H1 H2 Hi Hm. unfold proximo_estado.
  apply String.eqb_neq in H1. apply String.eqb_neq in H2.
  rewrite H1, H2, Hi. cbn [bind mas_uno]. now rewrite Hm.
Qed.

(** A failure outcome for a known job: the fetched row carries only
    [operador_history] and [intentos], so reading [max_intentos] from it
    raises, and the transaction is rolled back. *)
Lemma actualizar_intento_sin_exito :
  forall s queue_id f operador estado respuesta_api error tiempo_ms now,
    buscar queue_id (sms_queue s) = Some f ->
    estado <> "enviado" ->
    estado <> "entregado" ->
    actualizar_intento queue_id operador estado respuesta_api error
                       tiempo_ms now s
    = (Lanza (IndexError "No item with that key"), s).
Proof.
  intros s q f op e r err t now Hf H1 H2.
  unfold actualizar_intento, get_connection. rewrite Hf.
  rewrite fila_seleccionada.
  destruct (operador_history f) as [h|];
    cbn [row_get String.eqb Ascii.eqb Bool.eqb bind cargar_historial mas_uno];
    erewrite proximo_estado_falla by (try eassumption; reflexivity);
    reflexivity.
Qed.

(** An unknown job id: the call returns false and changes nothing. *)
Lemma actualizar_intento_desconocido :
  forall s queue_id operador estado respuesta_api error tiempo_ms now,
    buscar queue_id (sms_queue s) = None ->
    actualizar_intento queue_id operador estado respuesta_api error
                       tiempo_ms now s
    = (Ok false, s).
Proof.
  intros s q op e r err t now Hf.
  unfold actualizar_intento, get_connection. now rewrite Hf.
Qed.

(** C2.  On a failure outcome [actualizar_intento] does not reach the
    retry rules: reading [max_intentos] from the fetched row raises
    IndexError and the transaction is rolled back, so the job keeps the
    state and attempt count it had; it is neither moved to retrying with
    a backoff delay nor to failed. *)
Theorem actualizar_intento_fallo_lanza :
  forall (s : Store) (queue_id : Z) (f : Fila) (operador estado : string)
         (respuesta_api error : option string) (tiempo_ms : option Z)
         (now : Q),
    buscar queue_id (sms_queue s) = Some f ->
    estado <> "enviado" ->
    estado <> "entregado" ->
    let r := actualizar_intento queue_id operador estado respuesta_api error
                                tiempo_ms now s in
    r = (Lanza (IndexError "No item with that key"), s)
    /\ estado_de queue_id (snd r) = Some (DB.estado f)
    /\ buscar queue_id (sms_queue (snd r)) = Some f.
Proof.
  intros s q f op e r err t now Hf H1 H2. cbv zeta.
  rewrite (actualizar_intento_sin_exito s q f op e r err t now Hf H1 H2).
  unfold estado_de. simpl. now rewrite Hf.
Qed.

Lemma actualizar_intento_fallo_lanza_witness :
  buscar 1 (sms_queue cola_de_tres)
  = Some (fila_nueva 1 "3001234567" "Hola {nombre}" (Some "c1") 1 None)
  /\ "error" <> "enviado"
  /\ "error" <> "entregado"
  /\ actualizar_intento 1 "principal" "error" None
                        (Some "Timeout") None 10 cola_de_tres
     = (Lanza (IndexError "No item with that key"), cola_de_tres)
  /\ estado_de 1 (snd (actualizar_intento 1 "principal" "error" None
                         (Some "Timeout") None 10 cola_de_tres))
     = Some "pendiente".
Proof.
  split; [reflexivity|]. split; [discriminate|]. split; [discriminate|].
  destruct (actualizar_intento_fallo_lanza cola_de_tres 1
              (fila_nueva 1 "3001234567" "Hola {nombre}" (Some "c1") 1 None)
              "principal" "error" None (Some "Timeout") None 10
              eq_refl ltac:(discriminate) ltac:(discriminate))
    as (H1 & H2 & _).
  split; [exact H1|exact H2].
Defined.

(** The success outcome does follow the rules: the job moves to
    [enviado], its attempt count advances and no retry is scheduled. *)
Lemma actualizar_intento_enviado :
  forall s queue_id f operador respuesta_api error tiempo_ms now,
    buscar queue_id (sms_queue s) = Some f ->
    exists s',
      actualizar_intento queue_id operador "enviado" respuesta_api error
                         tiempo_ms now s = (Ok true, s')
      /\ exists g,
           buscar queue_id (sms_queue s') = Some g
           /\ estado g = "enviado"
           /\ intentos g = intentos f + 1
           /\ proximo_reintento g = None.
Proof.
  intros s q f op r err t now Hf.
  unfold actualizar_intento, get_connection. rewrite Hf.
  rewrite fila_seleccionada.
  destruct (operador_history f) as [h|]; cbn -[upsert_stats filas_log];
    (eexists; split; [reflexivity|]); cbn [sms_queue];
    clear - Hf; induction (sms_queue s) as [|x l IH]; simpl in *;
      try discriminate;
      destruct (id x =? q) eqn:E;
      try (injection Hf as <-; eexists; simpl; rewrite E;
           split; [reflexivity|]; simpl; auto);
      simpl; rewrite E; auto.
Qed.

(** The retry rules never index the delay table out of range when the
    attempt limit is the default 5: whenever an attempt count leaves
    attempts open, it has a delay. *)
Lemma delays_alcanza :
  forall i, 0 <= i -> i + 1 < 5 ->
    exists d, indice delays (VEntero i) = Ok d.
Proof.
  intros i H0 H5.
  assert (C : i = 0 \/ i = 1 \/ i = 2 \/ i = 3) by lia.
  destruct C as [-> | [-> | [-> | ->]]]; eexists; reflexivity.
Qed.

End Intento.

(* ================================================================== *)
(** * The queue store: enrolment *)

Section Alta.

Lemma choca_sin_campana :
  forall n m q, existsb (choca n m None) q = false.
Proof.
  intros n m q. induction q as [|f r IH]; [reflexivity|].
  simpl. rewrite IH. unfold choca.
  destruct (campana_id f); now rewrite andb_false_r.
Qed.

(** C4.  The uniqueness check does not cover an absent campaign: a
    request without campaign identifier is always enrolled under a fresh
    id, whatever the queue already holds; sent twice, it yields two jobs
    with the same number and message. *)
Theorem agregar_a_cola_sin_campana_duplica :
  forall (s : Store) (numero mensaje : string)
         (md1 md2 : option (list (string * string))) (t1 t2 : Q),
    let primero := agregar_a_cola numero mensaje None md1 t1 s in
    let segundo := agregar_a_cola numero mensaje None md2 t2 (snd primero) in
    fst primero = Ok (Some (secuencia s + 1))
    /\ fst segundo = Ok (Some (secuencia s + 2))
    /\ sms_queue (snd segundo)
       = (sms_queue s
          ++ [fila_nueva (secuencia s + 1) numero mensaje None t1
                         (volcar_metadata md1);
              fila_nueva (secuencia s + 2) numero mensaje None t2
                         (volcar_metadata md2)])%list.
Proof.
  intros s n m md1 md2 t1 t2. cbv zeta.
  unfold agregar_a_cola, get_connection, insertar.
  rewrite choca_sin_campana. cbn [fst snd sms_queue secuencia].
  rewrite choca_sin_campana. cbn [fst snd sms_queue secuencia].
  replace (secuencia s + 1 + 1) with (secuencia s + 2) by lia.
  split; [reflexivity|]. split; [reflexivity|].
  now rewrite <- app_assoc.
Qed.

(** With a campaign identifier the check works as the spec says: a
    request equal to an enrolled one is refused and the store is left
    as it was. *)
Lemma agregar_a_cola_duplicado :
  forall s f numero mensaje c md now,
    In f (sms_queue s) ->
    DB.numero f = numero -> DB.mensaje f = mensaje ->
    DB.campana_id f = Some c ->
    agregar_a_cola numero mensaje (Some c) md now s = (Ok None, s).
Proof.
  intros s f n m c md now Hin Hn Hm Hc.
  unfold agregar_a_cola, get_connection, insertar.
  assert (E : existsb (choca n m (Some c)) (sms_queue s) = true).
  { apply existsb_exists. exists f. split; [assumption|].
    unfold choca. rewrite Hn, Hm, Hc, !String.eqb_refl. reflexivity. }
  now rewrite E.
Qed.

(** A request that collides with no row is stored as a pending job with
    no attempt on record, and its id is returned. *)
Lemma agregar_a_cola_nuevo :
  forall s numero mensaje c md now,
    existsb (choca numero mensaje c) (sms_queue s) = false ->
    exists s',
      agregar_a_cola numero mensaje c md now s
      = (Ok (Some (secuencia s + 1)), s')
      /\ sms_queue s'
         = (sms_queue s
            ++ [fila_nueva (secuencia s + 1) numero mensaje c now
                           (volcar_metadata md)])%list
      /\ estado (fila_nueva (secuencia s + 1) numero mensaje c now
                            (volcar_metadata md)) = "pendiente"
      /\ intentos (fila_nueva (secuencia s + 1) numero mensaje c now
                              (volcar_metadata md)) = 0
      /\ operador_history (fila_nueva (secuencia s + 1) numero mensaje c now
                                      (volcar_metadata md)) = Some [].
Proof.
  intros s n m c md now H.
  unfold agregar_a_cola, get_connection, insertar. rewrite H.
  eexists. repeat split.
Qed.

End Alta.

(* ================================================================== *)
(** * The queue store: delivery confirmation *)

Section Entrega.

Lemma con_cola_misma : forall s, con_cola s (sms_queue s) = s.
Proof. now intros []. Qed.

Lemma actualizar_primera_ninguna :
  forall p g q,
    filter p q = [] -> actualizar_primera p g q = (q, 0).
Proof.
  intros p g q. induction q as [|f r IH]; simpl; [reflexivity|].
  destruct (p f); [discriminate|]. intros H. now rewrite (IH H).
Qed.

Lemma actualizar_primera_alguna :
  forall p g q,
    (forall f, p f = true -> p (g f) = false) ->
    filter p q <> [] ->
    snd (actualizar_primera p g q) = 1
    /\ List.length (filter p (fst (actualizar_primera p g q)))
       = pred (List.length (filter p q)).
Proof.
  intros p g q Hg. induction q as [|f r IH]; simpl; [congruence|].
  destruct (p f) eqn:E; simpl.
  - intros _. now rewrite (Hg f E).
  - intros H. destruct (IH H) as [H1 H2].
    destruct (actualizar_primera p g r) as [r' n]. simpl in *.
    now rewrite E.
Qed.

Lemma entregada_no_cuenta :
  forall n now f,
    por_confirmar n f = true -> por_confirmar n (fila_entregada f now) = false.
Proof.
  intros n now f _. unfold por_confirmar. simpl. apply andb_false_r.
Qed.

(** One call: it answers whether some job was waiting, and delivers
    exactly one of them if so. *)
Lemma confirmar_entrega_una :
  forall s n c t,
    fst (confirmar_entrega n c t s)
    = Ok (negb (Nat.eqb (cuenta_por_confirmar n s) 0))
    /\ cuenta_por_confirmar n (snd (confirmar_entrega n c t s))
       = pred (cuenta_por_confirmar n s)
    /\ (cuenta_por_confirmar n s = 0%nat ->
        snd (confirmar_entrega n c t s) = s).
Proof.
  intros s n c t. unfold cuenta_por_confirmar, confirmar_entrega, get_connection.
  destruct (filter (por_confirmar n) (sms_queue s)) as [|x l] eqn:E.
  - rewrite (actualizar_primera_ninguna _ _ _ E). simpl.
    rewrite E. repeat split. intros _. apply con_cola_misma.
  - assert (Hne : filter (por_confirmar n) (sms_queue s) <> [])
      by (rewrite E; discriminate).
    destruct (actualizar_primera_alguna (por_confirmar n)
                (fun f => fila_entregada f t) (sms_queue s)
                (entregada_no_cuenta n t) Hne) as [H1 H2].
    destruct (actualizar_primera _ _ _) as [q k]. simpl in *.
    subst k. simpl. rewrite H2, E. repeat split. discriminate.
Qed.

(** C6, as stated, fails: with two undelivered jobs for the number the
    second confirmation is not a no-op; it returns true and delivers the
    second job. *)
Lemma segunda_confirmacion_entrega_otro :
  let primera := confirmar_entrega "3001234567" None 5 cola_mismo_numero in
  let segunda := confirmar_entrega "3001234567" None 6 (snd primera) in
  fst primera = Ok true
  /\ fst segunda = Ok true
  /\ estado_de 2 (snd primera) = Some "pendiente"
  /\ estado_de 2 (snd segunda) = Some "entregado"
  /\ snd segunda <> snd primera.
Proof.
  cbv zeta. repeat split; try reflexivity. vm_compute. discriminate.
Qed.

(** C6, amended.  When the number has at most one job still to be
    confirmed, confirming it twice in a row changes state at most once:
    the second call returns false and leaves the store as the first call
    left it. *)
Theorem confirmar_entrega_repetida :
  forall (s : Store) (n : string) (c1 c2 : option string) (t1 t2 : Q),
    (cuenta_por_confirmar n s <= 1)%nat ->
    confirmar_entrega n c2 t2 (snd (confirmar_entrega n c1 t1 s))
    = (Ok false, snd (confirmar_entrega n c1 t1 s)).
Proof.
  intros s n c1 c2 t1 t2 H.
  destruct (confirmar_entrega_una s n c1 t1) as (_ & Hc & _).
  set (s1 := snd (confirmar_entrega n c1 t1 s)) in *.
  assert (H0 : cuenta_por_confirmar n s1 = 0%nat) by lia.
  destruct (confirmar_entrega_una s1 n c2 t2) as (Hr & _ & Hs).
  rewrite H0 in Hr. simpl in Hr. specialize (Hs H0).
  destruct (confirmar_entrega n c2 t2 s1) as [r s2]. simpl in *.
  now subst.
Qed.

Lemma confirmar_entrega_repetida_witness :
  (cuenta_por_confirmar "3001234567" cola_de_tres <= 1)%nat
  /\ confirmar_entrega "3001234567" (Some "0") 6
       (snd (confirmar_entrega "3001234567" None 5 cola_de_tres))
     = (Ok false, snd (confirmar_entrega "3001234567" None 5 cola_de_tres)).
Proof.
  split.
  - vm_compute. lia.
  - apply (confirmar_entrega_repetida cola_de_tres "3001234567"
             None (Some "0") 5 6).
    vm_compute. lia.
Defined.

(** With two or more jobs waiting, the second call delivers again. *)
Lemma confirmar_entrega_segunda_vez :
  forall s n c1 c2 t1 t2,
    (2 <= cuenta_por_confirmar n s)%nat ->
    fst (confirmar_entrega n c2 t2 (snd (confirmar_entrega n c1 t1 s)))
    = Ok true.
Proof.
  intros s n c1 c2 t1 t2 H.
  destruct (confirmar_entrega_una s n c1 t1) as (_ & Hc & _).
  destruct (confirmar_entrega_una (snd (confirmar_entrega n c1 t1 s)) n c2 t2)
    as (Hr & _ & _).
  rewrite Hr, Hc.
  destruct (cuenta_por_confirmar n s) as [|[|k]]; try lia. reflexivity.
Qed.

End Entrega.

(* ================================================================== *)
(** * The queue store: what happens to a delivered job *)

Section Entregado.

Lemma buscar_app :
  forall i q l f, buscar i q = Some f -> buscar i (q ++ l) = Some f.
Proof.
  intros i q l f. induction q as [|x r IH]; simpl; [discriminate|].
  destruct (id x =? i); auto.
Qed.

Lemma buscar_actualizar_fila_otro :
  forall i q g l,
    q <> i ->
    (forall f, id (g f) = id f) ->
    buscar i (actualizar_fila q g l) = buscar i l.
Proof.
  intros i q g l Hq Hg. induction l as [|x r IH]; simpl; [reflexivity|].
  destruct (id x =? q) eqn:Eq.
  - rewrite Hg. apply Z.eqb_eq in Eq.
    assert (E : (id x =? i) = false) by (apply Z.eqb_neq; lia).
    now rewrite E.
  - destruct (id x =? i); [reflexivity|assumption].
Qed.

Lemma buscar_actualizar_primera :
  forall i p g l,
    (forall f, id (g f) = id f) ->
    (forall f, estado (g f) = "entregado") ->
    option_map estado (buscar i l) = Some "entregado" ->
    option_map estado (buscar i (fst (actualizar_primera p g l)))
    = Some "entregado".
Proof.
  intros i p g l Hid He. induction l as [|x r IH]; simpl; [discriminate|].
  destruct (p x) eqn:Ep; simpl.
  - rewrite Hid. destruct (id x =? i); [|auto].
    intros _. simpl. now rewrite He.
  - destruct (actualizar_primera p g r) as [r' n]. simpl in *.
    destruct (id x =? i); auto.
Qed.

(** What [actualizar_intento] can do to the queue: nothing (unknown id,
    or an exception and its rollback), or the UPDATE of the rows with
    that id. *)
Lemma actualizar_intento_casos :
  forall q op e r err ms now s,
    snd (actualizar_intento q op e r err ms now s) = s
    \/ exists nuevo hist prox,
         sms_queue (snd (actualizar_intento q op e r err ms now s))
         = actualizar_fila q
             (fun f => fila_actualizada f nuevo op hist r err now prox)
             (sms_queue s).
Proof.
  intros q op e r err ms now s.
  unfold actualizar_intento, get_connection.
  destruct (buscar q (sms_queue s)) as [f|]; [|now left].
  rewrite fila_seleccionada.
  destruct (operador_history f) as [h|];
    cbn [row_get String.eqb Ascii.eqb Bool.eqb bind cargar_historial mas_uno];
    (destruct (proximo_estado _ e now) as [[nuevo prox]|ex];
     [right; do 3 eexists; reflexivity|now left]).
Qed.

Lemma proximo_estado_exito :
  forall row estado now,
    es_exito estado = true ->
    proximo_estado row estado now = Ok (estado, None).
Proof.
  intros row e now H. unfold proximo_estado, es_exito in *.
  destruct (e =? "enviado")%string eqn:E1.
  - apply String.eqb_eq in E1. now subst.
  - simpl in H. rewrite H. apply String.eqb_eq in H. now subst.
Qed.

Lemma actualizar_intento_forma :
  forall q op e r err ms now s,
    match buscar q (sms_queue s) with
    | None => actualizar_intento q op e r err ms now s = (Ok false, s)
    | Some f =>
        if es_exito e
        then
          let hist :=
            (historial_de f ++ [mk_entrada op (intentos f + 1) now e err])%list
          in
          let cola :=
            actualizar_fila q
              (fun x => fila_actualizada x e op hist r err now None)
              (sms_queue s) in
          actualizar_intento q op e r err ms now s
          = (Ok true,
             mk_store cola (secuencia s)
               (sms_log s ++ filas_log q op e now r err ms cola)
               (upsert_stats op e err now (operator_stats s))
               (webhooks s))
        else
          actualizar_intento q op e r err ms now s
          = (Lanza (IndexError "No item with that key"), s)
    end.
Proof.
  intros q op e r err ms now s.
  destruct (buscar q (sms_queue s)) as [f|] eqn:Hf.
  - destruct (es_exito e) eqn:E.
    + unfold actualizar_intento, get_connection. rewrite Hf.
      rewrite fila_seleccionada. unfold historial_de.
      destruct (operador_history f) as [h|];
        cbn [row_get String.eqb Ascii.eqb Bool.eqb bind cargar_historial
             mas_uno];
        rewrite (proximo_estado_exito _ e now E); reflexivity.
    + unfold es_exito in E. apply orb_false_iff in E. destruct E as [E1 E2].
      apply String.eqb_neq in E1. apply String.eqb_neq in E2.
      now apply (actualizar_intento_sin_exito s q f).
  - now apply actualizar_intento_desconocido.
Qed.

Lemma buscar_actualizar_fila :
  forall q g l f,
    (forall x, id (g x) = id x) ->
    buscar q l = Some f ->
    buscar q (actualizar_fila q g l) = Some (g f).
Proof.
  intros q g l f Hg. induction l as [|x r IH]; simpl; [discriminate|].
  destruct (id x =? q) eqn:E.
  - intros [= <-]. now rewrite Hg, E.
  - rewrite E. exact IH.
Qed.

(** A delivered job is never handed out by a claim. *)
Lemma entregado_no_se_reclama :
  forall s limit now f,
    estado f = "entregado" ->
    ~ In f (filas_de (obtener_pendientes limit now s)).
Proof.
  intros s limit now f He Hin.
  rewrite obtener_pendientes_lee in Hin. unfold filas_de in Hin. simpl in Hin.
  assert (Hf : In f (filter (elegible now) (sms_queue s))).
  { apply (Permutation_in _ (ordenar_perm _)).
    rewrite <- (limitar_descartar _ limit (ordenar _)).
    apply in_or_app. now left. }
  apply filter_In in Hf. destruct Hf as [_ Hf].
  apply elegible_spec in Hf. destruct Hf as [[H|[H _]] _];
    rewrite He in H; discriminate.
Qed.

(** C5, as stated, fails: a job confirmed as delivered is taken back to
    [enviado] when the outcome of an attempt on it is recorded
    afterwards. *)
Lemma entregado_vuelve_a_enviado :
  estado_de 1 cola_entregada = Some "entregado"
  /\ estado_de 1 (despues (OpIntento 1 "principal" "enviado" (Some "ok")
                                     None (Some 120) 6) cola_entregada)
     = Some "enviado".
Proof. split; reflexivity. Qed.

(** C5, amended.  A delivered job stays delivered under enrolment,
    claiming, delivery confirmation, and the recording of attempts of
    any other job, and no claim hands out a delivered job.  The
    recording of an attempt of the delivered job itself is not guarded:
    a success outcome recorded for it, [enviado] or [entregado],
    becomes its state. *)
Theorem entregado_se_conserva :
  forall (s : Store) (op : operacion) (i : Z),
    estado_de i s = Some "entregado" ->
    (ajena op i -> estado_de i (despues op s) = Some "entregado")
    /\ (forall limit now f,
           In f (filas_de (obtener_pendientes limit now s)) ->
           estado f <> "entregado")
    /\ (forall o e r err ms t,
           e = "enviado" \/ e = "entregado" ->
           estado_de i (despues (OpIntento i o e r err ms t) s) = Some e).
Proof.
  intros s op i He.
  split; [|split].
  2:{ intros limit now f Hin Hf.
      exact (entregado_no_se_reclama s limit now f Hf Hin). }
  2:{ intros o e r err ms t Hex. unfold estado_de in *. cbn [despues].
      destruct (buscar i (sms_queue s)) as [f|] eqn:Hf; [|discriminate].
      assert (Hb : es_exito e = true)
        by (destruct Hex as [-> | ->]; reflexivity).
      pose proof (actualizar_intento_forma i o e r err ms t s) as F.
      rewrite Hf, Hb in F. cbv zeta in F. rewrite F. cbn [snd sms_queue].
      now rewrite (buscar_actualizar_fila i
                     (fun x =>
                        fila_actualizada x e o
                          (historial_de f
                           ++ [mk_entrada o (intentos f + 1) t e err])%list
                          r err t None)
                     (sms_queue s) f (fun _ => eq_refl) Hf). }
  intros Ha. unfold estado_de in *.
  destruct op as [n m c md t|l t|q o e r err ms t|n c t]; simpl.
  - unfold agregar_a_cola, get_connection, insertar.
    destruct (existsb _ _); simpl; [assumption|].
    destruct (buscar i (sms_queue s)) as [f|] eqn:Ef; [|discriminate].
    now rewrite (buscar_app _ _ _ _ Ef).
  - assumption.
  - simpl in Ha.
    destruct (actualizar_intento_casos q o e r err ms t s)
      as [-> | (nuevo & hist & prox & ->)]; [assumption|].
    now rewrite buscar_actualizar_fila_otro.
  - unfold confirmar_entrega, get_connection.
    pose proof (buscar_actualizar_primera i (por_confirmar n)
                  (fun f => fila_entregada f t) (sms_queue s)
                  (fun _ => eq_refl) (fun _ => eq_refl) He) as H.
    destruct (actualizar_primera _ _ _) as [q' k]. simpl in H.
    destruct (k >? 0); simpl; assumption.
Qed.

Lemma entregado_se_conserva_witness :
  estado_de 1 cola_entregada = Some "entregado"
  /\ ajena (OpIntento 2 "principal" "enviado" (Some "ok") None None 6) 1
  /\ estado_de 1 (despues (OpIntento 2 "principal" "enviado" (Some "ok")
                                     None None 6) cola_entregada)
     = Some "entregado".
Proof.
  split; [reflexivity|]. split; [simpl; lia|].
  apply (proj1 (entregado_se_conserva cola_entregada
                  (OpIntento 2 "principal" "enviado" (Some "ok") None None 6)
                  1 eq_refl)).
  simpl; lia.
Defined.

End Entregado.

(* ================================================================== *)
(** * Confirmations that carry the international prefix *)

Section Prefijo.

Lemma desde_length :
  forall k s, String.length (desde k s) = (String.length s - k)%nat.
Proof.
  induction k as [|k IH]; intros s; simpl; [lia|].
  destruct s; simpl; [reflexivity|apply IH].
Qed.

Lemma todos_filtrar : forall p s, todos p (filtrar p s) = true.
Proof.
  intros p s. induction s as [|c r IH]; simpl; [reflexivity|].
  destruct (p c) eqn:E; simpl; [now rewrite E|assumption].
Qed.

Lemma todos_desde :
  forall p k s, todos p s = true -> todos p (desde k s) = true.
Proof.
  intros p. induction k as [|k IH]; intros s H; simpl; [assumption|].
  destruct s; simpl in *; [reflexivity|].
  apply andb_true_iff in H. now apply IH.
Qed.

(** Enrolment stores the number in local form: ten decimal digits. *)
Lemma validar_forma_local :
  forall crudo n,
    App.validar_numero_colombiano crudo = Some n ->
    String.length n = 10%nat /\ todos es_digito n = true.
Proof.
  intros crudo n. unfold App.validar_numero_colombiano, len.
  set (d := filtrar es_digito (strip crudo)).
  assert (Hd : todos es_digito d = true) by apply todos_filtrar.
  destruct ((Z.of_nat (String.length d) =? 10) && startswith d "3") eqn:E1.
  - intros [= <-]. apply andb_true_iff in E1. destruct E1 as [E1 _].
    apply Z.eqb_eq in E1. split; [lia|assumption].
  - destruct ((Z.of_nat (String.length d) =? 12) && startswith d "57") eqn:E2;
      [|discriminate].
    intros [= <-]. apply andb_true_iff in E2. destruct E2 as [E2 _].
    apply Z.eqb_eq in E2. split.
    + change (String.length (desde 2 d) = 10%nat).
      rewrite desde_length. lia.
    + change (todos es_digito (desde 2 d) = true).
      now apply todos_desde.
Qed.

(** The prefix is what the validation strips. *)
Lemma validar_quita_prefijo :
  App.validar_numero_colombiano "573001234567" = Some "3001234567"
  /\ App.validar_numero_colombiano "3001234567" = Some "3001234567".
Proof. split; reflexivity. Qed.

Lemma eqb_longitud :
  forall a b, String.length a <> String.length b -> (a =? b)%string = false.
Proof.
  intros a b H. apply String.eqb_neq. intros ->. now apply H.
Qed.

Lemma sin_coincidencia :
  forall s n,
    numeros_validados s ->
    String.length n = 10%nat ->
    filter (por_confirmar ("57" ++ n)) (sms_queue s) = [].
Proof.
  intros s n Hs Hn. unfold numeros_validados in Hs.
  induction (sms_queue s) as [|f r IH]; [reflexivity|].
  simpl. destruct (Hs f (or_introl eq_refl)) as [c Hc].
  apply validar_forma_local in Hc. destruct Hc as [Hl _].
  unfold por_confirmar at 1.
  rewrite eqb_longitud by (simpl; lia). simpl.
  apply IH. intros g Hg. apply Hs. now right.
Qed.

Lemma digito_no_espacio :
  forall c, es_digito c = true -> es_espacio c = false.
Proof.
  intros c. unfold es_digito, es_espacio.
  set (k := Z.of_nat (nat_of_ascii c)).
  rewrite andb_true_iff, !Z.leb_le. intros [H1 H2].
  repeat match goal with
         | |- context [?a <=? ?b] =>
             let E := fresh in
             destruct (a <=? b) eqn:E;
             [apply Z.leb_le in E|apply Z.leb_gt in E]
         | |- context [?a =? ?b] =>
             let E := fresh in
             destruct (a =? b) eqn:E;
             [apply Z.eqb_eq in E|apply Z.eqb_neq in E]
         end; simpl; try reflexivity; lia.
Qed.

Lemma invertir_en_todos :
  forall p s acc,
    todos p s = true -> todos p acc = true ->
    todos p (invertir_en s acc) = true.
Proof.
  intros p. induction s as [|c r IH]; intros acc Hs Ha; simpl in *;
    [assumption|].
  apply andb_true_iff in Hs. destruct Hs as [Hc Hr].
  apply IH; [assumption|]. simpl. now rewrite Hc.
Qed.

Lemma append_vacio : forall s : string, s ++ "" = s.
Proof.
  induction s as [|c r IH]; simpl; [reflexivity|now rewrite IH].
Qed.

Lemma invertir_en_doble :
  forall s acc acc',
    invertir_en (invertir_en s acc) acc' = invertir_en acc (s ++ acc').
Proof.
  induction s as [|c r IH]; intros acc acc'; simpl; [reflexivity|].
  now rewrite IH.
Qed.

Lemma lstrip_sin_espacios :
  forall s, todos (fun c => negb (es_espacio c)) s = true -> lstrip s = s.
Proof.
  intros [|c r]; simpl; [reflexivity|].
  intros H. apply andb_true_iff in H. destruct H as [H _].
  apply negb_true_iff in H. now rewrite H.
Qed.

Lemma strip_sin_espacios :
  forall s, todos (fun c => negb (es_espacio c)) s = true -> strip s = s.
Proof.
  intros s H. unfold strip, invertir.
  rewrite (lstrip_sin_espacios s H).
  rewrite lstrip_sin_espacios by (now apply invertir_en_todos).
  rewrite invertir_en_doble. simpl. apply append_vacio.
Qed.

Lemma todos_impl :
  forall (p q : ascii -> bool) s,
    (forall c, p c = true -> q c = true) ->
    todos p s = true -> todos q s = true.
Proof.
  intros p q s Hpq. induction s as [|c r IH]; simpl; [reflexivity|].
  rewrite !andb_true_iff. intros [H1 H2]. split; auto.
Qed.

(** C10.  Stored numbers are in ten-digit local form, and the
    confirmation compares its number with the stored one as it comes;
    so a confirmation that carries the 57-prefixed form of an enrolled
    number matches no job: it returns false and changes nothing, at the
    store and at the webhook that feeds it. *)
Theorem confirmacion_con_prefijo_no_coincide :
  forall (s : Store) (crudo n : string) (codigo : option string) (now : Q),
    numeros_validados s ->
    App.validar_numero_colombiano crudo = Some n ->
    confirmar_entrega ("57" ++ n) codigo now s = (Ok false, s)
    /\ App.webhook_entregado ("57" ++ n) codigo now s
       = (App.Confirmacion false, s).
Proof.
  intros s crudo n codigo now Hs Hn.
  apply validar_forma_local in Hn. destruct Hn as [Hl Hd].
  assert (Hc : confirmar_entrega ("57" ++ n) codigo now s = (Ok false, s)).
  { unfold confirmar_entrega, get_connection.
    rewrite (actualizar_primera_ninguna _ _ _ (sin_coincidencia s n Hs Hl)).
    simpl. now rewrite con_cola_misma. }
  split; [exact Hc|].
  unfold App.webhook_entregado.
  rewrite strip_sin_espacios.
  - simpl ("57" ++ n =? "")%string. cbv iota. now rewrite Hc.
  - simpl. apply (todos_impl es_digito); [|assumption].
    intros c H. now rewrite (digito_no_espacio c H).
Qed.

Lemma cola_de_tres_validada : numeros_validados cola_de_tres.
Proof.
  intros f [<-|[<-|[<-|[]]]]; simpl.
  - now exists "573001234567".
  - now exists "3109876543".
  - now exists "+57 320 112 2334".
Qed.

Lemma confirmacion_con_prefijo_no_coincide_witness :
  numeros_validados cola_de_tres
  /\ App.validar_numero_colombiano "300-123-4567" = Some "3001234567"
  /\ confirmar_entrega "573001234567" None 9 cola_de_tres
     = (Ok false, cola_de_tres)
  /\ App.webhook_entregado "573001234567" None 9 cola_de_tres
     = (App.Confirmacion false, cola_de_tres).
Proof.
  split; [exact cola_de_tres_validada|]. split; [reflexivity|].
  apply (confirmacion_con_prefijo_no_coincide cola_de_tres "300-123-4567"
           "3001234567" None 9);
    [exact cola_de_tres_validada|reflexivity].
Defined.

(** In its stored form the same number does match: a confirmation
    carrying the number of a job not yet delivered returns true. *)
Lemma confirmacion_en_forma_local_coincide :
  forall s f codigo now,
    In f (sms_queue s) ->
    estado f <> "entregado" ->
    fst (confirmar_entrega (numero f) codigo now s) = Ok true.
Proof.
  intros s f codigo now Hin He.
  destruct (confirmar_entrega_una s (numero f) codigo now) as (Hr & _ & _).
  rewrite Hr. unfold cuenta_por_confirmar.
  assert (Hf : In f (filter (por_confirmar (numero f)) (sms_queue s))).
  { apply filter_In. split; [assumption|]. unfold por_confirmar.
    rewrite String.eqb_refl. apply String.eqb_neq in He. now rewrite He. }
  destruct (filter _ _); [destruct Hf|reflexivity].
Qed.

(** The enrolment loop keeps the store in that form. *)
Lemma encolar_fila_validada :
  forall crudo mensaje c md now s,
    numeros_validados s ->
    numeros_validados (snd (App.encolar_fila crudo mensaje c md now s)).
Proof.
  intros crudo m c md now s Hs. unfold App.encolar_fila.
  destruct (App.validar_numero_colombiano crudo) as [[|a r]|] eqn:E;
    try assumption.
  unfold agregar_a_cola, get_connection, insertar.
  destruct (existsb _ _); simpl; [assumption|].
  intros f Hf. apply in_app_or in Hf. destruct Hf as [Hf|[<-|[]]].
  - now apply Hs.
  - now exists crudo.
Qed.

End Prefijo.

(* ================================================================== *)
(** * The adaptive rate limiter *)

Section Limitador.

Import RL.

Lemma Qlt_bool_spec : forall a b, Qlt_bool a b = true <-> (a < b)%Q.
Proof.
  intros a b. unfold Qlt_bool. rewrite negb_true_iff. split; intros H.
  - apply Qnot_le_lt. intros L. apply Qle_bool_iff in L. congruence.
  - destruct (Qle_bool b a) eqn:E; [|reflexivity].
    apply Qle_bool_iff in E. exfalso. now apply (Qlt_not_le _ _ H).
Qed.

Lemma Qlt_bool_falso : forall a b, Qlt_bool a b = false <-> (b <= a)%Q.
Proof.
  intros a b. unfold Qlt_bool. rewrite negb_false_iff. apply Qle_bool_iff.
Qed.

Lemma int_08_piso : forall n, 0 <= n -> int_08 n = 4 * n / 5.
Proof.
  intros n H. unfold int_08. apply Z.quot_div_nonneg; lia.
Qed.

(** The limiter after five sends is the one a fresh limiter reaches. *)
Lemma limitador_nuevo_ok : nuevo 100 true 0 = Ok limitador_nuevo.
Proof. reflexivity. Qed.

(** C8, as stated, fails: with one error in five sends the error rate
    is exactly 20%, and the capacity stays at 100 instead of dropping to
    max(10, floor(100 * 0.8)) = 80. *)
Lemma error_al_veinte_por_ciento :
  let rl' := registrar_error 1 1 limitador_cinco in
  List.length (timestamps limitador_cinco) = 5%nat
  /\ (tasa_error_actual rl' == 20 # 100)%Q
  /\ max_por_minuto limitador_cinco = 100
  /\ max_por_minuto rl' = 100
  /\ Z.max 10 (4 * 100 / 5) = 80.
Proof. cbv zeta. repeat split. Qed.

Lemma deque_append_ultimos :
  forall (A : Type) (k : nat) (d : list A) (x : A),
    deque_append (Z.of_nat k) d x = ultimos k (d ++ [x]).
Proof.
  intros A k d x. unfold deque_append, ultimos.
  rewrite Nat2Z.id, firstn_rev. symmetry. apply rev_involutive.
Qed.

Lemma recientes_en_el_ultimo_minuto :
  forall ahora l, recientes ahora l = en_el_ultimo_minuto ahora l.
Proof.
  intros ahora l. unfold recientes.
  induction l as [|x r IH]; [reflexivity|].
  cbn [filter en_el_ultimo_minuto]. rewrite <- IH.
  destruct (Qlt_le_dec (ahora - x) 60) as [L|L].
  - rewrite (proj2 (Qlt_bool_spec _ _) L). cbn [List.length]. lia.
  - rewrite (proj2 (Qlt_bool_falso _ _) L). lia.
Qed.

(** C8, amended.  For an adaptive limiter that has recorded at least
    one send: a recorded error is added to the errors on record, of
    which the last ten are kept; the error rate becomes the number of
    those that lie in the last 60 seconds over min(sends on record, 100)
    and, when that rate is strictly above 20%, the capacity is lowered
    to max(10, floor(capacity * 0.8)), and left alone otherwise; a
    recorded success, when the rate is below 5%, raises the capacity by
    5 up to the ceiling of 200, and leaves it alone otherwise. *)
Theorem ajuste_de_velocidad :
  forall (rl : RateLimiter) (t ahora : Q),
    adaptativo rl = true ->
    timestamps rl <> [] ->
    0 <= max_por_minuto rl ->
    let rl' := registrar_error t ahora rl in
    let cap := max_por_minuto rl in
    let errores := ultimos 10 (errores_recientes rl ++ [t]) in
    let tasa :=
      (inject_Z (en_el_ultimo_minuto ahora errores)
       / inject_Z (Z.min (Z.of_nat (List.length (timestamps rl))) 100))%Q in
    errores_recientes rl' = errores
    /\ tasa_error_actual rl' = tasa
    /\ ((2 # 10 < tasa)%Q ->
        max_por_minuto rl' = Z.max 10 (4 * cap / 5))
    /\ ((tasa <= 2 # 10)%Q -> max_por_minuto rl' = cap)
    /\ ((tasa_error_actual rl < 5 # 100)%Q ->
        max_por_minuto (registrar_exito rl) = Z.max cap (Z.min 200 (cap + 5)))
    /\ ((5 # 100 <= tasa_error_actual rl)%Q ->
        max_por_minuto (registrar_exito rl) = cap).
Proof.
  intros rl t ahora Ha Ht Hc. cbv zeta.
  assert (Hpos : (Z.of_nat (List.length (timestamps rl)) >? 0) = true).
  { apply Z.gtb_lt. destruct (timestamps rl); [congruence|].
    simpl List.length. lia. }
  unfold registrar_error. rewrite Hpos, Ha. cbn [andb].
  cbn [tasa_error_actual errores_recientes max_por_minuto].
  rewrite recientes_en_el_ultimo_minuto.
  change 10 with (Z.of_nat 10). rewrite deque_append_ultimos.
  change (Z.of_nat 10) with 10.
  split; [reflexivity|]. split; [reflexivity|].
  split; [|split; [|split]].
  - intros H. apply Qlt_bool_spec in H. rewrite H.
    now rewrite int_08_piso.
  - intros H. apply Qlt_bool_falso in H. now rewrite H.
  - intros H. unfold registrar_exito.
    apply Qlt_bool_spec in H. rewrite H, Ha. cbn [andb].
    destruct (Z.min 200 (max_por_minuto rl + 5) >? max_por_minuto rl) eqn:E;
      [apply Z.gtb_lt in E|rewrite Z.gtb_ltb in E; apply Z.ltb_ge in E];
      simpl; lia.
  - intros H. unfold registrar_exito.
    apply Qlt_bool_falso in H. now rewrite H.
Qed.

Lemma ajuste_de_velocidad_witness :
  adaptativo limitador_cinco = true
  /\ timestamps limitador_cinco <> []
  /\ 0 <= max_por_minuto limitador_cinco
  /\ ((tasa_error_actual limitador_cinco < 5 # 100)%Q ->
      max_por_minuto (registrar_exito limitador_cinco) = 105).
Proof.
  split; [reflexivity|]. split; [discriminate|]. split; [discriminate|].
  destruct (ajuste_de_velocidad limitador_cinco 1 1 eq_refl
              ltac:(discriminate) ltac:(discriminate))
    as (_ & _ & _ & _ & H & _).
  exact H.
Defined.

(** Without adaptive mode neither call changes the capacity. *)
Lemma sin_adaptacion :
  forall rl t ahora,
    adaptativo rl = false ->
    max_por_minuto (registrar_error t ahora rl) = max_por_minuto rl
    /\ max_por_minuto (registrar_exito rl) = max_por_minuto rl.
Proof.
  intros rl t ahora Ha. unfold registrar_error, registrar_exito.
  rewrite Ha, andb_false_r. split; [|reflexivity].
  now destruct (_ >? 0).
Qed.

(** The capacity an error leaves is never below 10 once it is lowered,
    and a success never lowers it. *)
Lemma capacidad_acotada :
  forall rl,
    max_por_minuto rl <= max_por_minuto (registrar_exito rl)
    /\ max_por_minuto (registrar_exito rl)
       <= Z.max 200 (max_por_minuto rl).
Proof.
  intros rl. unfold registrar_exito.
  destruct (Qlt_bool _ _ && adaptativo rl); [|simpl; lia].
  destruct (Z.min 200 (max_por_minuto rl + 5) >? max_por_minuto rl) eqn:E;
    [apply Z.gtb_lt in E|rewrite Z.gtb_ltb in E; apply Z.ltb_ge in E];
    simpl; lia.
Qed.

End Limitador.

(* ================================================================== *)
(** * The send routine on an empty message *)

Section MensajeVacio.

Variable obtener_operador : string -> option Sender.Operador.
Variable firma_operador : Sender.Operador -> Q -> string * string.
Variable traffilink_service : TraffiLink.TraffiLinkService.
Variable red_responde : Red.Peticion -> resultado Red.Respuesta * Q.

(** Recording an [error] outcome either returns or raises, and in both
    cases every call with the same job and clock raises or returns
    alike, whatever the error text. *)
Lemma registrar_error_casos :
  forall q op now s,
    (forall err,
        actualizar_intento q op "error" None err None now s
        = (Lanza (IndexError "No item with that key"), s))
    \/ (forall err,
           actualizar_intento q op "error" None err None now s
           = (Ok false, s)).
Proof.
  intros q op now s.
  destruct (buscar q (sms_queue s)) as [f|] eqn:E.
  - left. intros err. now apply (actualizar_intento_sin_exito s q f).
  - right. intros err. now apply actualizar_intento_desconocido.
Qed.

Lemma longitud_cero : forall s : string, (len s =? 0) = (s =? "")%string.
Proof. now intros [|c r]. Qed.

(** C7, as stated, fails: a job whose text resolves to the empty string
    is rejected without a network call, but no failed attempt is on
    record afterwards -- the send ends with the exception of the
    recording call and the database is as it was -- and the job is not
    taken out of the retry loop; later claims return it again. *)
Lemma mensaje_vacio_se_reintenta :
  let w := snd (enviar_de_prueba mundo_de_prueba) in
  Sender.preparar_mensaje "{nombre}" "3001234567" (Some [("nombre", "")]) None
  = ""
  /\ Sender.red w = []
  /\ ids (filas_de (obtener_pendientes 50 3 (Sender.db w))) = [1]
  /\ ids (filas_de (obtener_pendientes 50 86400 (Sender.db w))) = [1]
  /\ fst (enviar_de_prueba mundo_de_prueba)
     = Lanza (IndexError "No item with that key")
  /\ Sender.db w = Sender.db mundo_de_prueba.
Proof. cbv zeta. vm_compute. repeat split. Qed.

(** C7, amended.  When the resolved text is empty and the operator is
    known, the send routine issues no network request, leaves the rate
    limiters and the clock alone, and hands the rejection to
    [actualizar_intento] with the outcome [error], the outcome of any
    failed attempt: the database is left as that call leaves it, and
    the send answers with the failure "Mensaje vacío" when that call
    returns and ends with that call's exception when it raises. *)
Theorem mensaje_vacio_sin_envio :
  forall (queue_id : Z) (numero mensaje operador_nombre : string)
         (row_data : option (list (string * string)))
         (link_dinamico : option string) (w : Sender.Mundo),
    Sender.preparar_mensaje mensaje numero row_data link_dinamico = "" ->
    operador_nombre = "traffilink"
    \/ obtener_operador operador_nombre <> None ->
    let envio :=
      Sender.enviar_sms_ahora obtener_operador firma_operador
        traffilink_service red_responde
        queue_id numero mensaje operador_nombre row_data link_dinamico w in
    let registro :=
      actualizar_intento queue_id operador_nombre "error" None
        (Some "Mensaje vacío después de procesar variables") None
        (Sender.reloj w) (Sender.db w) in
    Sender.red (snd envio) = Sender.red w
    /\ Sender.rate_limiters (snd envio) = Sender.rate_limiters w
    /\ Sender.reloj (snd envio) = Sender.reloj w
    /\ Sender.db (snd envio) = snd registro
    /\ fst envio
       = match fst registro with
         | Ok _ => Ok (Sender.envio_fallido numero operador_nombre
                                            "Mensaje vacío")
         | Lanza ex => Lanza ex
         end.
Proof.
  intros q numero mensaje op rd link w Hv Hop. cbv zeta.
  unfold Sender.enviar_sms_ahora.
  destruct (op =? "traffilink")%string eqn:Et.
  - apply String.eqb_eq in Et. subst op.
    unfold Sender.enviar_por_traffilink, Sender.intentar, Sender.ligar,
      Sender.registrar, Sender.en_db, Sender.ret.
    rewrite Hv. cbn [String.eqb].
    destruct (registrar_error_casos q "traffilink"
                (Sender.reloj w) (Sender.db w)) as [H|H];
      rewrite !H;
      cbn [fst snd Sender.db Sender.reloj Sender.rate_limiters Sender.red];
      rewrite ?H;
      cbn [fst snd Sender.db Sender.reloj Sender.rate_limiters Sender.red];
      repeat split.
  - destruct Hop as [->|Hop]; [discriminate|].
    destruct (obtener_operador op) as [o|]; [|congruence].
    rewrite longitud_cero, Hv. cbn [String.eqb].
    unfold Sender.ligar, Sender.registrar, Sender.en_db, Sender.ret.
    destruct (registrar_error_casos q op
                (Sender.reloj w) (Sender.db w)) as [H|H]; rewrite !H;
      cbn [fst snd Sender.db Sender.reloj Sender.rate_limiters Sender.red];
      repeat split.
Qed.

End MensajeVacio.

Lemma mensaje_vacio_sin_envio_witness :
  Sender.preparar_mensaje "{nombre}" "3001234567" (Some [("nombre", "")]) None
  = ""
  /\ ("principal" = "traffilink" \/ router_de_prueba "principal" <> None)
  /\ Sender.red (snd (enviar_de_prueba mundo_de_prueba))
     = Sender.red mundo_de_prueba
  /\ Sender.rate_limiters (snd (enviar_de_prueba mundo_de_prueba))
     = Sender.rate_limiters mundo_de_prueba.
Proof.
  assert (Hv : Sender.preparar_mensaje "{nombre}" "3001234567"
                 (Some [("nombre", "")]) None = "")
    by (vm_compute; reflexivity).
  assert (Hop : "principal" = "traffilink"
                \/ router_de_prueba "principal" <> None)
    by (right; vm_compute; discriminate).
  split; [exact Hv|]. split; [exact Hop|].
  pose proof (mensaje_vacio_sin_envio router_de_prueba firma_de_prueba
                TraffiLink.servicio_por_defecto red_caida
                1 "3001234567" "{nombre}" "principal"
                (Some [("nombre", "")]) None mundo_de_prueba Hv Hop) as H.
  cbv zeta in H. destruct H as (H1 & H2 & _).
  unfold enviar_de_prueba. split; [exact H1|exact H2].
Defined.

(* ================================================================== *)
(** * Number validation *)

Section Validacion.

Lemma espacio_no_digito :
  forall c, es_espacio c = true -> es_digito c = false.
Proof.
  intros c H. destruct (es_digito c) eqn:E; [|reflexivity].
  apply digito_no_espacio in E. congruence.
Qed.

Lemma filtrar_lstrip :
  forall s, filtrar es_digito (lstrip s) = filtrar es_digito s.
Proof.
  induction s as [|c r IH]; simpl; [reflexivity|].
  destruct (es_espacio c) eqn:E; [|reflexivity].
  now rewrite (espacio_no_digito c E).
Qed.

Lemma filtrar_invertir_en :
  forall p s acc,
    filtrar p (invertir_en s acc)
    = invertir_en (filtrar p s) (filtrar p acc).
Proof.
  intros p. induction s as [|c r IH]; intros acc; simpl; [reflexivity|].
  rewrite IH. simpl. now destruct (p c).
Qed.

Lemma invertir_invertir : forall s, invertir (invertir s) = s.
Proof.
  intros s. unfold invertir. rewrite invertir_en_doble. simpl.
  apply append_vacio.
Qed.

Lemma filtrar_strip :
  forall s, filtrar es_digito (strip s) = filtrar es_digito s.
Proof.
  intros s. unfold strip, invertir.
  rewrite filtrar_invertir_en, filtrar_lstrip, filtrar_invertir_en.
  simpl. fold (invertir (filtrar es_digito (lstrip s))).
  fold (invertir (invertir (filtrar es_digito (lstrip s)))).
  now rewrite invertir_invertir, filtrar_lstrip.
Qed.

Lemma filtrar_todos : forall p s, todos p s = true -> filtrar p s = s.
Proof.
  intros p. induction s as [|c r IH]; simpl; [reflexivity|].
  intros H. apply andb_true_iff in H. destruct H as [Hc Hr].
  now rewrite Hc, IH.
Qed.

(** The digits left by the two cleaning steps. *)
Lemma limpieza_digitos :
  forall s,
    filtrar es_digito (strip (filtrar es_digito s)) = filtrar es_digito s.
Proof.
  intros s. rewrite filtrar_strip. apply filtrar_todos, todos_filtrar.
Qed.

Lemma prefijo_desde :
  forall p s,
    String.prefix p s = true -> p ++ desde (String.length p) s = s.
Proof.
  induction p as [|a p IH]; intros s H; [reflexivity|].
  destruct s as [|b s]; simpl in H; [discriminate|].
  destruct (Ascii.ascii_dec a b) as [->|N]; [|discriminate].
  simpl. now rewrite IH.
Qed.

(** X2.  Validation sees only the digits of its input: spaces, signs
    and any other separator make no difference to the answer. *)
Theorem validar_solo_digitos :
  forall crudo,
    App.validar_numero_colombiano crudo
    = App.validar_numero_colombiano (filtrar es_digito crudo).
Proof.
  intros crudo. unfold App.validar_numero_colombiano.
  now rewrite limpieza_digitos, filtrar_strip.
Qed.

(** X3.  The validator of the TraffiLink service and the one of the
    application accept the same inputs, and their answers differ by the
    57 prefix only. *)
Theorem validadores_coinciden :
  forall crudo,
    TraffiLink.validar_numero_colombiano crudo
    = option_map (fun n => "57" ++ n) (App.validar_numero_colombiano crudo).
Proof.
  intros crudo.
  unfold TraffiLink.validar_numero_colombiano, App.validar_numero_colombiano.
  set (d := filtrar es_digito (strip crudo)).
  destruct ((len d =? 10) && startswith d "3"); [reflexivity|].
  destruct ((len d =? 12) && startswith d "57") eqn:E; [|reflexivity].
  apply andb_true_iff in E. destruct E as [_ E].
  cbn [option_map]. f_equal. symmetry.
  exact (prefijo_desde "57" d E).
Qed.

(** X4.  An accepted number is stored as ten decimal digits, whichever
    form it came in; but only the ten-digit input form is checked for the
    leading 3, so an accepted number is accepted again as it stands
    exactly when it starts with 3. *)
Theorem validar_forma_y_reingreso :
  forall crudo n,
    App.validar_numero_colombiano crudo = Some n ->
    String.length n = 10%nat
    /\ todos es_digito n = true
    /\ App.validar_numero_colombiano n
       = if startswith n "3" then Some n else None.
Proof.
  intros crudo n H. destruct (validar_forma_local crudo n H) as [Hl Hd].
  split; [assumption|]. split; [assumption|].
  unfold App.validar_numero_colombiano.
  rewrite filtrar_strip, (filtrar_todos _ _ Hd).
  unfold len. rewrite Hl. simpl (Z.of_nat 10 =? 10).
  cbn [andb]. destruct (startswith n "3"); reflexivity.
Qed.

Lemma validar_forma_y_reingreso_witness :
  App.validar_numero_colombiano "+57 (571) 234-5678" = Some "5712345678"
  /\ String.length "5712345678" = 10%nat
  /\ App.validar_numero_colombiano "5712345678" = None.
Proof.
  assert (H : App.validar_numero_colombiano "+57 (571) 234-5678"
              = Some "5712345678") by (vm_compute; reflexivity).
  split; [exact H|].
  destruct (validar_forma_y_reingreso _ _ H) as (H1 & _ & H3).
  split; [exact H1|exact H3].
Defined.

End Validacion.

(* ================================================================== *)
(** * The TraffiLink transport and its delivery reports *)

Section Reportes.

Import TraffiLink.

Lemma startswith_prefijo : forall p s, startswith (p ++ s) p = true.
Proof.
  intros p s. unfold startswith. induction p as [|a p IH]; simpl.
  - now destruct s.
  - destruct (Ascii.ascii_dec a a); [assumption|congruence].
Qed.

(** X5.  [enviar_sms] puts at most one request on the network: none
    when the number or the text is empty (the result is then a
    failure), and otherwise a single one whose text is the message
    as given, whose recipient carries the 57 prefix -- added when the
    number does not start with it -- and whose signature is that of the
    parameter string built from the same fields. *)
Theorem enviar_sms_peticiones :
  forall (red_responde : Red.Peticion -> resultado Red.Respuesta * Q)
         (self : TraffiLinkService)
         (numero_destino contenido_mensaje queue_id : string),
    let '(res, ps, dt) :=
      enviar_sms red_responde self numero_destino contenido_mensaje queue_id
    in
    match ps with
    | [] =>
        (numero_destino = "" \/ contenido_mensaje = "")
        /\ exito res = false /\ dt = 0%Q
    | [Red.PostTraffiLink url cuenta sendid mobile content sign tmo] =>
        numero_destino <> "" /\ contenido_mensaje <> ""
        /\ content = contenido_mensaje /\ sendid = queue_id
        /\ startswith mobile "57" = true
        /\ (mobile = numero_destino \/ mobile = "57" ++ numero_destino)
        /\ sign = generar_sign self
                    ("account=" ++ account self ++ "&sendid=" ++ queue_id
                     ++ "&mobile=" ++ mobile ++ "&content=" ++ content)
    | _ => False
    end.
Proof.
  intros red_responde self n c q. unfold enviar_sms.
  destruct (n =? "")%string eqn:En.
  { apply String.eqb_eq in En. repeat split. now left. }
  destruct (c =? "")%string eqn:Ec.
  { apply String.eqb_eq in Ec. repeat split. now right. }
  apply String.eqb_neq in En. apply String.eqb_neq in Ec.
  destruct (red_responde _) as [r dt].
  destruct (startswith n "57") eqn:Es; cbn [negb];
    repeat split; auto.
  apply startswith_prefijo.
Qed.

Lemma estado_map_vocabulario :
  forall codigo,
    In (estado_map codigo)
       ["delivered"; "failed"; "pending"; "invalid"; "unknown"].
Proof.
  intros codigo. unfold estado_map.
  repeat match goal with
         | |- context [if ?b then _ else _] => destruct b
         end; simpl; auto 6.
Qed.

(** X6.  A delivery report is accepted exactly when it carries a
    non-empty id and a delivery status; an accepted report is always
    given one of the five states of the internal vocabulary, read off
    the printed form of its status. *)
Theorem procesar_webhook_reporte_vocabulario :
  forall (datos : list (string * valor_json)),
    let r := procesar_webhook_reporte datos in
    (rw_exito r = true
     <-> verdadero (obtener datos "id") = true
         /\ obtener datos "deliverystatus" <> JNulo)
    /\ match rw_estado r with
       | Some e =>
           rw_exito r = true
           /\ In e ["delivered"; "failed"; "pending"; "invalid"; "unknown"]
           /\ e = estado_map (str_json (obtener datos "deliverystatus"))
       | None => rw_exito r = false
       end.
Proof.
  intros datos. cbv zeta. split.
  - unfold procesar_webhook_reporte.
    destruct datos as [|x l].
    { simpl. split; [discriminate|intros [H _]; discriminate]. }
    destruct (verdadero (obtener (x :: l) "id")) eqn:Ev;
      destruct (obtener (x :: l) "deliverystatus") eqn:Ed;
      cbn [negb orb rw_exito];
      (split;
       [intros H;
        first [discriminate H|split; [reflexivity|discriminate]]
       |intros [H1 H2];
        first [reflexivity|discriminate H1
              |exfalso; apply H2; reflexivity]]).
  - unfold procesar_webhook_reporte.
    destruct datos as [|x l]; [reflexivity|].
    destruct (negb (verdadero (obtener (x :: l) "id"))
              || match obtener (x :: l) "deliverystatus" with
                 | JNulo => true
                 | _ => false
                 end); cbn [rw_estado rw_exito]; [reflexivity|].
    split; [reflexivity|]. split; [apply estado_map_vocabulario|reflexivity].
Qed.

End Reportes.

(* ================================================================== *)
(** * The queue store as a whole *)

Section Almacen.

Lemma ids_actualizar_fila :
  forall (proy : Fila -> Z * string * string * option string * Q * Z) q g l,
    (forall f, proy (g f) = proy f) ->
    map proy (actualizar_fila q g l) = map proy l.
Proof.
  intros proy q g l Hg. unfold actualizar_fila. rewrite map_map.
  apply map_ext. intros f. destruct (id f =? q); [apply Hg|reflexivity].
Qed.

Lemma identidad_actualizar_primera :
  forall p g l,
    (forall f, identidad (g f) = identidad f) ->
    map identidad (fst (actualizar_primera p g l)) = map identidad l.
Proof.
  intros p g l Hg. induction l as [|f r IH]; simpl; [reflexivity|].
  destruct (p f); simpl; [now rewrite Hg|].
  destruct (actualizar_primera p g r) as [r' n]. simpl in *.
  now rewrite IH.
Qed.

Lemma proximo_estado_valores :
  forall f estado now nuevo prox,
    proximo_estado (seleccionar ["operador_history"; "intentos"] f)
                   estado now = Ok (nuevo, prox) ->
    es_exito estado = true /\ nuevo = estado /\ prox = None.
Proof.
  intros f e now nuevo prox H.
  destruct (es_exito e) eqn:E.
  - rewrite (proximo_estado_exito _ e now E) in H.
    injection H as <- <-. auto.
  - unfold es_exito in E. apply orb_false_iff in E. destruct E as [E1 E2].
    apply String.eqb_neq in E1. apply String.eqb_neq in E2.
    erewrite proximo_estado_falla in H by (try eassumption; reflexivity).
    discriminate.
Qed.

(** The store left by [actualizar_intento]: the one it found, or the
    one its three statements build. *)
Lemma identidad_actualizada :
  forall f e op hist r err now prox,
    identidad (fila_actualizada f e op hist r err now prox) = identidad f.
Proof. reflexivity. Qed.

Lemma identidad_entregada :
  forall now f, identidad (fila_entregada f now) = identidad f.
Proof. reflexivity. Qed.

(** How each operation leaves the enrolment data of the queue. *)
Lemma identidades_despues :
  forall s op,
    exists nuevas,
      map identidad (sms_queue (despues op s))
      = (map identidad (sms_queue s) ++ nuevas)%list
      /\ (List.length nuevas <= 1)%nat
      /\ secuencia (despues op s)
         = secuencia s + Z.of_nat (List.length nuevas)
      /\ Forall (fun i => fst (fst (fst (fst (fst i)))) = secuencia s + 1)
                nuevas.
Proof.
  intros s op. destruct op as [n m c md t|l t|q o e r err ms t|n c t]; simpl.
  - unfold agregar_a_cola, get_connection, insertar.
    destruct (existsb _ _); simpl.
    + exists []. rewrite app_nil_r. repeat split; simpl; try lia; auto.
    + eexists [_]. rewrite map_app. repeat split; simpl; try lia; auto.
  - exists []. rewrite app_nil_r. repeat split; simpl; try lia; auto.
  - pose proof (actualizar_intento_forma q o e r err ms t s) as H.
    destruct (buscar q (sms_queue s)) as [f|];
      [destruct (es_exito e); cbv zeta in H|]; rewrite H; simpl;
      exists []; rewrite app_nil_r; repeat split; simpl; try lia; auto.
    apply ids_actualizar_fila. intros x. apply identidad_actualizada.
  - unfold confirmar_entrega, get_connection.
    pose proof (identidad_actualizar_primera (por_confirmar n)
                  (fun f => fila_entregada f t) (sms_queue s)
                  (identidad_entregada t)) as H.
    destruct (actualizar_primera _ _ _) as [q' k]. simpl in H.
    exists []. rewrite app_nil_r.
    destruct (k >? 0); repeat split; simpl; try lia; auto.
Qed.

(** X7.  No operation of the queue store deletes a job, reorders the
    queue or touches what a job was enrolled with (id, number, message,
    campaign, creation time, attempt limit): the queue after is the
    queue before, followed by at most one new job. *)
Theorem trabajos_permanentes :
  forall (s : Store) (op : operacion),
    exists nuevas,
      map identidad (sms_queue (despues op s))
      = (map identidad (sms_queue s) ++ nuevas)%list
      /\ (List.length nuevas <= 1)%nat.
Proof.
  intros s op. destruct (identidades_despues s op) as (nuevas & H1 & H2 & _).
  exists nuevas. split; assumption.
Qed.

Lemma ids_identidad :
  forall l, ids l = map (fun i => fst (fst (fst (fst (fst i)))))
                        (map identidad l).
Proof.
  intros l. unfold ids. rewrite map_map. reflexivity.
Qed.

(** X8.  Unique ids are an invariant of the store: if the ids in the
    queue are pairwise distinct, positive and no larger than the
    (non-negative) AUTOINCREMENT counter, they are so again after any
    operation. *)
Theorem almacen_bien_formado :
  forall (s : Store) (op : operacion),
    bien_formada s -> bien_formada (despues op s).
Proof.
  intros s op (Hsec & Hnd & Hall).
  destruct (identidades_despues s op) as (nuevas & H1 & H2 & H3 & H4).
  unfold bien_formada.
  assert (Hids : ids (sms_queue (despues op s))
                 = (ids (sms_queue s)
                    ++ map (fun i => fst (fst (fst (fst (fst i))))) nuevas)%list).
  { rewrite !ids_identidad, H1. apply map_app. }
  assert (Hviejas : forall x, In x (ids (sms_queue s)) ->
                              0 < x <= secuencia s).
  { intros x Hx. unfold ids in Hx. apply in_map_iff in Hx.
    destruct Hx as (f & <- & Hf).
    exact (proj1 (Forall_forall _ _) Hall f Hf). }
  assert (Hnuevas : forall x,
             In x (map (fun i => fst (fst (fst (fst (fst i))))) nuevas) ->
             x = secuencia s + 1 /\ secuencia (despues op s) = secuencia s + 1).
  { intros x Hx. apply in_map_iff in Hx. destruct Hx as (i & <- & Hi).
    split; [exact (proj1 (Forall_forall _ _) H4 i Hi)|].
    destruct nuevas as [|a [|b r]]; simpl in *; [destruct Hi|lia|lia]. }
  pose proof (Nat2Z.is_nonneg (List.length nuevas)) as Hpos.
  split; [lia|]. split.
  - rewrite Hids. apply NoDup_app.
    + assumption.
    + destruct nuevas as [|a [|b r]]; simpl in *;
        [constructor|repeat constructor; simpl; tauto|lia].
    + intros x Hx Hn. apply Hviejas in Hx. apply Hnuevas in Hn. lia.
  - apply Forall_forall. intros f Hf.
    assert (Hi : In (id f) (ids (sms_queue (despues op s))))
      by (unfold ids; now apply in_map).
    rewrite Hids in Hi. apply in_app_or in Hi.
    destruct Hi as [Hi|Hi].
    + apply Hviejas in Hi. lia.
    + apply Hnuevas in Hi. lia.
Qed.

Lemma cola_de_tres_bien_formada : bien_formada cola_de_tres.
Proof.
  split; [discriminate|]. split.
  - repeat constructor; simpl; intuition discriminate.
  - repeat constructor; simpl; try lia; discriminate.
Qed.

Lemma almacen_bien_formado_witness :
  bien_formada cola_de_tres
  /\ bien_formada
       (despues (OpAlta "3001234567" "Otra" (Some "c2") None 4) cola_de_tres).
Proof.
  split; [exact cola_de_tres_bien_formada|].
  apply (almacen_bien_formado cola_de_tres
           (OpAlta "3001234567" "Otra" (Some "c2") None 4)).
  exact cola_de_tres_bien_formada.
Defined.

End Almacen.

(* ================================================================== *)
(** * Lifecycle states and the aggregate state *)

Section Estados.

Lemma exito_conocido :
  forall e, es_exito e = true -> In e estados.
Proof.
  intros e H. unfold es_exito in H. apply orb_true_iff in H.
  destruct H as [H|H]; apply String.eqb_eq in H; subst; simpl; auto.
Qed.

Lemma Forall_actualizar_fila :
  forall (P : Fila -> Prop) q g l,
    (forall f, P (g f)) -> Forall P l -> Forall P (actualizar_fila q g l).
Proof.
  intros P q g l Hg H. unfold actualizar_fila. apply Forall_map.
  eapply Forall_impl; [|exact H]. intros f Hf. simpl.
  destruct (id f =? q); [apply Hg|assumption].
Qed.

Lemma Forall_actualizar_primera :
  forall (P : Fila -> Prop) p g l,
    (forall f, P (g f)) ->
    Forall P l -> Forall P (fst (actualizar_primera p g l)).
Proof.
  intros P p g l Hg H. induction H as [|f r Hf Hr IH]; simpl; [constructor|].
  destruct (p f); simpl; [constructor; auto|].
  destruct (actualizar_primera p g r) as [r' n]. simpl in *.
  now constructor.
Qed.

(** X9.  The five lifecycle states are closed under the operations of
    the store: whatever outcome text a caller records, no job is ever
    left in a state outside pending, retrying, sent, delivered and
    failed. *)
Theorem estados_se_conservan :
  forall (s : Store) (op : operacion),
    estados_conocidos s -> estados_conocidos (despues op s).
Proof.
  intros s op H. unfold estados_conocidos in *.
  destruct op as [n m c md t|l t|q o e r err ms t|n c t]; simpl.
  - unfold agregar_a_cola, get_connection, insertar.
    destruct (existsb _ _); simpl; [assumption|].
    apply Forall_app. split; [assumption|].
    constructor; [simpl; auto|constructor].
  - assumption.
  - pose proof (actualizar_intento_forma q o e r err ms t s) as F.
    destruct (buscar q (sms_queue s)) as [f|];
      [destruct (es_exito e) eqn:E; cbv zeta in F|]; rewrite F; simpl;
      try assumption.
    apply Forall_actualizar_fila; [|assumption].
    intros x. simpl. now apply exito_conocido.
  - unfold confirmar_entrega, get_connection.
    pose proof (Forall_actualizar_primera
                  (fun f => In (estado f) estados) (por_confirmar n)
                  (fun f => fila_entregada f t) (sms_queue s)) as F.
    destruct (actualizar_primera _ _ _) as [q' k]. simpl in F.
    destruct (k >? 0); simpl; apply F; try assumption;
      intros f; simpl; auto 6.
Qed.

Lemma estados_se_conservan_witness :
  estados_conocidos cola_de_tres
  /\ estados_conocidos
       (despues (OpIntento 2 "principal" "rechazado por el operador"
                           None (Some "HTTP 500") None 7) cola_de_tres).
Proof.
  assert (H : estados_conocidos cola_de_tres)
    by (repeat constructor; simpl; auto).
  split; [exact H|].
  exact (estados_se_conservan cola_de_tres
           (OpIntento 2 "principal" "rechazado por el operador"
                      None (Some "HTTP 500") None 7) H).
Defined.

Lemma contar_suma_si :
  forall p q, contar (suma_si p q) = Z.of_nat (List.length (filter p q)).
Proof. intros p [|f r]; reflexivity. Qed.

Lemma particion_por_estado :
  forall q,
    Forall (fun f => In (estado f) estados) q ->
    (List.length (filter (fun f => (estado f =? "entregado")%string) q)
     + List.length (filter (fun f => (estado f =? "enviado")%string) q)
     + List.length (filter (fun f => (estado f =? "fallido")%string) q)
     + List.length (filter (fun f => (estado f =? "pendiente")%string
                                     || (estado f =? "reintentando")%string)
                           q))%nat
    = List.length q.
Proof.
  intros q H. induction H as [|f r Hf Hr IH]; [reflexivity|].
  simpl in Hf.
  destruct Hf as [E|[E|[E|[E|[E|[]]]]]];
    cbn [filter]; rewrite <- E; cbn [String.eqb Ascii.eqb Bool.eqb orb];
    cbn [List.length]; lia.
Qed.

(** X10.  [obtener_estado_general] partitions the queue: when every job
    is in one of the five states, the four counts (NULLs read as 0) add
    up to the total, pending and retrying jobs being counted together;
    the counts are NULL exactly when the queue is empty. *)
Theorem estado_general_particion :
  forall (s : Store),
    estados_conocidos s ->
    let e := estado_general_de s in
    obtener_estado_general s = (Ok e, s)
    /\ eg_total e = Z.of_nat (List.length (sms_queue s))
    /\ contar (eg_entregados e) + contar (eg_enviados e)
       + contar (eg_fallidos e) + contar (eg_pendientes e)
       = eg_total e
    /\ (eg_pendientes e = None <-> sms_queue s = []).
Proof.
  intros s H. cbv zeta. unfold estado_general_de, obtener_estado_general,
    get_connection. cbn [fst eg_total eg_entregados eg_enviados eg_fallidos
                         eg_pendientes].
  split; [reflexivity|]. split; [reflexivity|]. split.
  - rewrite !contar_suma_si.
    pose proof (particion_por_estado (sms_queue s) H). lia.
  - destruct (sms_queue s); simpl; split; congruence.
Qed.

Lemma estado_general_particion_witness :
  estados_conocidos cola_entregada
  /\ eg_total (estado_general_de cola_entregada) = 3
  /\ contar (eg_entregados (estado_general_de cola_entregada))
     + contar (eg_enviados (estado_general_de cola_entregada))
     + contar (eg_fallidos (estado_general_de cola_entregada))
     + contar (eg_pendientes (estado_general_de cola_entregada))
     = eg_total (estado_general_de cola_entregada).
Proof.
  assert (H : estados_conocidos cola_entregada)
    by (repeat constructor; simpl; auto 6).
  split; [exact H|].
  destruct (estado_general_particion cola_entregada H) as (_ & H2 & H3 & _).
  split; [exact H2|exact H3].
Defined.

Lemma filter_app_uno :
  forall (p : Fila -> bool) q x,
    Z.of_nat (List.length (filter p (q ++ [x])))
    = Z.of_nat (List.length (filter p q)) + (if p x then 1 else 0).
Proof.
  intros p q x. rewrite filter_app, length_app. simpl.
  destruct (p x); simpl; lia.
Qed.

(** X11.  Enrolment and the aggregate state: an accepted enrolment
    raises the pending count and the total by exactly one and leaves the
    other counts alone; a rejected one leaves the store, hence every
    count, as it was. *)
Theorem alta_y_estado_general :
  forall (s : Store) (numero mensaje : string) (campana_id : option string)
         (metadata : option (list (string * string))) (now : Q),
    let r := agregar_a_cola numero mensaje campana_id metadata now s in
    let e0 := estado_general_de s in
    let e1 := estado_general_de (snd r) in
    match fst r with
    | Ok (Some _) =>
        contar (eg_pendientes e1) = contar (eg_pendientes e0) + 1
        /\ eg_total e1 = eg_total e0 + 1
        /\ contar (eg_entregados e1) = contar (eg_entregados e0)
        /\ contar (eg_enviados e1) = contar (eg_enviados e0)
        /\ contar (eg_fallidos e1) = contar (eg_fallidos e0)
    | Ok None => snd r = s
    | Lanza _ => False
    end.
Proof.
  intros s n m c md t. cbv zeta.
  unfold agregar_a_cola, get_connection, insertar.
  destruct (existsb _ _); cbn [fst snd]; [reflexivity|].
  unfold estado_general_de, obtener_estado_general, get_connection.
  cbn [fst sms_queue eg_total eg_entregados eg_enviados eg_fallidos
       eg_pendientes].
  rewrite !contar_suma_si, !filter_app_uno, length_app. simpl.
  repeat split; lia.
Qed.

End Estados.

(* ================================================================== *)
(** * What a recorded attempt and a confirmation leave behind *)

Section Registro.

Lemma buscar_encontrada :
  forall q l f, buscar q l = Some f -> id f = q /\ In f l.
Proof.
  intros q l f. induction l as [|x r IH]; simpl; [discriminate|].
  destruct (id x =? q) eqn:E.
  - intros [= <-]. apply Z.eqb_eq in E. auto.
  - intros H. destruct (IH H). auto.
Qed.

Lemma filas_con_id :
  forall q g l f,
    (forall x, id (g x) = id x) ->
    NoDup (ids l) ->
    buscar q l = Some f ->
    filter (fun x => id x =? q) (actualizar_fila q g l) = [g f].
Proof.
  intros q g l f Hg. induction l as [|x r IH]; simpl; [discriminate|].
  intros Hnd Hb. inversion Hnd as [|? ? Hnotin Hnd']; subst.
  destruct (id x =? q) eqn:E.
  - injection Hb as <-. rewrite Hg, E. f_equal.
    apply Z.eqb_eq in E.
    assert (Hno : forall y, In y r -> (id y =? q) = false).
    { intros y Hy. apply Z.eqb_neq. intros Hq. apply Hnotin.
      unfold ids. rewrite E, <- Hq. now apply in_map. }
    clear - Hno Hg. induction r as [|y r IH]; [reflexivity|].
    simpl. rewrite (Hno y (or_introl eq_refl)).
    rewrite (Hno y (or_introl eq_refl)). apply IH.
    intros z Hz. apply Hno. now right.
  - rewrite E. now apply IH.
Qed.

(** X12.  A recorded success for a known job, in a store with unique
    ids: the job takes the outcome as its state, its attempt count goes
    up by one and its history gains one entry numbered with the new
    count; exactly one row is added to the attempt log, and that row is
    numbered one higher than the history entry. *)
Theorem numeracion_de_intentos :
  forall (s : Store) (q : Z) (f : Fila) (op e : string)
         (r err : option string) (ms : option Z) (now : Q),
    NoDup (ids (sms_queue s)) ->
    buscar q (sms_queue s) = Some f ->
    e = "enviado" \/ e = "entregado" ->
    exists s' g,
      actualizar_intento q op e r err ms now s = (Ok true, s')
      /\ buscar q (sms_queue s') = Some g
      /\ estado g = e
      /\ intentos g = intentos f + 1
      /\ historial_de g
         = (historial_de f ++ [mk_entrada op (intentos f + 1) now e err])%list
      /\ sms_log s'
         = (sms_log s
            ++ [mk_log q (numero f) op e (intentos f + 2) now r err ms])%list.
Proof.
  intros s q f op e r err ms now Hnd Hf He.
  assert (Hex : es_exito e = true).
  { destruct He as [-> | ->]; reflexivity. }
  pose proof (actualizar_intento_forma q op e r err ms now s) as F.
  rewrite Hf, Hex in F. cbv zeta in F. rewrite F.
  set (hist := (historial_de f
                ++ [mk_entrada op (intentos f + 1) now e err])%list).
  set (g := fun x => fila_actualizada x e op hist r err now None).
  eexists. exists (g f).
  split; [reflexivity|]. cbn [sms_queue sms_log].
  split; [apply buscar_actualizar_fila; [reflexivity|assumption]|].
  split; [reflexivity|]. split; [reflexivity|]. split; [reflexivity|].
  unfold filas_log.
  rewrite (filas_con_id q g (sms_queue s) f (fun _ => eq_refl) Hnd Hf).
  destruct (buscar_encontrada _ _ _ Hf) as [Hid _].
  simpl. rewrite Hid. do 3 f_equal. lia.
Qed.

Lemma numeracion_de_intentos_witness :
  NoDup (ids (sms_queue cola_de_tres))
  /\ buscar 2 (sms_queue cola_de_tres)
     = Some (fila_nueva 2 "3109876543" "Hola {nombre}" (Some "c1") 2 None)
  /\ exists s',
       actualizar_intento 2 "principal" "enviado" (Some "ok") None
                          (Some 35) 9 cola_de_tres = (Ok true, s')
       /\ sms_log s'
          = [mk_log 2 "3109876543" "principal" "enviado" 2 9 (Some "ok")
                    None (Some 35)].
Proof.
  assert (Hnd : NoDup (ids (sms_queue cola_de_tres)))
    by (repeat constructor; simpl; intuition discriminate).
  split; [exact Hnd|]. split; [reflexivity|].
  destruct (numeracion_de_intentos cola_de_tres 2
              (fila_nueva 2 "3109876543" "Hola {nombre}" (Some "c1") 2 None)
              "principal" "enviado" (Some "ok") None (Some 35) 9
              Hnd eq_refl (or_introl eq_refl))
    as (s' & g & H1 & _ & _ & _ & _ & H6).
  exists s'. split; [exact H1|exact H6].
Defined.

Lemma find_actualizadas :
  forall (p : FilaStats -> bool) upd l,
    (forall x, p (upd x) = p x) ->
    find p (map (fun x => if p x then upd x else x) l)
    = option_map upd (find p l).
Proof.
  intros p upd l Hp. induction l as [|x r IH]; simpl; [reflexivity|].
  destruct (p x) eqn:E.
  - now rewrite Hp, E.
  - now rewrite E.
Qed.

Lemma find_ninguna :
  forall (p : FilaStats -> bool) l x,
    existsb p l = false ->
    find p l = None /\ find p (l ++ [x]) = if p x then Some x else None.
Proof.
  intros p l x. induction l as [|y r IH]; simpl; [auto|].
  destruct (p y); [discriminate|]. exact IH.
Qed.

Lemma find_alguna :
  forall (p : FilaStats -> bool) l,
    existsb p l = true -> exists x, find p l = Some x.
Proof.
  intros p l. induction l as [|y r IH]; simpl; [discriminate|].
  destruct (p y); eauto.
Qed.

(** X13.  Operator statistics after a recorded success for a known
    job: the operator has a row, stamped with the time of the call.  If
    it had one before, its send counter went up by one and its last
    success is that time; if it had none, the new row starts at zero
    sends and without a last success -- the first attempt of an
    operator is not counted. *)
Theorem estadisticas_de_operador :
  forall (s : Store) (q : Z) (f : Fila) (op e : string)
         (r err : option string) (ms : option Z) (now : Q),
    buscar q (sms_queue s) = Some f ->
    e = "enviado" \/ e = "entregado" ->
    let s' := snd (actualizar_intento q op e r err ms now s) in
    exists fila,
      obtener_stats_operador op s' = (Ok (Some fila), s')
      /\ s_operador fila = op
      /\ s_actualizado fila = now
      /\ match fst (obtener_stats_operador op s) with
         | Ok (Some antes) =>
             s_total_enviados fila = s_total_enviados antes + 1
             /\ s_ultimo_exito_timestamp fila = Some now
         | _ =>
             s_total_enviados fila = 0
             /\ s_ultimo_exito_timestamp fila = None
         end.
Proof.
  intros s q f op e r err ms now Hf He. cbv zeta.
  assert (Hex : es_exito e = true).
  { destruct He as [-> | ->]; reflexivity. }
  pose proof (actualizar_intento_forma q op e r err ms now s) as F.
  rewrite Hf, Hex in F. cbv zeta in F. rewrite F.
  unfold obtener_stats_operador, get_connection.
  cbn [fst snd operator_stats]. unfold upsert_stats.
  destruct (existsb (fun x => (s_operador x =? op)%string)
                    (operator_stats s)) eqn:E.
  - pose proof (find_actualizadas (fun x => (s_operador x =? op)%string)
                  (stats_actualizada e err now)
                  (operator_stats s) (fun _ => eq_refl)) as Hm.
    cbv beta in Hm. rewrite Hm.
    destruct (find_alguna _ _ E) as [antes Ha]. rewrite Ha.
    exists (stats_actualizada e err now antes). cbn [option_map].
    split; [reflexivity|].
    assert (Hop : s_operador antes = op).
    { apply find_some in Ha. destruct Ha as [_ Ha].
      now apply String.eqb_eq in Ha. }
    simpl. rewrite Hex. auto.
  - destruct (find_ninguna (fun x => (s_operador x =? op)%string)
                (operator_stats s)
                (mk_stats op 0 None None None (Some 0%Q) now) E)
      as [H0 H1].
    cbv beta in H1. simpl s_operador in H1.
    rewrite String.eqb_refl in H1. rewrite H0, H1.
    eexists. split; [reflexivity|]. simpl. auto.
Qed.

Lemma estadisticas_de_operador_witness :
  buscar 1 (sms_queue cola_de_tres)
  = Some (fila_nueva 1 "3001234567" "Hola {nombre}" (Some "c1") 1 None)
  /\ exists fila,
       fst (obtener_stats_operador "principal"
              (snd (actualizar_intento 1 "principal" "enviado" None None
                                       None 9 cola_de_tres)))
       = Ok (Some fila)
       /\ s_total_enviados fila = 0.
Proof.
  split; [reflexivity|].
  destruct (estadisticas_de_operador cola_de_tres 1
              (fila_nueva 1 "3001234567" "Hola {nombre}" (Some "c1") 1 None)
              "principal" "enviado" None None None 9
              eq_refl (or_introl eq_refl)) as (fila & H1 & _ & _ & H4).
  exists fila. rewrite H1. split; [reflexivity|].
  exact (proj1 H4).
Defined.

Lemma otras_filas_actualizar_primera :
  forall n g l,
    (forall f, numero (g f) = numero f) ->
    filter (fun f => negb (numero f =? n)%string)
           (fst (actualizar_primera (por_confirmar n) g l))
    = filter (fun f => negb (numero f =? n)%string) l.
Proof.
  intros n g l Hg. induction l as [|f r IH]; simpl; [reflexivity|].
  destruct (por_confirmar n f) eqn:E; simpl.
  - rewrite Hg. unfold por_confirmar in E. apply andb_true_iff in E.
    destruct E as [E _]. now rewrite E.
  - destruct (actualizar_primera (por_confirmar n) g r) as [r' k].
    simpl in *. now rewrite IH.
Qed.

(** X14.  The reach of [confirmar_entrega]: the jobs of every other
    number are left exactly as they were, nothing is written to the
    attempt log or to the operator statistics, and one row is added to
    the webhook table exactly when the call returns true. *)
Theorem confirmar_entrega_alcance :
  forall (s : Store) (n : string) (c : option string) (t : Q),
    let r := confirmar_entrega n c t s in
    filter (fun f => negb (numero f =? n)%string) (sms_queue (snd r))
    = filter (fun f => negb (numero f =? n)%string) (sms_queue s)
    /\ sms_log (snd r) = sms_log s
    /\ operator_stats (snd r) = operator_stats s
    /\ secuencia (snd r) = secuencia s
    /\ webhooks (snd r)
       = (webhooks s
          ++ match fst r with
             | Ok true => [mk_webhook n "entregado" t t]
             | _ => []
             end)%list.
Proof.
  intros s n c t. cbv zeta. unfold confirmar_entrega, get_connection.
  pose proof (otras_filas_actualizar_primera n
                (fun f => fila_entregada f t) (sms_queue s)
                (fun _ => eq_refl)) as H.
  destruct (actualizar_primera _ _ _) as [q' k]. simpl in H.
  destruct (k >? 0); cbn [fst snd sms_queue sms_log operator_stats
                          secuencia webhooks con_cola];
    rewrite ?app_nil_r; auto.
Qed.

(** X15.  Duplicates are detected on the validated number: once a
    number is enrolled for a campaign with some message, enrolling it
    again for that campaign and message is refused and changes nothing,
    however differently the number is written the second time. *)
Theorem alta_repetida_en_otra_forma :
  forall (s : Store) (crudo1 crudo2 n mensaje campana : string)
         (md1 md2 : option (list (string * string))) (t1 t2 : Q),
    App.validar_numero_colombiano crudo1 = Some n ->
    App.validar_numero_colombiano crudo2 = Some n ->
    App.encolar_fila crudo2 mensaje (Some campana) md2 t2
      (snd (App.encolar_fila crudo1 mensaje (Some campana) md1 t1 s))
    = (Ok None,
       snd (App.encolar_fila crudo1 mensaje (Some campana) md1 t1 s)).
Proof.
  intros s c1 c2 n m camp md1 md2 t1 t2 H1 H2.
  destruct (validar_forma_local c1 n H1) as [Hl _].
  destruct n as [|a n']; [discriminate|].
  assert (Hs1 : existsb (choca (String a n') m (Some camp))
                  (sms_queue
                     (snd (App.encolar_fila c1 m (Some camp) md1 t1 s)))
                = true).
  { unfold App.encolar_fila. rewrite H1.
    unfold agregar_a_cola, get_connection, insertar.
    destruct (existsb (choca (String a n') m (Some camp)) (sms_queue s))
      eqn:E; cbn [snd sms_queue]; [assumption|].
    rewrite existsb_app. cbn [existsb]. unfold choca at 2.
    cbn [numero mensaje campana_id fila_nueva].
    rewrite !String.eqb_refl. cbn [andb orb]. apply orb_true_r. }
  revert Hs1.
  generalize (snd (App.encolar_fila c1 m (Some camp) md1 t1 s)).
  intros s1 Hc.
  unfold App.encolar_fila. rewrite H2.
  unfold agregar_a_cola, get_connection, insertar. now rewrite Hc.
Qed.

Lemma alta_repetida_en_otra_forma_witness :
  App.validar_numero_colombiano "300 123 4567" = Some "3001234567"
  /\ App.validar_numero_colombiano "+57-3001234567" = Some "3001234567"
  /\ fst (App.encolar_fila "+57-3001234567" "Hola" (Some "c1") None 2
            (snd (App.encolar_fila "300 123 4567" "Hola" (Some "c1") None 1
                                   vacio)))
     = Ok None.
Proof.
  assert (H1 : App.validar_numero_colombiano "300 123 4567"
               = Some "3001234567") by (vm_compute; reflexivity).
  assert (H2 : App.validar_numero_colombiano "+57-3001234567"
               = Some "3001234567") by (vm_compute; reflexivity).
  split; [exact H1|]. split; [exact H2|].
  rewrite (alta_repetida_en_otra_forma vacio "300 123 4567" "+57-3001234567"
             "3001234567" "Hola" "c1" None None 1 2 H1 H2).
  reflexivity.
Defined.

End Registro.

(* ================================================================== *)
(** * The limiters over time *)

Section Velocidad.

Import RL.

Lemma int_08_cotas :
  forall n, Z.min n 10 <= Z.max 10 (int_08 n) <= Z.max n 10.
Proof.
  intros n. unfold int_08.
  pose proof (Z.quot_rem' (4 * n) 5) as H.
  destruct (Z_le_gt_dec 0 n).
  - pose proof (Z.rem_bound_pos (4 * n) 5 ltac:(lia) ltac:(lia)). lia.
  - pose proof (Z.rem_bound_pos (- (4 * n)) 5 ltac:(lia) ltac:(lia)) as B.
    rewrite Z.rem_opp_l' in B. lia.
Qed.

Lemma registrar_error_cotas :
  forall rl t ahora,
    Z.min (max_por_minuto rl) 10
    <= max_por_minuto (registrar_error t ahora rl)
    <= Z.max (max_por_minuto rl) 10.
Proof.
  intros rl t ahora. unfold registrar_error.
  destruct (_ >? 0); cbn [max_por_minuto]; [|lia].
  destruct (adaptativo rl && _); [apply int_08_cotas|lia].
Qed.

Lemma tras_esperar_velocidad :
  forall reloj rl,
    max_por_minuto (tras_esperar reloj rl) = max_por_minuto rl
    /\ adaptativo (tras_esperar reloj rl) = adaptativo rl.
Proof.
  intros reloj rl. unfold tras_esperar, esperar.
  destruct (Qlt_bool _ 1); [|split; reflexivity].
  destruct (_ =? 0); [split; reflexivity|].
  destruct (Qlt_bool _ 0); split; reflexivity.
Qed.

Lemma usar_adaptativo :
  forall u rl, adaptativo (usar rl u) = adaptativo rl.
Proof.
  intros [reloj|t ahora|] rl; cbn [usar].
  - apply tras_esperar_velocidad.
  - unfold registrar_error. now destruct (_ >? 0).
  - unfold registrar_exito.
    destruct (_ && _); [|reflexivity]. now destruct (_ >? _).
Qed.

Lemma usar_cotas :
  forall u rl,
    Z.min (max_por_minuto rl) 10
    <= max_por_minuto (usar rl u)
    <= Z.max (max_por_minuto rl) 200.
Proof.
  intros [reloj|t ahora|] rl; cbn [usar].
  - rewrite (proj1 (tras_esperar_velocidad reloj rl)). lia.
  - pose proof (registrar_error_cotas rl t ahora). lia.
  - pose proof (capacidad_acotada rl). lia.
Qed.

(** X16.  The capacity of a limiter stays within bounds whatever is done
    with it: after any sequence of [esperar], [registrar_error] and
    [registrar_exito] calls, at any clock readings, it lies between
    min(capacity, 10) and max(capacity, 200) of the start -- a limiter
    set up between 10 and 200 per minute stays there -- and without
    adaptive mode it is the capacity of the start. *)
Theorem velocidad_entre_cotas :
  forall (usos : list uso) (rl : RateLimiter),
    Z.min (max_por_minuto rl) 10
    <= max_por_minuto (historia usos rl)
    <= Z.max (max_por_minuto rl) 200
    /\ (adaptativo rl = false ->
        max_por_minuto (historia usos rl) = max_por_minuto rl).
Proof.
  unfold historia. induction usos as [|u r IH]; intros rl; cbn [fold_left].
  - split; [lia|reflexivity].
  - destruct (IH (usar rl u)) as [Hc Hn].
    pose proof (usar_cotas u rl) as Hu.
    split; [lia|]. intros Ha.
    rewrite Hn by now rewrite usar_adaptativo.
    destruct u as [reloj|t ahora|]; cbn [usar].
    + apply tras_esperar_velocidad.
    + now apply sin_adaptacion.
    + now apply (sin_adaptacion rl 0 0).
Qed.

Lemma velocidad_entre_cotas_witness :
  10 <= max_por_minuto
          (historia [UsoEsperar 1; UsoError 2 2; UsoError 3 3; UsoExito]
                    limitador_cinco) <= 200
  /\ (adaptativo (mk_rl 300 false 300 0 [] 300 [] 0) = false ->
      max_por_minuto
        (historia [UsoEsperar 1; UsoError 2 2; UsoExito]
                  (mk_rl 300 false 300 0 [] 300 [] 0)) = 300).
Proof.
  split.
  - exact (proj1 (velocidad_entre_cotas
                    [UsoEsperar 1; UsoError 2 2; UsoError 3 3; UsoExito]
                    limitador_cinco)).
  - exact (proj2 (velocidad_entre_cotas
                    [UsoEsperar 1; UsoError 2 2; UsoExito]
                    (mk_rl 300 false 300 0 [] 300 [] 0))).
Defined.

Lemma filter_a_lo_sumo :
  forall (p : Q -> bool) l,
    (List.length (filter p l) <= List.length l)%nat.
Proof.
  intros p l. induction l as [|x r IH]; simpl; [lia|].
  destruct (p x); simpl; lia.
Qed.

Lemma recientes_a_lo_sumo :
  forall ahora d t, 0 <= recientes ahora (deque_append 10 d t) <= 10.
Proof.
  intros ahora d t. unfold recientes, deque_append.
  pose proof (filter_a_lo_sumo (fun x => Qlt_bool (ahora - x)%Q 60)
                (skipn (List.length (d ++ [t]) - Z.to_nat 10) (d ++ [t])))
    as H.
  rewrite length_skipn in H.
  replace (Z.to_nat 10) with 10%nat in * by reflexivity. lia.
Qed.

(** X17.  Errors cannot slow a busy limiter down: only the last ten
    errors are kept, so once fifty sends are on record the error rate
    [registrar_error] computes is at most 20%, which is not above the
    threshold, and the capacity stays as it is. *)
Theorem muchos_envios_no_reducen :
  forall (rl : RateLimiter) (t ahora : Q),
    (50 <= List.length (timestamps rl))%nat ->
    let rl' := registrar_error t ahora rl in
    max_por_minuto rl' = max_por_minuto rl
    /\ (tasa_error_actual rl' <= 2 # 10)%Q.
Proof.
  intros rl t ahora H. cbv zeta. unfold registrar_error.
  assert (Hpos : (Z.of_nat (List.length (timestamps rl)) >? 0) = true)
    by (apply Z.gtb_lt; lia).
  rewrite Hpos. cbn [max_por_minuto tasa_error_actual].
  pose proof (recientes_a_lo_sumo ahora (errores_recientes rl) t) as He.
  set (e := recientes ahora (deque_append 10 (errores_recientes rl) t)) in *.
  set (m := Z.min (Z.of_nat (List.length (timestamps rl))) 100).
  assert (Hm : 50 <= m) by (unfold m; lia).
  assert (Ht : (inject_Z e / inject_Z m <= 2 # 10)%Q).
  { apply Qle_shift_div_r.
    - unfold Qlt. simpl. lia.
    - unfold Qle. cbn [Qnum Qden Qmult inject_Z]. lia. }
  split; [|exact Ht].
  apply Qlt_bool_falso in Ht. rewrite Ht. now rewrite andb_false_r.
Qed.

Lemma muchos_envios_no_reducen_witness :
  (50 <= List.length (timestamps limitador_cincuenta))%nat
  /\ max_por_minuto (registrar_error 31 31 limitador_cincuenta) = 100.
Proof.
  assert (H : (50 <= List.length (timestamps limitador_cincuenta))%nat)
    by (vm_compute; lia).
  split; [exact H|].
  exact (proj1 (muchos_envios_no_reducen limitador_cincuenta 31 31 H)).
Defined.

Lemma uno_bajo_cero :
  forall x : Q, (Qmin (inject_Z 0) x < 1)%Q.
Proof.
  intros x. eapply Qle_lt_trans; [apply Q.le_min_l|]. reflexivity.
Qed.

(** X18.  A limiter of capacity zero grants nothing: whatever its tokens
    and the clock, [esperar] raises [ZeroDivisionError], for the
    per-operator limiter and for the global one alike. *)
Theorem capacidad_cero :
  (forall (reloj : Q) (rl : RateLimiter),
      max_por_minuto rl = 0 ->
      esperar reloj rl = Lanza ZeroDivisionError)
  /\ (forall (reloj : Q) (g : RateLimiterGlobal),
         max_sms_por_segundo g = 0 ->
         esperar_global reloj g = Lanza ZeroDivisionError).
Proof.
  split.
  - intros reloj rl H. unfold esperar, _refill.
    cbn [tokens max_por_minuto]. rewrite H.
    now rewrite (proj2 (Qlt_bool_spec _ _) (uno_bajo_cero _)).
  - intros reloj g H. unfold esperar_global. rewrite H.
    now rewrite (proj2 (Qlt_bool_spec _ _) (uno_bajo_cero _)).
Qed.

Lemma capacidad_cero_witness :
  max_por_minuto (mk_rl 0 true 0 0 [] 0 [] 0) = 0
  /\ nuevo 0 true 0 = Ok (mk_rl 0 true 0 0 [] 0 [] 0)
  /\ esperar 5 (mk_rl 0 true 0 0 [] 0 [] 0) = Lanza ZeroDivisionError
  /\ esperar_global 5 (nuevo_global 0 0) = Lanza ZeroDivisionError.
Proof.
  split; [reflexivity|]. split; [reflexivity|]. split.
  - exact (proj1 capacidad_cero 5%Q (mk_rl 0 true 0 0 [] 0 [] 0) eq_refl).
  - exact (proj2 capacidad_cero 5%Q (nuevo_global 0 0) eq_refl).
Defined.

Lemma inject_Z_uno : forall z, 1 <= z -> (1 <= inject_Z z)%Q.
Proof. intros z H. unfold Qle. simpl. lia. Qed.

Lemma espera_no_negativa :
  forall (x k : Q), (x < 1)%Q -> (0 < k)%Q -> (0 <= (1 - x) * k)%Q.
Proof.
  intros x k Hx Hk. apply Qmult_le_0_compat; [|now apply Qlt_le_weak].
  apply (proj1 (Qle_minus_iff x 1)). now apply Qlt_le_weak.
Qed.

(** X19.  With a capacity of at least one, [esperar] always grants: it
    raises nothing, the clock does not go back, the capacity is
    untouched, the clock at the end of the call is the time of the last
    refill and the time appended to the bounded send record, and the
    tokens left are at most the capacity less the one just taken. *)
Theorem esperar_concede :
  forall (reloj : Q) (rl : RateLimiter),
    1 <= max_por_minuto rl ->
    exists rl' t',
      esperar reloj rl = Ok (rl', t')
      /\ (reloj <= t')%Q
      /\ max_por_minuto rl' = max_por_minuto rl
      /\ last_refill rl' = t'
      /\ timestamps rl'
         = deque_append (maxlen_timestamps rl) (timestamps rl) t'
      /\ (tokens rl' <= inject_Z (max_por_minuto rl) - 1)%Q.
Proof.
  intros reloj rl H. unfold esperar.
  assert (Hcota : forall a b : Q,
             (Qmin (inject_Z (max_por_minuto rl)) a - 1
              <= inject_Z (max_por_minuto rl) - 1)%Q).
  { intros a _. apply Qplus_le_compat; [apply Q.le_min_l|apply Qle_refl]. }
  destruct (Qlt_bool (tokens (_refill reloj rl)) 1) eqn:E.
  - cbn [max_por_minuto _refill].
    destruct (max_por_minuto rl =? 0) eqn:E0; [apply Z.eqb_eq in E0; lia|].
    apply Qlt_bool_spec in E.
    assert (Hk : (0 < 60 / inject_Z (max_por_minuto rl))%Q).
    { apply Qlt_shift_div_l; unfold Qlt; simpl; lia. }
    pose proof (espera_no_negativa _ _ E Hk) as Hw.
    cbn [max_por_minuto _refill] in Hw.
    rewrite (proj2 (Qlt_bool_falso _ _) Hw).
    eexists. eexists. split; [reflexivity|].
    split.
    { rewrite <- (Qplus_0_r reloj) at 1.
      apply Qplus_le_compat; [apply Qle_refl|exact Hw]. }
    split; [reflexivity|]. split; [reflexivity|]. split; [reflexivity|].
    cbn [tokens consumir _refill max_por_minuto]. apply (Hcota _ 0%Q).
  - eexists. eexists. split; [reflexivity|].
    split; [apply Qle_refl|].
    split; [reflexivity|]. split; [reflexivity|]. split; [reflexivity|].
    cbn [tokens consumir _refill max_por_minuto]. apply (Hcota _ 0%Q).
Qed.

Lemma esperar_concede_witness :
  1 <= max_por_minuto limitador_cinco
  /\ exists rl' t',
       esperar 1 limitador_cinco = Ok (rl', t')
       /\ (1 <= t')%Q.
Proof.
  assert (H : 1 <= max_por_minuto limitador_cinco)
    by (vm_compute; discriminate).
  split; [exact H|].
  destruct (esperar_concede 1 limitador_cinco H)
    as (rl' & t' & H1 & H2 & _).
  exists rl', t'. split; [exact H1|exact H2].
Defined.

(** X20.  The global limiter with a capacity of at least one always
    grants, and the clock does not go back.  Its refill time is the
    clock at entry, also when it slept; a grant without a wait leaves
    between zero and capacity less one tokens, a grant after a wait
    leaves the bucket one token in debt. *)
Theorem esperar_global_concede :
  forall (reloj : Q) (g : RateLimiterGlobal),
    1 <= max_sms_por_segundo g ->
    exists g' t',
      esperar_global reloj g = Ok (g', t')
      /\ (reloj <= t')%Q
      /\ max_sms_por_segundo g' = max_sms_por_segundo g
      /\ g_last_refill g' = reloj
      /\ ((t' = reloj
           /\ (0 <= g_tokens g' <= inject_Z (max_sms_por_segundo g) - 1)%Q)
          \/ (reloj < t' /\ g_tokens g' == -1)%Q).
Proof.
  intros reloj g H. unfold esperar_global.
  set (tk := Qmin (inject_Z (max_sms_por_segundo g))
                  (g_tokens g
                   + (reloj - g_last_refill g)
                     * inject_Z (max_sms_por_segundo g))%Q).
  destruct (Qlt_bool tk 1) eqn:E.
  - destruct (max_sms_por_segundo g =? 0) eqn:E0;
      [apply Z.eqb_eq in E0; lia|].
    apply Qlt_bool_spec in E.
    assert (Hw : (0 < (1 - tk) / inject_Z (max_sms_por_segundo g))%Q).
    { apply Qlt_shift_div_l; [unfold Qlt; simpl; lia|].
      rewrite Qmult_0_l. now apply (proj1 (Qlt_minus_iff tk 1)). }
    rewrite (proj2 (Qlt_bool_falso _ _) (Qlt_le_weak _ _ Hw)).
    eexists. eexists. split; [reflexivity|].
    assert (Hr : (reloj < reloj + (1 - tk) / inject_Z (max_sms_por_segundo g))%Q).
    { rewrite <- (Qplus_0_r reloj) at 1.
      apply Qplus_lt_r. exact Hw. }
    split; [now apply Qlt_le_weak|].
    split; [reflexivity|]. split; [reflexivity|].
    right. split; [exact Hr|reflexivity].
  - apply Qlt_bool_falso in E.
    eexists. eexists. split; [reflexivity|].
    split; [apply Qle_refl|].
    split; [reflexivity|]. split; [reflexivity|].
    left. split; [reflexivity|]. cbn [g_tokens]. split.
    + apply (proj1 (Qle_minus_iff 1 tk)). exact E.
    + apply Qplus_le_compat; [apply Q.le_min_l|apply Qle_refl].
Qed.

Lemma esperar_global_concede_witness :
  1 <= max_sms_por_segundo (nuevo_global 10 0)
  /\ exists g' t',
       esperar_global 0 (nuevo_global 10 0) = Ok (g', t')
       /\ g_last_refill g' = 0%Q.
Proof.
  assert (H : 1 <= max_sms_por_segundo (nuevo_global 10 0))
    by (vm_compute; discriminate).
  split; [exact H|].
  destruct (esperar_global_concede 0 (nuevo_global 10 0) H)
    as (g' & t' & H1 & _ & _ & H4 & _).
  exists g', t'. split; [exact H1|exact H4].
Defined.

End Velocidad.

(* ================================================================== *)
(** * The sender *)

Section Plantilla.

Lemma contiene_sin_llave :
  forall m p, sin_llave m = true -> contiene m (String "{" p) = false.
Proof.
  intros m p. induction m as [|c r IH]; intros H.
  - reflexivity.
  - unfold sin_llave in H. cbn [todos] in H.
    apply andb_true_iff in H. destruct H as [Hc Hr].
    apply negb_true_iff in Hc.
    cbn [contiene String.prefix].
    destruct (ascii_dec "{" c) as [E|_].
    + subst c. now rewrite Ascii.eqb_refl in Hc.
    + now apply IH.
Qed.

Lemma sustituir_sin_llave :
  forall rd m, sin_llave m = true -> Sender.sustituir m rd = m.
Proof.
  induction rd as [|[columna valor] r IH]; intros m H; [reflexivity|].
  cbn [Sender.sustituir].
  change ("{" ++ columna ++ "}") with (String "{" (columna ++ "}")).
  rewrite (contiene_sin_llave m _ H). now apply IH.
Qed.

(** X21.  A text without an opening brace goes out as it is:
    [preparar_mensaje] returns it unchanged whatever the row data and
    the link. *)
Theorem preparar_mensaje_sin_llaves :
  forall (mensaje numero : string)
         (row_data : option (list (string * string)))
         (link_dinamico : option string),
    sin_llave mensaje = true ->
    Sender.preparar_mensaje mensaje numero row_data link_dinamico = mensaje.
Proof.
  intros m n rd link H. unfold Sender.preparar_mensaje.
  assert (Hs : match rd with
               | Some (x :: l) => Sender.sustituir m (x :: l)
               | _ => m
               end = m).
  { destruct rd as [[|x l]|]; try reflexivity.
    now apply sustituir_sin_llave. }
  rewrite Hs. destruct link as [[|c l]|]; try reflexivity.
  change "{link}" with (String "{" "link}").
  now rewrite (contiene_sin_llave m _ H).
Qed.

Lemma preparar_mensaje_sin_llaves_witness :
  sin_llave "Su cita es el lunes" = true
  /\ Sender.preparar_mensaje "Su cita es el lunes" "3001234567"
       (Some [("nombre", "Ana"); ("link", "x")]) (Some "http://a.b/c")
     = "Su cita es el lunes".
Proof.
  assert (H : sin_llave "Su cita es el lunes" = true)
    by (vm_compute; reflexivity).
  split; [exact H|].
  exact (preparar_mensaje_sin_llaves "Su cita es el lunes" "3001234567"
           (Some [("nombre", "Ana"); ("link", "x")]) (Some "http://a.b/c")
           H).
Defined.

End Plantilla.

Section Peticiones.

Variable obtener_operador : string -> option Sender.Operador.
Variable firma_operador : Sender.Operador -> Q -> string * string.
Variable traffilink_service : TraffiLink.TraffiLinkService.
Variable red_responde : Red.Peticion -> resultado Red.Respuesta * Q.
Variable obtener_operador_siguiente :
  Z -> option string -> resultado Sender.Operador.

Lemma a_lo_sumo_mas :
  forall (A : Type) (a b : nat) (m : Sender.M A),
    (a <= b)%nat -> a_lo_sumo a m -> a_lo_sumo b m.
Proof.
  intros A a b m Hab H w. destruct (H w) as (ps & E & L).
  exists ps. split; [exact E|lia].
Qed.

Lemma a_lo_sumo_quieto :
  forall (A : Type) (m : Sender.M A),
    (forall w, Sender.red (snd (m w)) = Sender.red w) -> a_lo_sumo 0 m.
Proof.
  intros A m H w. exists []. rewrite app_nil_r. split; [apply H|apply le_n].
Qed.

Lemma a_lo_sumo_ligar :
  forall (A B : Type) (a b : nat) (m : Sender.M A) (k : A -> Sender.M B),
    a_lo_sumo a m -> (forall x, a_lo_sumo b (k x)) ->
    a_lo_sumo (a + b) (Sender.ligar m k).
Proof.
  intros A B a b m k Hm Hk w. unfold Sender.ligar.
  destruct (Hm w) as (ps & E & L).
  destruct (m w) as [[x|e] w']; cbn [snd] in E.
  - destruct (Hk x w') as (qs & E2 & L2).
    exists (ps ++ qs)%list. rewrite E2, E, <- app_assoc.
    split; [reflexivity|]. rewrite length_app. lia.
  - exists ps. split; [exact E|lia].
Qed.

Lemma a_lo_sumo_intentar :
  forall (A : Type) (a b : nat) (m : Sender.M A)
         (h : excepcion -> Sender.M A),
    a_lo_sumo a m -> (forall e, a_lo_sumo b (h e)) ->
    a_lo_sumo (a + b) (Sender.intentar m h).
Proof.
  intros A a b m h Hm Hh w. unfold Sender.intentar.
  destruct (Hm w) as (ps & E & L).
  destruct (m w) as [[x|e] w']; cbn [snd] in E.
  - exists ps. split; [exact E|lia].
  - destruct (Hh e w') as (qs & E2 & L2).
    exists (ps ++ qs)%list. rewrite E2, E, <- app_assoc.
    split; [reflexivity|]. rewrite length_app. lia.
Qed.

Lemma a_lo_sumo_ret :
  forall (A : Type) (x : A), a_lo_sumo 0 (Sender.ret x).
Proof. intros A x. now apply a_lo_sumo_quieto. Qed.

Lemma a_lo_sumo_en_db :
  forall (A : Type) (op : Q -> Store -> resultado A * Store),
    a_lo_sumo 0 (Sender.en_db op).
Proof.
  intros A op. apply a_lo_sumo_quieto. intros w. unfold Sender.en_db.
  now destruct (op _ _).
Qed.

Lemma a_lo_sumo_limiter :
  forall nombre cap,
    a_lo_sumo 0 (Sender.asegurar_limiter nombre cap)
    /\ a_lo_sumo 0 (Sender.esperar_limiter nombre).
Proof.
  intros nombre cap. split; apply a_lo_sumo_quieto; intros w.
  - unfold Sender.asegurar_limiter.
    destruct (Sender.buscar_limiter _ _); [reflexivity|].
    now destruct (RL.nuevo _ _ _).
  - unfold Sender.esperar_limiter.
    destruct (Sender.buscar_limiter _ _); [|reflexivity].
    now destruct (RL.esperar _ _) as [[rl' t]|e].
Qed.

Lemma a_lo_sumo_traffilink :
  forall numero mensaje queue_id,
    a_lo_sumo 1
      (Sender.enviar_traffilink traffilink_service red_responde
         numero mensaje queue_id).
Proof.
  intros numero mensaje queue_id w. unfold Sender.enviar_traffilink.
  assert (H : (List.length
                 (snd (fst (TraffiLink.enviar_sms red_responde
                              traffilink_service numero mensaje queue_id)))
               <= 1)%nat).
  { unfold TraffiLink.enviar_sms.
    destruct (numero =? "")%string; [apply le_0_n|].
    destruct (mensaje =? "")%string; [apply le_0_n|].
    destruct (red_responde _). apply le_n. }
  destruct (TraffiLink.enviar_sms _ _ _ _ _) as [[res ps] dt].
  exists ps. split; [reflexivity|exact H].
Qed.

Lemma a_lo_sumo_post :
  forall p, a_lo_sumo 1 (Sender.post red_responde p).
Proof.
  intros p w. unfold Sender.post. destruct (red_responde p) as [r dt].
  exists [p]. split; [reflexivity|apply le_n].
Qed.

Lemma a_lo_sumo_registrar_ret :
  forall (A : Type) q op e r err ms (x : A),
    a_lo_sumo 0
      (Sender.ligar (Sender.registrar q op e r err ms)
                    (fun _ => Sender.ret x)).
Proof.
  intros A q op e r err ms x.
  apply (a_lo_sumo_ligar _ _ 0 0); [apply a_lo_sumo_en_db|].
  intros _. apply a_lo_sumo_ret.
Qed.

(** One call of the send routine puts at most one request on the
    network. *)
Lemma enviar_sms_ahora_a_lo_sumo :
  forall q numero mensaje op rd link,
    a_lo_sumo 1
      (Sender.enviar_sms_ahora obtener_operador firma_operador
         traffilink_service red_responde q numero mensaje op rd link).
Proof.
  intros q numero mensaje op rd link. unfold Sender.enviar_sms_ahora.
  destruct (op =? "traffilink")%string.
  - unfold Sender.enviar_por_traffilink.
    apply (a_lo_sumo_intentar _ 1 0);
      [|intros e; apply a_lo_sumo_registrar_ret].
    destruct (_ =? "")%string;
      [apply (a_lo_sumo_mas _ 0 1); [lia|apply a_lo_sumo_registrar_ret]|].
    apply (a_lo_sumo_ligar _ _ 0 1); [apply a_lo_sumo_limiter|intros _].
    apply (a_lo_sumo_ligar _ _ 0 1);
      [apply (a_lo_sumo_limiter "traffilink" 0)|intros _].
    apply (a_lo_sumo_ligar _ _ 0 1);
      [now apply a_lo_sumo_quieto|intros inicio].
    apply (a_lo_sumo_ligar _ _ 1 0); [apply a_lo_sumo_traffilink|intros r].
    apply (a_lo_sumo_ligar _ _ 0 0); [now apply a_lo_sumo_quieto|intros fin].
    destruct (TraffiLink.exito r); apply a_lo_sumo_registrar_ret.
  - destruct (obtener_operador op) as [o|];
      [|apply (a_lo_sumo_mas _ 0 1); [lia|apply a_lo_sumo_ret]].
    destruct (len _ =? 0);
      [apply (a_lo_sumo_mas _ 0 1); [lia|apply a_lo_sumo_registrar_ret]|].
    apply (a_lo_sumo_ligar _ _ 0 1); [apply a_lo_sumo_limiter|intros _].
    apply (a_lo_sumo_ligar _ _ 0 1);
      [apply (a_lo_sumo_limiter op 0)|intros _].
    apply (a_lo_sumo_ligar _ _ 0 1);
      [now apply a_lo_sumo_quieto|intros t_firma].
    destruct (firma_operador o t_firma) as [sign timestamp].
    apply (a_lo_sumo_ligar _ _ 0 1);
      [now apply a_lo_sumo_quieto|intros inicio].
    apply (a_lo_sumo_intentar _ 1 0).
    + apply (a_lo_sumo_ligar _ _ 1 0); [apply a_lo_sumo_post|intros resp].
      apply (a_lo_sumo_ligar _ _ 0 0);
        [now apply a_lo_sumo_quieto|intros fin].
      apply a_lo_sumo_registrar_ret.
    + intros e. unfold Sender.manejar_error_post.
      destruct e; apply a_lo_sumo_registrar_ret.
Qed.

(** X22.  One call of [enviar_sms_ahora] puts at most one request on
    the network, whatever the operator, the job and the outcome: the
    requests gone out before are kept, and no failure is retried within
    the call. *)
Theorem una_peticion_por_envio :
  forall (queue_id : Z) (numero mensaje operador_nombre : string)
         (row_data : option (list (string * string)))
         (link_dinamico : option string) (w : Sender.Mundo),
    exists ps,
      Sender.red
        (snd (Sender.enviar_sms_ahora obtener_operador firma_operador
                traffilink_service red_responde queue_id numero mensaje
                operador_nombre row_data link_dinamico w))
      = (Sender.red w ++ ps)%list
      /\ (List.length ps <= 1)%nat.
Proof.
  intros q numero mensaje op rd link w.
  apply (enviar_sms_ahora_a_lo_sumo q numero mensaje op rd link w).
Qed.

Lemma a_lo_sumo_por_cada :
  forall (A : Type) (cuerpo : A -> Sender.M unit) (l : list A),
    (forall x, a_lo_sumo 1 (cuerpo x)) ->
    a_lo_sumo (List.length l) (Sender.por_cada cuerpo l).
Proof.
  intros A cuerpo l H. induction l as [|x r IH]; cbn [Sender.por_cada].
  - apply a_lo_sumo_ret.
  - apply (a_lo_sumo_ligar _ _ 1 (List.length r)); [apply H|].
    intros _. exact IH.
Qed.

Lemma filter_mas_corta :
  forall (A : Type) (p : A -> bool) l,
    (List.length (filter p l) <= List.length l)%nat.
Proof.
  intros A p l. induction l as [|x r IH]; simpl; [lia|].
  destruct (p x); simpl; lia.
Qed.

Lemma pendientes_a_lo_sumo :
  forall limit now s,
    0 <= limit ->
    (List.length (limitar limit (ordenar (filter (elegible now)
                                                 (sms_queue s))))
     <= Nat.min (Z.to_nat limit) (List.length (sms_queue s)))%nat.
Proof.
  intros limit now s H.
  pose proof (limitar_length Fila limit
                (ordenar (filter (elegible now) (sms_queue s))) H) as L.
  rewrite (Permutation_length (ordenar_perm _)) in L.
  pose proof (filter_mas_corta Fila (elegible now) (sms_queue s)). lia.
Qed.

(** X23.  A pass over the queue sends at most one request per job it
    claims: [procesar_cola] adds at most 50 requests, and
    [reintentar_fallidos] at most 100, and neither more than there are
    jobs in the queue. *)
Theorem peticiones_por_pasada :
  forall w : Sender.Mundo,
    (exists ps,
        Sender.red
          (snd (Sender.procesar_cola obtener_operador firma_operador
                  traffilink_service red_responde
                  obtener_operador_siguiente w))
        = (Sender.red w ++ ps)%list
        /\ (List.length ps
            <= Nat.min 50 (List.length (sms_queue (Sender.db w))))%nat)
    /\ (exists ps,
           Sender.red
             (snd (Sender.reintentar_fallidos obtener_operador
                     firma_operador traffilink_service red_responde
                     obtener_operador_siguiente w))
           = (Sender.red w ++ ps)%list
           /\ (List.length ps
               <= Nat.min 100 (List.length (sms_queue (Sender.db w))))%nat).
Proof.
  intros w. split.
  - unfold Sender.procesar_cola, Sender.ligar at 1, Sender.en_db.
    rewrite obtener_pendientes_lee.
    pose proof (pendientes_a_lo_sumo 50 (Sender.reloj w) (Sender.db w)
                  ltac:(lia)) as L.
    set (l := limitar 50 _) in *.
    set (w0 := Sender.mk_mundo _ _ _ _).
    assert (H : a_lo_sumo (List.length l)
                  (Sender.por_cada
                     (fun item =>
                        Sender.ligar
                          (Sender.siguiente obtener_operador_siguiente
                             (intentos item) (Some (operador item)))
                          (fun o =>
                             Sender.ligar
                               (Sender.enviar_sms_ahora obtener_operador
                                  firma_operador traffilink_service
                                  red_responde (id item) (numero item)
                                  (mensaje item) (Sender.op_operador o)
                                  None None)
                               (fun _ => Sender.ret tt)))
                     l)).
    { apply a_lo_sumo_por_cada. intros item.
      apply (a_lo_sumo_ligar _ _ 0 1); [now apply a_lo_sumo_quieto|].
      intros o. apply (a_lo_sumo_ligar _ _ 1 0);
        [apply enviar_sms_ahora_a_lo_sumo|intros _; apply a_lo_sumo_ret]. }
    destruct (H w0) as (ps & E & Lp).
    destruct l as [|x r].
    + exists []. rewrite app_nil_r. split; [reflexivity|apply le_0_n].
    + exists ps. split; [exact E|].
      replace (Z.to_nat 50) with 50%nat in L by reflexivity. lia.
  - unfold Sender.reintentar_fallidos, Sender.ligar at 1, Sender.en_db.
    rewrite obtener_pendientes_lee.
    pose proof (pendientes_a_lo_sumo 100 (Sender.reloj w) (Sender.db w)
                  ltac:(lia)) as L.
    set (l := limitar 100 _) in *.
    set (w0 := Sender.mk_mundo _ _ _ _).
    assert (H : a_lo_sumo (List.length l)
                  (Sender.por_cada
                     (fun item =>
                        if (estado item =? "reintentando")%string
                        then
                          Sender.ligar
                            (Sender.siguiente obtener_operador_siguiente
                               (intentos item) None)
                            (fun o =>
                               Sender.ligar
                                 (Sender.enviar_sms_ahora obtener_operador
                                    firma_operador traffilink_service
                                    red_responde (id item) (numero item)
                                    (mensaje item) (Sender.op_operador o)
                                    None None)
                                 (fun _ => Sender.ret tt))
                        else Sender.ret tt)
                     l)).
    { apply a_lo_sumo_por_cada. intros item.
      destruct (_ =? _)%string;
        [|apply (a_lo_sumo_mas _ 0 1); [lia|apply a_lo_sumo_ret]].
      apply (a_lo_sumo_ligar _ _ 0 1); [now apply a_lo_sumo_quieto|].
      intros o. apply (a_lo_sumo_ligar _ _ 1 0);
        [apply enviar_sms_ahora_a_lo_sumo|intros _; apply a_lo_sumo_ret]. }
    destruct (H w0) as (ps & E & Lp).
    exists ps. split; [exact E|].
    replace (Z.to_nat 100) with 100%nat in L by reflexivity. lia.
Qed.

Lemma por_cada_nada :
  forall (A : Type) (cuerpo : A -> Sender.M unit) (l : list A) w,
    (forall x, In x l -> cuerpo x = Sender.ret tt) ->
    Sender.por_cada cuerpo l w = (Ok tt, w).
Proof.
  intros A cuerpo l w. induction l as [|x r IH]; intros H.
  - reflexivity.
  - cbn [Sender.por_cada]. unfold Sender.ligar.
    rewrite (H x (or_introl eq_refl)). cbn [Sender.ret].
    apply IH. intros y Hy. apply H. now right.
Qed.

Lemma pendientes_de_la_cola :
  forall limit now s x,
    In x (limitar limit (ordenar (filter (elegible now) (sms_queue s)))) ->
    In x (sms_queue s).
Proof.
  intros limit now s x H.
  assert (H1 : In x (ordenar (filter (elegible now) (sms_queue s)))).
  { rewrite <- (limitar_descartar Fila limit). apply in_or_app. now left. }
  apply (Permutation_in _ (ordenar_perm _)) in H1.
  now apply filter_In in H1.
Qed.

(** X24.  [reintentar_fallidos] acts on jobs in state 'reintentando'
    only: when the queue holds none -- whatever it holds of 'fallido'
    jobs -- it returns without a request and without a change to the
    database, the limiters or the clock. *)
Theorem reintentar_sin_reintentos :
  forall w : Sender.Mundo,
    Forall (fun f => estado f <> "reintentando")
           (sms_queue (Sender.db w)) ->
    Sender.reintentar_fallidos obtener_operador firma_operador
      traffilink_service red_responde obtener_operador_siguiente w
    = (Ok tt, w).
Proof.
  intros w H. unfold Sender.reintentar_fallidos, Sender.ligar at 1,
    Sender.en_db.
  rewrite obtener_pendientes_lee.
  rewrite por_cada_nada.
  - now destruct w.
  - intros x Hx. apply pendientes_de_la_cola in Hx. cbn [Sender.db] in Hx.
    apply (proj1 (Forall_forall _ _) H) in Hx.
    apply String.eqb_neq in Hx. now rewrite Hx.
Qed.

End Peticiones.

Lemma reintentar_sin_reintentos_witness :
  Forall (fun f => estado f <> "reintentando")
         (sms_queue (Sender.db mundo_con_fallido))
  /\ Sender.reintentar_fallidos router_de_prueba firma_de_prueba
       TraffiLink.servicio_por_defecto red_caida siguiente_de_prueba
       mundo_con_fallido
     = (Ok tt, mundo_con_fallido).
Proof.
  assert (H : Forall (fun f => estado f <> "reintentando")
                     (sms_queue (Sender.db mundo_con_fallido)))
    by (repeat constructor; discriminate).
  split; [exact H|].
  exact (reintentar_sin_reintentos router_de_prueba firma_de_prueba
           TraffiLink.servicio_por_defecto red_caida siguiente_de_prueba
           mundo_con_fallido H).
Defined.

Section Desenlace.

Variable obtener_operador : string -> option Sender.Operador.
Variable firma_operador : Sender.Operador -> Q -> string * string.
Variable traffilink_service : TraffiLink.TraffiLinkService.
Variable red_responde : Red.Peticion -> resultado Red.Respuesta * Q.

Lemma esperar_devuelve :
  forall reloj rl,
    1 <= RL.max_por_minuto rl ->
    exists rl' t', RL.esperar reloj rl = Ok (rl', t').
Proof.
  intros reloj rl H. unfold RL.esperar.
  destruct (RL.Qlt_bool (RL.tokens (RL._refill reloj rl)) 1) eqn:E;
    [|eauto].
  cbn [RL.max_por_minuto RL._refill].
  destruct (RL.max_por_minuto rl =? 0) eqn:E0; [apply Z.eqb_eq in E0; lia|].
  apply Qlt_bool_spec in E.
  assert (Hk : (0 < 60 / inject_Z (RL.max_por_minuto rl))%Q).
  { apply Qlt_shift_div_l; unfold Qlt; simpl; lia. }
  pose proof (espera_no_negativa _ _ E Hk) as Hw.
  cbn [RL.max_por_minuto RL._refill] in Hw.
  rewrite (proj2 (Qlt_bool_falso _ _) Hw). eauto.
Qed.

Lemma buscar_poner :
  forall k v d,
    Sender.buscar_limiter k (Sender.poner_limiter k v d) = Some v.
Proof.
  intros k v d. induction d as [|[c x] r IH]; simpl.
  - now rewrite String.eqb_refl.
  - destruct (c =? k)%string eqn:E; simpl; now rewrite E.
Qed.

(** With a limiter of capacity one or more -- on record, or about to be
    made from the operator's profile -- the two limiter steps pass, and
    touch neither the database nor the network. *)
Lemma limiter_concede :
  forall (B : Type) nombre cap (K : Sender.M B) w,
    match Sender.buscar_limiter nombre (Sender.rate_limiters w) with
    | Some rl => 1 <= RL.max_por_minuto rl
    | None => 1 <= cap
    end ->
    exists rls t,
      Sender.ligar (Sender.asegurar_limiter nombre cap)
        (fun _ => Sender.ligar (Sender.esperar_limiter nombre) (fun _ => K))
        w
      = K (Sender.mk_mundo (Sender.db w) rls t (Sender.red w)).
Proof.
  intros B nombre cap K w H.
  unfold Sender.ligar, Sender.asegurar_limiter, Sender.esperar_limiter.
  destruct (Sender.buscar_limiter nombre (Sender.rate_limiters w))
    as [rl|] eqn:E.
  - rewrite E.
    destruct (esperar_devuelve (Sender.reloj w) rl H) as (rl' & t' & Hr).
    rewrite Hr. eauto.
  - unfold RL.nuevo.
    destruct (cap <? 0) eqn:Ec; [apply Z.ltb_lt in Ec; lia|].
    cbn [Sender.rate_limiters Sender.reloj Sender.db Sender.red].
    rewrite buscar_poner.
    destruct (esperar_devuelve (Sender.reloj w)
                (RL.mk_rl cap true (inject_Z cap) (Sender.reloj w)
                          [] cap [] 0) H) as (rl' & t' & Hr).
    rewrite Hr. eauto.
Qed.

(** X25.  For a standard operator every completed exchange counts as a
    send.  When the text is not empty, the limiter has a capacity of at
    least one and the network answers -- with anything: the answer is
    not inspected -- [enviar_sms_ahora] reports success with that
    answer, one request has gone out, and a job on record is left in
    state 'enviado' with one more attempt, the answer as its last
    response and no retry time. *)
Theorem toda_respuesta_es_envio :
  forall (queue_id : Z) (numero mensaje operador_nombre : string)
         (row_data : option (list (string * string)))
         (link_dinamico : option string) (w : Sender.Mundo)
         (o : Sender.Operador) (f : Fila) (resp : Red.Respuesta) (dt : Q),
    operador_nombre <> "traffilink" ->
    obtener_operador operador_nombre = Some o ->
    Sender.preparar_mensaje mensaje numero row_data link_dinamico <> "" ->
    match Sender.buscar_limiter operador_nombre (Sender.rate_limiters w) with
    | Some rl => 1 <= RL.max_por_minuto rl
    | None => 1 <= Sender.op_max_por_minuto o
    end ->
    (forall p, red_responde p = (Ok resp, dt)) ->
    buscar queue_id (sms_queue (Sender.db w)) = Some f ->
    exists w' ms p g,
      Sender.enviar_sms_ahora obtener_operador firma_operador
        traffilink_service red_responde queue_id numero mensaje
        operador_nombre row_data link_dinamico w
      = (Ok (Sender.mk_envio true numero operador_nombre None
                             (Some (Red.como_texto resp)) (Some ms)), w')
      /\ Sender.red w' = (Sender.red w ++ [p])%list
      /\ buscar queue_id (sms_queue (Sender.db w')) = Some g
      /\ estado g = "enviado"
      /\ intentos g = intentos f + 1
      /\ respuesta_ultima g = Some (Red.como_texto resp)
      /\ proximo_reintento g = None.
Proof.
  intros q numero mensaje op rd link w o f resp dt Hop Ho Hm Hl Hr Hf.
  unfold Sender.enviar_sms_ahora.
  rewrite (proj2 (String.eqb_neq _ _) Hop), Ho, longitud_cero.
  rewrite (proj2 (String.eqb_neq _ _) Hm).
  match goal with
  | |- context [Sender.ligar (Sender.asegurar_limiter _ _)
                  (fun _ => Sender.ligar (Sender.esperar_limiter _)
                              (fun _ => ?K))] =>
      destruct (limiter_concede _ op (Sender.op_max_por_minuto o) K w Hl)
        as (rls & t & E)
  end.
  rewrite E. clear E.
  unfold Sender.ligar at 1, Sender.leer_reloj at 1.
  cbn [Sender.reloj].
  destruct (firma_operador o t) as [sign timestamp].
  unfold Sender.ligar at 1, Sender.leer_reloj at 1.
  unfold Sender.intentar, Sender.ligar at 1, Sender.post.
  rewrite Hr.
  unfold Sender.ligar at 1, Sender.leer_reloj.
  unfold Sender.ligar, Sender.registrar, Sender.en_db, Sender.ret.
  cbn [Sender.reloj Sender.db Sender.red Sender.rate_limiters].
  pose proof (actualizar_intento_forma q op "enviado"
                (Some (Red.como_texto resp)) None
                (Some (Sender.milisegundos t (t + dt)))
                (t + dt)%Q (Sender.db w)) as F.
  rewrite Hf in F. cbn [es_exito String.eqb Ascii.eqb Bool.eqb orb] in F.
  cbv zeta in F. rewrite F.
  do 4 eexists. split; [reflexivity|].
  cbn [Sender.red Sender.db sms_queue].
  split; [reflexivity|].
  split; [apply buscar_actualizar_fila; [reflexivity|exact Hf]|].
  repeat split.
Qed.

(** X26.  For a standard operator a failed exchange on a job on record
    is not recorded at all.  When the request raises -- a timeout or any
    other exception -- the call that should record the failure raises
    in turn, inside the exception handler: [enviar_sms_ahora] ends with
    an [IndexError], one request has gone out, and the database is as
    it was before the call, so that the job keeps its state and its
    attempt count. *)
Theorem fallo_de_red_no_se_registra :
  forall (queue_id : Z) (numero mensaje operador_nombre : string)
         (row_data : option (list (string * string)))
         (link_dinamico : option string) (w : Sender.Mundo)
         (o : Sender.Operador) (f : Fila) (e : excepcion) (dt : Q),
    operador_nombre <> "traffilink" ->
    obtener_operador operador_nombre = Some o ->
    Sender.preparar_mensaje mensaje numero row_data link_dinamico <> "" ->
    match Sender.buscar_limiter operador_nombre (Sender.rate_limiters w) with
    | Some rl => 1 <= RL.max_por_minuto rl
    | None => 1 <= Sender.op_max_por_minuto o
    end ->
    (forall p, red_responde p = (Lanza e, dt)) ->
    buscar queue_id (sms_queue (Sender.db w)) = Some f ->
    exists w' p,
      Sender.enviar_sms_ahora obtener_operador firma_operador
        traffilink_service red_responde queue_id numero mensaje
        operador_nombre row_data link_dinamico w
      = (Lanza (IndexError "No item with that key"), w')
      /\ Sender.red w' = (Sender.red w ++ [p])%list
      /\ Sender.db w' = Sender.db w.
Proof.
  intros q numero mensaje op rd link w o f e dt Hop Ho Hm Hl Hr Hf.
  unfold Sender.enviar_sms_ahora.
  rewrite (proj2 (String.eqb_neq _ _) Hop), Ho, longitud_cero.
  rewrite (proj2 (String.eqb_neq _ _) Hm).
  match goal with
  | |- context [Sender.ligar (Sender.asegurar_limiter _ _)
                  (fun _ => Sender.ligar (Sender.esperar_limiter _)
                              (fun _ => ?K))] =>
      destruct (limiter_concede _ op (Sender.op_max_por_minuto o) K w Hl)
        as (rls & t & E)
  end.
  rewrite E. clear E.
  unfold Sender.ligar at 1, Sender.leer_reloj at 1.
  cbn [Sender.reloj].
  destruct (firma_operador o t) as [sign timestamp].
  unfold Sender.ligar at 1, Sender.leer_reloj at 1.
  unfold Sender.intentar, Sender.ligar at 1, Sender.post.
  rewrite Hr.
  assert (Hreg : forall err,
             actualizar_intento q op "error" None err None (t + dt)%Q
                                (Sender.db w)
             = (Lanza (IndexError "No item with that key"), Sender.db w)).
  { intros err. apply (actualizar_intento_sin_exito _ _ f);
      [exact Hf|discriminate|discriminate]. }
  unfold Sender.manejar_error_post.
  destruct e;
    unfold Sender.ligar, Sender.registrar, Sender.en_db;
    cbn [Sender.reloj Sender.db Sender.red Sender.rate_limiters];
    rewrite Hreg; do 2 eexists;
    (split; [reflexivity|]); split; reflexivity.
Qed.

End Desenlace.

Lemma toda_respuesta_es_envio_witness :
  "principal" <> "traffilink"
  /\ router_de_prueba "principal" = Some operador_principal
  /\ Sender.preparar_mensaje "Hola" "3001234567" None None <> ""
  /\ buscar 1 (sms_queue (Sender.db mundo_con_aviso))
     = Some (fila_nueva 1 "3001234567" "Hola" (Some "c1") 1 None)
  /\ exists w' ms,
       Sender.enviar_sms_ahora router_de_prueba firma_de_prueba
         TraffiLink.servicio_por_defecto red_arriba
         1 "3001234567" "Hola" "principal" None None mundo_con_aviso
       = (Ok (Sender.mk_envio true "3001234567" "principal" None
                (Some "{'text': 'Internal Server Error', 'status_code': 500}")
                (Some ms)), w').
Proof.
  assert (H1 : "principal" <> "traffilink") by discriminate.
  assert (H3 : Sender.preparar_mensaje "Hola" "3001234567" None None <> "")
    by discriminate.
  assert (H4 : match Sender.buscar_limiter "principal"
                       (Sender.rate_limiters mundo_con_aviso) with
               | Some rl => 1 <= RL.max_por_minuto rl
               | None => 1 <= Sender.op_max_por_minuto operador_principal
               end) by (vm_compute; discriminate).
  split; [exact H1|]. split; [reflexivity|]. split; [exact H3|].
  split; [reflexivity|].
  destruct (toda_respuesta_es_envio router_de_prueba firma_de_prueba
              TraffiLink.servicio_por_defecto red_arriba
              1 "3001234567" "Hola" "principal" None None mundo_con_aviso
              operador_principal
              (fila_nueva 1 "3001234567" "Hola" (Some "c1") 1 None)
              (Red.mk_respuesta (Lanza JSONDecodeError)
                 "{'text': 'Internal Server Error', 'status_code': 500}")
              (1 # 2)%Q H1 eq_refl H3 H4 (fun _ => eq_refl) eq_refl)
    as (w' & ms & p & g & H & _).
  exists w', ms. exact H.
Defined.

Lemma fallo_de_red_no_se_registra_witness :
  "principal" <> "traffilink"
  /\ router_de_prueba "principal" = Some operador_principal
  /\ buscar 1 (sms_queue (Sender.db mundo_con_aviso))
     = Some (fila_nueva 1 "3001234567" "Hola" (Some "c1") 1 None)
  /\ exists w',
       Sender.enviar_sms_ahora router_de_prueba firma_de_prueba
         TraffiLink.servicio_por_defecto red_caida
         1 "3001234567" "Hola" "principal" None None mundo_con_aviso
       = (Lanza (IndexError "No item with that key"), w')
       /\ Sender.db w' = Sender.db mundo_con_aviso.
Proof.
  assert (H1 : "principal" <> "traffilink") by discriminate.
  assert (H3 : Sender.preparar_mensaje "Hola" "3001234567" None None <> "")
    by discriminate.
  assert (H4 : match Sender.buscar_limiter "principal"
                       (Sender.rate_limiters mundo_con_aviso) with
               | Some rl => 1 <= RL.max_por_minuto rl
               | None => 1 <= Sender.op_max_por_minuto operador_principal
               end) by (vm_compute; discriminate).
  split; [exact H1|]. split; [reflexivity|]. split; [reflexivity|].
  destruct (fallo_de_red_no_se_registra router_de_prueba firma_de_prueba
              TraffiLink.servicio_por_defecto red_caida
              1 "3001234567" "Hola" "principal" None None mundo_con_aviso
              operador_principal
              (fila_nueva 1 "3001234567" "Hola" (Some "c1") 1 None)
              Timeout 10%Q H1 eq_refl H3 H4 (fun _ => eq_refl) eq_refl)
    as (w' & p & H & _ & Hd).
  exists w'. split; [exact H|exact Hd].
Defined.

(* ================================================================== *)
(** * The health report *)

Section Salud.

Import Monitor.

Lemma exito_no_es_error :
  forall e, es_exito e = true -> (e =? "error")%string = false.
Proof.
  intros e H. unfold es_exito in H. apply orb_true_iff in H.
  destruct H as [H|H]; apply String.eqb_eq in H; now subst e.
Qed.

Lemma en_ordenar_stats :
  forall l x, In x (ordenar_stats l) -> In x l.
Proof.
  assert (Hc : forall r l x, In x (colocar_stats r l) -> x = r \/ In x l).
  { intros r l x. induction l as [|y t IH]; simpl.
    - intros [H|[]]; now left.
    - destruct (String.leb _ _); simpl; intuition. }
  induction l as [|r t IH]; simpl; [tauto|].
  intros x H. apply Hc in H. destruct H as [H|H]; [now left|].
  right. now apply IH.
Qed.

Ltac casos_if :=
  repeat match goal with
         | |- context [if ?b then _ else _] => destruct b
         end.

Lemma alertas_operador_motivo :
  forall ahora r a,
    In a (alertas_operador ahora r) ->
    a_operador a = Some (s_operador r)
    /\ (a_motivo a = TasaOperador \/ a_motivo a = SinExito).
Proof.
  intros ahora r a H. unfold alertas_operador in H.
  apply in_app_or in H. destruct H as [H|H].
  - revert H. unfold alerta_tasa. casos_if; intros H; simpl in H;
      try contradiction; destruct H as [<-|[]]; simpl; auto.
  - revert H. casos_if; intros H; simpl in H;
      try contradiction; destruct H as [<-|[]]; simpl; auto.
Qed.

Lemma alertas_globales_motivo :
  forall tasa total pendientes a,
    In a ((if total >? 0 then alerta_tasa tasa "GLOBAL" TasaGlobal else [])
          ++ (if pendientes >? UMBRAL_COLA_GRANDE
              then [alerta_cola] else []))%list ->
    a_motivo a = TasaGlobal \/ a_motivo a = ColaGrande.
Proof.
  intros tasa total pendientes a H. apply in_app_or in H.
  destruct H as [H|H].
  - revert H. unfold alerta_tasa. casos_if; intros H; simpl in H;
      try contradiction; destruct H as [<-|[]]; simpl; auto.
  - revert H. casos_if; intros H; simpl in H;
      try contradiction; destruct H as [<-|[]]; simpl; auto.
Qed.

Lemma o_cero_suma_si :
  forall p q, o_cero (suma_si p q) = Z.of_nat (List.length (filter p q)).
Proof.
  intros p [|f r]; [reflexivity|]. unfold suma_si, o_cero.
  destruct (_ =? 0) eqn:E; [|reflexivity].
  apply Z.eqb_eq in E. now rewrite E.
Qed.

Lemma tasa_umbral :
  forall a b f t,
    0 < t ->
    Qle_bool (a # b) (inject_Z f / inject_Z t)
    = (a * t <=? f * Z.pos b).
Proof.
  intros a b f t H. destruct t as [|p|p]; try lia.
  unfold Qle_bool, Qdiv, Qinv, Qmult, inject_Z. cbn [Qnum Qden].
  now rewrite Z.mul_1_r.
Qed.

Lemma alertas_globales_forma :
  forall f t,
    (if t >? 0
     then alerta_tasa (inject_Z f / inject_Z t) "GLOBAL" TasaGlobal
     else [])
    = if 0 <? t
      then if 5 * t <=? f * 10 then [alerta_critica]
           else if 2 * t <=? f * 10 then [alerta_alta] else []
      else [].
Proof.
  intros f t. rewrite Z.gtb_ltb. destruct (0 <? t) eqn:E; [|reflexivity].
  apply Z.ltb_lt in E. unfold alerta_tasa, UMBRAL_TASA_ERROR_CRITICA,
    UMBRAL_TASA_ERROR_ALTA.
  now rewrite !tasa_umbral by exact E.
Qed.

(** X28.  The global alerts, in whole numbers.  [verificar_salud_sistema]
    always returns and changes nothing.  It raises the critical alert
    exactly when at least half of the jobs are 'fallido', the warning on
    the error rate exactly when at least a fifth but less than half of
    them are, and the backlog warning exactly when more than 1000 jobs
    are pending or retrying; with an empty queue it raises none of the
    three. *)
Theorem alertas_globales_umbrales :
  forall (ahora : Q) (s : Store),
    let total := Z.of_nat (List.length (sms_queue s)) in
    let fallidos := cuantos (fun f => (estado f =? "fallido")%string) s in
    let pendientes :=
      cuantos (fun f => (estado f =? "pendiente")%string
                        || (estado f =? "reintentando")%string) s in
    exists salud,
      verificar_salud_sistema ahora s = (Ok salud, s)
      /\ (In alerta_critica (alertas salud)
          <-> 0 < total <= 2 * fallidos)
      /\ (In alerta_alta (alertas salud)
          <-> 2 * fallidos < total <= 5 * fallidos)
      /\ (In alerta_cola (alertas salud) <-> 1000 < pendientes).
Proof.
  intros ahora s. cbv zeta. unfold cuantos.
  unfold verificar_salud_sistema, obtener_estado_general,
    obtener_todas_stats, get_connection.
  eexists. split; [reflexivity|].
  cbn [alertas eg_total eg_fallidos eg_pendientes].
  rewrite !o_cero_suma_si.
  set (t := Z.of_nat (List.length (sms_queue s))).
  set (f := Z.of_nat (List.length (filter _ (sms_queue s)))).
  set (p := Z.of_nat (List.length (filter _ (sms_queue s)))).
  set (O := flat_map _ _).
  assert (HO : forall a, In a O ->
                         a_motivo a = TasaOperador \/ a_motivo a = SinExito).
  { intros a Ha. unfold O in Ha. apply in_flat_map in Ha.
    destruct Ha as (r & _ & Ha).
    now apply alertas_operador_motivo in Ha. }
  rewrite alertas_globales_forma. rewrite Z.gtb_ltb.
  unfold UMBRAL_COLA_GRANDE.
  assert (Hno : forall a,
             a_motivo a = TasaGlobal \/ a_motivo a = ColaGrande ->
             ~ In a O).
  { intros a Ha Hin. apply HO in Hin.
    destruct Ha as [Ha|Ha], Hin as [Hb|Hb]; congruence. }
  pose proof (Hno alerta_critica (or_introl eq_refl)) as N1.
  pose proof (Hno alerta_alta (or_introl eq_refl)) as N2.
  pose proof (Hno alerta_cola (or_intror eq_refl)) as N3.
  clearbody O. clear HO Hno.
  destruct (0 <? t) eqn:E0;
    [apply Z.ltb_lt in E0|apply Z.ltb_ge in E0];
    (destruct (5 * t <=? f * 10) eqn:E1;
     [apply Z.leb_le in E1|apply Z.leb_gt in E1]);
    (destruct (2 * t <=? f * 10) eqn:E2;
     [apply Z.leb_le in E2|apply Z.leb_gt in E2]);
    (destruct (1000 <? p) eqn:E3;
     [apply Z.ltb_lt in E3|apply Z.ltb_ge in E3]);
    rewrite ?in_app_iff; cbn [In app];
    (split; [|split]); split; intros H;
    repeat match goal with
           | H : _ \/ _ |- _ => destruct H
           | H : False |- _ => destruct H
           | H : In _ O |- _ => contradiction
           | H : _ = _ :> Alerta |- _ => discriminate H
           end;
    try lia; auto.
Qed.

(** X29.  An inactivity alert names an operator with a recorded error
    and a last success more than 300 seconds old: whatever the
    statistics hold, an operator that has no success on record is never
    reported inactive. *)
Theorem alerta_de_inactividad :
  forall (ahora : Q) (s : Store) (salud : Salud) (a : Alerta),
    fst (verificar_salud_sistema ahora s) = Ok salud ->
    In a (alertas salud) ->
    a_motivo a = SinExito ->
    exists r t,
      In r (operator_stats s)
      /\ a_operador a = Some (s_operador r)
      /\ s_ultimo_error_timestamp r <> None
      /\ s_ultimo_exito_timestamp r = Some t
      /\ (300 < ahora - t)%Q.
Proof.
  intros ahora s salud a Hv Ha Hm.
  unfold verificar_salud_sistema, obtener_estado_general,
    obtener_todas_stats, get_connection in Hv.
  cbn [fst] in Hv. injection Hv as <-. cbn [alertas] in Ha.
  rewrite app_assoc in Ha. apply in_app_or in Ha. destruct Ha as [Ha|Ha].
  { apply alertas_globales_motivo in Ha. destruct Ha; congruence. }
  apply in_flat_map in Ha. destruct Ha as (r & Hr & Ha).
  apply en_ordenar_stats in Hr. cbn [snd operator_stats] in Hr.
  unfold alertas_operador in Ha. apply in_app_or in Ha.
  destruct Ha as [Ha|Ha].
  { exfalso. revert Ha. unfold alerta_tasa. casos_if; intros Ha;
      simpl in Ha; try contradiction; destruct Ha as [<-|[]];
      discriminate. }
  revert Ha.
  destruct (hay_tiempo (s_ultimo_error_timestamp r)) eqn:Ee; [|intros []].
  destruct (RL.Qlt_bool _ _) eqn:Et; [|intros []]. intros [<-|[]].
  apply Qlt_bool_spec in Et.
  destruct (s_ultimo_exito_timestamp r) as [t|] eqn:Ex.
  - exists r, t. split; [exact Hr|]. split; [reflexivity|].
    split; [now destruct (s_ultimo_error_timestamp r)|].
    split; [exact Ex|].
    destruct (hay_tiempo (Some t)); [exact Et|].
    exfalso. apply (Qlt_irrefl 300). eapply Qlt_trans; [exact Et|].
    unfold UMBRAL_TIMEOUT_OPERADOR.
    assert (Hz : (ahora - ahora == 0)%Q) by apply Qplus_opp_r.
    rewrite Hz. reflexivity.
  - exfalso. cbn [hay_tiempo] in Et. apply (Qlt_irrefl 300).
    eapply Qlt_trans; [exact Et|].
    assert (Hz : (ahora - ahora == 0)%Q) by apply Qplus_opp_r.
    rewrite Hz. reflexivity.
Qed.

Lemma alerta_de_inactividad_witness :
  exists salud,
    fst (verificar_salud_sistema 1000 almacen_con_estadisticas) = Ok salud
    /\ alertas salud = [mk_alerta "ALERTA" "WARNING" (Some "principal")
                                  SinExito]
    /\ exists r t,
         In r (operator_stats almacen_con_estadisticas)
         /\ s_operador r = "principal"
         /\ s_ultimo_exito_timestamp r = Some t
         /\ (300 < 1000 - t)%Q.
Proof.
  eexists. split; [reflexivity|]. split; [reflexivity|].
  destruct (alerta_de_inactividad 1000 almacen_con_estadisticas _
              (mk_alerta "ALERTA" "WARNING" (Some "principal") SinExito)
              eq_refl (or_introl eq_refl) eq_refl)
    as (r & t & H1 & H2 & _ & H4 & H5).
  exists r, t. split; [exact H1|]. split; [|split; [exact H4|exact H5]].
  simpl in H2. congruence.
Defined.

Lemma ordenar_stats_perm :
  forall l, Permutation (ordenar_stats l) l.
Proof.
  assert (Hc : forall r l, Permutation (colocar_stats r l) (r :: l)).
  { intros r l. induction l as [|x t IH]; simpl; [reflexivity|].
    destruct (String.leb _ _); [reflexivity|].
    rewrite IH. apply perm_swap. }
  induction l as [|r t IH]; simpl; [reflexivity|].
  rewrite Hc. now constructor.
Qed.

Lemma hay_tiempo_spec :
  forall o, hay_tiempo o = true <-> exists x, o = Some x /\ ~ (x == 0)%Q.
Proof.
  intros [x|]; cbn [hay_tiempo].
  - rewrite negb_true_iff. split.
    + intros H. exists x. split; [reflexivity|]. now apply Qeq_bool_neq.
    + intros (y & [= <-] & H).
      destruct (Qeq_bool x 0) eqn:E; [|reflexivity].
      apply Qeq_bool_eq in E. contradiction.
  - split; [discriminate|]. intros (y & H & _). discriminate.
Qed.

Lemma tasa_error_actual_eq :
  forall r, (tasa_error_actual r == tasa_de r)%Q.
Proof.
  intros r. unfold tasa_error_actual, tasa_de.
  destruct (s_tasa_error_actual r) as [x|]; [|reflexivity].
  destruct (Qeq_bool x 0) eqn:E; [|reflexivity].
  apply Qeq_bool_eq in E. now symmetry.
Qed.

Lemma alerta_tasa_vacia :
  forall x op m, alerta_tasa x op m = [] <-> (x < 2 # 10)%Q.
Proof.
  intros x op m. unfold alerta_tasa, UMBRAL_TASA_ERROR_CRITICA,
    UMBRAL_TASA_ERROR_ALTA.
  destruct (Qle_bool (5 # 10) x) eqn:E1.
  - split; [discriminate|]. intros H. apply Qle_bool_iff in E1.
    exfalso. apply (Qlt_not_le _ _ H).
    eapply Qle_trans; [|exact E1]. discriminate.
  - destruct (Qle_bool (2 # 10) x) eqn:E2.
    + split; [discriminate|]. intros H. apply Qle_bool_iff in E2.
      exfalso. exact (Qlt_not_le _ _ H E2).
    + split; [|reflexivity]. intros _. apply Qnot_le_lt. intros L.
      apply Qle_bool_iff in L. congruence.
Qed.

Lemma sin_espera : forall ahora : Q, ~ (300 < ahora - ahora)%Q.
Proof.
  intros ahora H. apply (Qlt_irrefl 300). eapply Qlt_trans; [exact H|].
  assert (Hz : (ahora - ahora == 0)%Q) by apply Qplus_opp_r.
  rewrite Hz. reflexivity.
Qed.

(** The checks on one operator raise nothing exactly when its stored
    rate is below a fifth and it is not inactive. *)
Lemma alertas_operador_vacia :
  forall ahora r, alertas_operador ahora r = [] <-> operador_sano ahora r.
Proof.
  intros ahora r. unfold alertas_operador, operador_sano,
    UMBRAL_TIMEOUT_OPERADOR.
  rewrite <- (tasa_error_actual_eq r). split.
  - intros H. apply app_eq_nil in H. destruct H as [H1 H2].
    split; [now apply alerta_tasa_vacia in H1|].
    intros (te & t & He & Hte & Hx & Ht & Hlt).
    assert (E1 : hay_tiempo (s_ultimo_error_timestamp r) = true)
      by (apply hay_tiempo_spec; eauto).
    assert (E2 : hay_tiempo (s_ultimo_exito_timestamp r) = true)
      by (apply hay_tiempo_spec; eauto).
    rewrite E1, E2, Hx in H2.
    rewrite (proj2 (Qlt_bool_spec _ _) Hlt) in H2. discriminate.
  - intros [Ht Hi].
    rewrite (proj2 (alerta_tasa_vacia _ _ _) Ht). cbn [app].
    destruct (hay_tiempo (s_ultimo_error_timestamp r)) eqn:E1;
      [|reflexivity].
    apply hay_tiempo_spec in E1. destruct E1 as (te & He & Hte).
    destruct (hay_tiempo (s_ultimo_exito_timestamp r)) eqn:E3.
    + apply hay_tiempo_spec in E3. destruct E3 as (t & Hx & Htz).
      rewrite Hx.
      destruct (RL.Qlt_bool 300 (ahora - t)) eqn:E2; [|reflexivity].
      exfalso. apply Qlt_bool_spec in E2. apply Hi. exists te, t. auto.
    + destruct (RL.Qlt_bool 300 (ahora - ahora)) eqn:E2; [|reflexivity].
      exfalso. apply Qlt_bool_spec in E2. exact (sin_espera ahora E2).
Qed.

Lemma flat_map_vacio :
  forall (A B : Type) (g : A -> list B) (l : list A),
    flat_map g l = [] <-> Forall (fun x => g x = []) l.
Proof.
  intros A B g l. induction l as [|x r IH]; cbn [flat_map].
  - split; [constructor|reflexivity].
  - split.
    + intros H. apply app_eq_nil in H. destruct H as [H1 H2].
      constructor; [exact H1|now apply IH].
    + intros H. inversion H as [|y t H1 H2]; subst.
      rewrite H1. now apply IH.
Qed.

(** The per-operator alerts of a report are empty exactly when every
    operator on record is in good standing. *)
Lemma alertas_de_operadores_vacias :
  forall ahora s,
    flat_map (alertas_operador ahora) (ordenar_stats (operator_stats s)) = []
    <-> Forall (operador_sano ahora) (operator_stats s).
Proof.
  intros ahora s. rewrite flat_map_vacio, !Forall_forall. split.
  - intros H r Hr. apply alertas_operador_vacia. apply H.
    apply (Permutation_in _ (Permutation_sym (ordenar_stats_perm _))).
    exact Hr.
  - intros H r Hr. apply alertas_operador_vacia. apply H.
    now apply en_ordenar_stats.
Qed.

Lemma fila_sin_errores_sana :
  forall ahora r, fila_sin_errores r -> operador_sano ahora r.
Proof.
  intros ahora r [He Ht]. split.
  - unfold tasa_de. rewrite Ht. reflexivity.
  - intros (te & t & H & _). congruence.
Qed.

(** What the operations of the store keep: every failed attempt is
    rolled back, so no job is left retrying or failed, and no operator
    row carries an error. *)
Lemma sin_fallos_despues :
  forall op s,
    Forall estado_sin_fallo (sms_queue s)
    /\ Forall fila_sin_errores (operator_stats s) ->
    Forall estado_sin_fallo (sms_queue (despues op s))
    /\ Forall fila_sin_errores (operator_stats (despues op s)).
Proof.
  intros [n m c md t|l t|q o e r err ms t|n c t] s [Hq Ho]; cbn [despues].
  - unfold agregar_a_cola, get_connection, insertar.
    destruct (existsb _ _); cbn [snd sms_queue operator_stats];
      [now split|].
    split; [|exact Ho]. apply Forall_app. split; [exact Hq|].
    constructor; [now left|constructor].
  - now split.
  - pose proof (actualizar_intento_forma q o e r err ms t s) as F.
    destruct (buscar q (sms_queue s)) as [f|]; [|now rewrite F].
    destruct (es_exito e) eqn:E; [|now rewrite F].
    cbv zeta in F. rewrite F. cbn [snd sms_queue operator_stats]. split.
    + apply Forall_actualizar_fila; [|exact Hq].
      intros x. unfold estado_sin_fallo. cbn [estado fila_actualizada].
      unfold es_exito in E. apply orb_true_iff in E.
      destruct E as [E|E]; apply String.eqb_eq in E; auto.
    + unfold upsert_stats. destruct (existsb _ _).
      * apply Forall_map. eapply Forall_impl; [|exact Ho].
        intros x [H1 H2]. destruct (s_operador x =? o)%string;
          [|now split].
        unfold fila_sin_errores.
        cbn [stats_actualizada s_ultimo_error_timestamp
             s_tasa_error_actual].
        rewrite (exito_no_es_error e E). now split.
      * apply Forall_app. split; [exact Ho|].
        constructor; [now split|constructor].
  - unfold confirmar_entrega, get_connection.
    pose proof (Forall_actualizar_primera estado_sin_fallo
                  (por_confirmar n) (fun f => fila_entregada f t)
                  (sms_queue s)) as F.
    destruct (actualizar_primera _ _ _) as [q' k]. cbn [fst] in F.
    assert (Hq' : Forall estado_sin_fallo q').
    { apply F; [|exact Hq]. intros f. right. now right. }
    destruct (k >? 0); cbn [snd sms_queue operator_stats con_cola];
      now split.
Qed.

Lemma sin_fallos_tras :
  forall ops s,
    Forall estado_sin_fallo (sms_queue s)
    /\ Forall fila_sin_errores (operator_stats s) ->
    Forall estado_sin_fallo (sms_queue (tras ops s))
    /\ Forall fila_sin_errores (operator_stats (tras ops s)).
Proof.
  unfold tras. induction ops as [|op r IH]; intros s H; [exact H|].
  cbn [fold_left]. apply IH. now apply sin_fallos_despues.
Qed.

Lemma filter_sin_fallo :
  forall q,
    Forall estado_sin_fallo q ->
    filter (fun f => (estado f =? "fallido")%string) q = []
    /\ filter (fun f => (estado f =? "pendiente")%string
                        || (estado f =? "reintentando")%string) q
       = filter (fun f => (estado f =? "pendiente")%string) q.
Proof.
  intros q H. induction H as [|f r Hf _ [IH1 IH2]]; [now split|].
  cbn [filter]. rewrite IH1, IH2.
  destruct Hf as [E|[E|E]]; rewrite E; now split.
Qed.

(** X27.  The only alert the monitor can raise is the backlog alert.
    In every store that the operations of the database module build
    from the empty one, no job is retrying or failed and no operator
    row carries an error time or a rate other than the default -- a
    failed attempt on a job on record is rolled back, and one on an
    unknown job returns before the statistics.  So
    [verificar_salud_sistema], which returns and changes nothing,
    raises there no alert on an error rate and none on an operator: its
    alerts are the backlog alert when more than 1000 jobs are pending,
    and nothing otherwise. *)
Theorem monitor_sin_alertas_de_operador :
  forall (ops : list operacion) (ahora : Q),
    let s := tras ops vacio in
    Forall estado_sin_fallo (sms_queue s)
    /\ Forall fila_sin_errores (operator_stats s)
    /\ exists salud,
         verificar_salud_sistema ahora s = (Ok salud, s)
         /\ alertas salud
            = if 1000 <? cuantos (fun f => (estado f =? "pendiente")%string) s
              then [alerta_cola] else [].
Proof.
  intros ops ahora. cbv zeta.
  destruct (sin_fallos_tras ops vacio (conj (Forall_nil _) (Forall_nil _)))
    as [Hq Ho].
  set (s := tras ops vacio) in *.
  split; [exact Hq|]. split; [exact Ho|].
  unfold verificar_salud_sistema, obtener_estado_general,
    obtener_todas_stats, get_connection.
  eexists. split; [reflexivity|].
  cbn [alertas eg_total eg_fallidos eg_pendientes].
  assert (HO : flat_map (alertas_operador ahora)
                 (ordenar_stats (operator_stats s)) = []).
  { apply alertas_de_operadores_vacias.
    eapply Forall_impl; [|exact Ho]. apply fila_sin_errores_sana. }
  rewrite HO, app_nil_r, !o_cero_suma_si, alertas_globales_forma.
  destruct (filter_sin_fallo _ Hq) as [Hf Hp]. rewrite Hf, Hp.
  unfold cuantos, UMBRAL_COLA_GRANDE. rewrite Z.gtb_ltb.
  change (Z.of_nat (List.length (@nil Fila))) with 0. rewrite Z.mul_0_l.
  destruct (0 <? _) eqn:E0; [|reflexivity].
  apply Z.ltb_lt in E0.
  destruct (5 * _ <=? 0) eqn:E1; [apply Z.leb_le in E1; lia|].
  destruct (2 * _ <=? 0) eqn:E2; [apply Z.leb_le in E2; lia|].
  reflexivity.
Qed.

End Salud.

Section Tablero.

Import Monitor.

(** X30.  What the dashboard calls good health.  Whatever the store
    holds, [obtener_dashboard_datos] returns and changes nothing; its
    five metrics are the counts of the queue, and it reports 'BUENA'
    exactly when fewer than a fifth of the jobs are 'fallido', at most
    1000 are pending or retrying, and every operator on record has a
    stored error rate below a fifth and is not inactive -- inactive
    meaning an error on record and a last success more than 300
    seconds old.  Otherwise it reports 'PROBLEMAS'. *)
Theorem salud_general_buena :
  forall (ahora : Q) (s : Store),
    let total := Z.of_nat (List.length (sms_queue s)) in
    let fallidos := cuantos (fun f => (estado f =? "fallido")%string) s in
    let pendientes :=
      cuantos (fun f => (estado f =? "pendiente")%string
                        || (estado f =? "reintentando")%string) s in
    exists d,
      obtener_dashboard_datos ahora s = (Ok d, s)
      /\ (salud_general d = "BUENA"
          <-> (total = 0 \/ 5 * fallidos < total)
              /\ pendientes <= 1000
              /\ Forall (operador_sano ahora) (operator_stats s))
      /\ (salud_general d = "BUENA" \/ salud_general d = "PROBLEMAS")
      /\ t_total_sms d = total
      /\ t_fallidos d = fallidos
      /\ t_pendientes d = pendientes
      /\ t_entregados d
         = cuantos (fun f => (estado f =? "entregado")%string) s
      /\ t_enviados d
         = cuantos (fun f => (estado f =? "enviado")%string) s.
Proof.
  intros ahora s. cbv zeta.
  unfold cuantos, obtener_dashboard_datos, verificar_salud_sistema,
    obtener_estado_general, obtener_todas_stats, get_connection.
  eexists. split; [reflexivity|].
  cbn [salud_general hay_alertas estado_general t_total_sms t_fallidos
       t_pendientes t_entregados t_enviados eg_total eg_fallidos
       eg_pendientes eg_entregados eg_enviados].
  rewrite !o_cero_suma_si, alertas_globales_forma.
  pose proof (alertas_de_operadores_vacias ahora s) as HO.
  set (O := flat_map _ _) in *.
  set (t := Z.of_nat (List.length (sms_queue s))).
  set (f := Z.of_nat (List.length (filter _ (sms_queue s)))).
  set (p := Z.of_nat (List.length (filter _ (sms_queue s)))).
  assert (Ht : 0 <= t) by apply Nat2Z.is_nonneg.
  assert (Hf : 0 <= f) by apply Nat2Z.is_nonneg.
  split; [|split; [|split]].
  - rewrite <- HO. clear HO. rewrite Z.gtb_ltb.
    unfold UMBRAL_COLA_GRANDE.
    destruct (0 <? t) eqn:E0;
      [apply Z.ltb_lt in E0|apply Z.ltb_ge in E0];
      (destruct (5 * t <=? f * 10) eqn:E1;
       [apply Z.leb_le in E1|apply Z.leb_gt in E1]);
      (destruct (2 * t <=? f * 10) eqn:E2;
       [apply Z.leb_le in E2|apply Z.leb_gt in E2]);
      (destruct (1000 <? p) eqn:E3;
       [apply Z.ltb_lt in E3|apply Z.ltb_ge in E3]);
      destruct O as [|a O'];
      cbn [app List.length Nat.eqb negb];
      (split;
       [intros Hb; try discriminate Hb;
        (split; [lia|split; [lia|reflexivity]])
       |intros (H1 & H2 & H3); try reflexivity; try discriminate H3; lia]).
  - destruct (negb (negb _)); [left|right]; reflexivity.
  - unfold o_cero. destruct (t =? 0) eqn:E; [|reflexivity].
    apply Z.eqb_eq in E. now rewrite E.
  - repeat split.
Qed.

End Tablero.
